(** * Connector connection-state reconciliation: service and router

    A shallow embedding of [src/main/composio-service.ts] (the
    [ComposioService] class) and of the connectors router
    ([src/main/lib/trpc/routers/composio.ts]), followed by the properties
    of the connection lifecycle, of the two persisted tables and of the two
    process-local caches.

    Conventions of the embedding:
    - a JS string is a [string]; [toUpperCase] upper-cases the letters
      a..z and leaves every other character alone (the remote status
      vocabulary is ASCII);
    - [undefined]/[null] fields of remote JSON are [None]; JS truthiness
      of such a field is [truthy];
    - the remote API is an oracle of the environment: the answer to a
      request may depend on all requests issued before it;
    - the database is a pair of row lists; [.get()] returns the first
      matching row, [update ... where] rewrites every matching row and
      [insert] appends a row under a fresh id;
    - [Date.now()]/[new Date()] read the clock of the world, which each
      awaited remote request advances by the latency the environment
      gives it. *)

From Stdlib Require Import String Ascii List ZArith Bool Lia.
From Stdlib Require Import DecimalString Permutation.
From Stdlib Require OrderedTypeEx.
Import ListNotations.

Local Open Scope Z_scope.
Local Open Scope list_scope.
Local Open Scope string_scope.

(** ** JavaScript values *)

Module Js.

(** [String.prototype.toUpperCase], on ASCII letters. *)
Definition upper_ascii (c : ascii) : ascii :=
  let n := nat_of_ascii c in
  if ((97 <=? n)%nat && (n <=? 122)%nat)%bool
  then ascii_of_nat (n - 32)
  else c.

Fixpoint toUpperCase (s : string) : string :=
  match s with
  | EmptyString => EmptyString
  | String c rest => String (upper_ascii c) (toUpperCase rest)
  end.

(** Truthiness of a possibly missing string: missing and empty are falsy. *)
Definition truthy (o : option string) : bool :=
  match o with
  | Some s => negb (s =? EmptyString)
  | None => false
  end.

(** [a || b] on possibly missing strings. *)
Definition or_else (a b : option string) : option string :=
  if truthy a then a else b.

(** [a === b] where [a] may be missing and [b] is a string. *)
Definition strict_eq (a : option string) (b : string) : bool :=
  match a with
  | Some s => s =? b
  | None => false
  end.

(** [a === b] on two possibly missing strings ([null === null] holds). *)
Definition strict_eq_opt (a b : option string) : bool :=
  match a, b with
  | Some x, Some y => x =? y
  | None, None => true
  | _, _ => false
  end.

(** [Array.prototype.sort()] with the default comparison, on strings:
    ascending in code-unit order. *)
Fixpoint insert_sorted (x : string) (l : list string) : list string :=
  match l with
  | [] => [x]
  | y :: rest =>
      if String.leb x y then x :: y :: rest else y :: insert_sorted x rest
  end.

Fixpoint sort (l : list string) : list string :=
  match l with
  | [] => []
  | x :: rest => insert_sorted x (sort rest)
  end.

(** [sortedA.every((val, idx) => val === sortedB[idx])]: past the end of
    [b] the index reads [undefined], which equals no string. *)
Fixpoint every_eq (a b : list string) : bool :=
  match a with
  | [] => true
  | x :: a' =>
      match b with
      | [] => false
      | y :: b' => (x =? y) && every_eq a' b'
      end
  end.

(** Decimal rendering of an integer inside a template literal. *)
Definition string_of_Z (z : Z) : string :=
  NilZero.string_of_int (Z.to_int z).

End Js.

(** ** Data model *)

(** [ConnectionStatus] of composio-service.ts. *)
Inductive ConnectionStatus : Type :=
| connected
| disconnected
| pending
| error.

Definition status_eqb (a b : ConnectionStatus) : bool :=
  match a, b with
  | connected, connected
  | disconnected, disconnected
  | pending, pending
  | error, error => true
  | _, _ => false
  end.

(** [interface McpServer]; the id and the name come from remote JSON and
    may be missing at run time. *)
Record McpServer : Type := mkMcpServer {
  ms_id : option string;
  ms_name : option string;
  ms_toolkits : list string
}.

(** Row of [composio_connections]. *)
Record ConnectionRecord : Type := mkConnection {
  c_id : nat;
  c_clerkUserId : string;
  c_toolkitName : string;
  c_displayName : string;
  c_status : ConnectionStatus;
  c_connectedAt : option Z;
  c_metadata : option string;
  c_createdAt : option Z;
  c_updatedAt : option Z
}.

(** Row of [composio_enabled_toolkits]. *)
Record EnabledToolkitRecord : Type := mkEnabled {
  e_id : nat;
  e_clerkUserId : string;
  e_toolkitName : string;
  e_enabled : bool;
  e_createdAt : option Z
}.

(** *** Remote JSON shapes *)

Record ServerJson : Type := mkServerJson {
  sj_id : option string;
  sj_name : option string;
  sj_toolkits : option (list string)
}.

Record AuthConfigJson : Type := mkAuthConfigJson {
  ac_id : option string;
  ac_is_composio_managed : bool;
  ac_status : option string;
  ac_is_disabled : bool
}.

Record ToolkitRef : Type := mkToolkitRef {
  tk_slug : option string;
  tk_name : option string
}.

Record AccountJson : Type := mkAccountJson {
  a_id : option string;
  a_toolkit : option ToolkitRef;
  a_toolkit_slug : option string;
  a_toolkitSlug : option string;
  a_toolkit_name : option string;
  a_appName : option string;
  a_status : option string
}.

(** The requests the service sends (the API key header is the same on all
    of them and is left out). *)
Inductive Request : Type :=
| ListMcpServers
| CreateMcpServer (name : string) (toolkits : list string)
| GenerateMcpUrl (mcp_server_id : option string) (user_id : string)
| ListAuthConfigs (toolkit_slug : string)
| CreateAuthConfig (toolkit_slug : string)
| CreateLink (auth_config_id user_id callback_url : string)
| ListConnectedAccounts (user_id : string) (toolkit_slug : option string)
| DeleteConnectedAccount (connectionId : string).

(** What a request body holds, by endpoint; a field the code reads and the
    body lacks is [None] (or the empty list for [items]). *)
Inductive Body : Type :=
| ServersBody (items : list ServerJson)
| CreatedServerBody (id mcp_server_id : option string)
| UrlBody (user_ids_url0 url mcp_url : option string)
| AuthConfigsBody (items : list AuthConfigJson)
| CreatedAuthConfigBody (auth_config_id : option string)
| LinkBody (redirect_url redirectUrl url
            connected_account_id connectionId id : option string)
| AccountsBody (items : list AccountJson)
| EmptyBody.

(** Outcome of [await fetch(...)] followed by reading the body:
    [Rejected] is any exception raised inside the enclosing [try]. *)
Inductive Response : Type :=
| Rejected
| NotOk
| Ok (body : Body).

(** Result of [JSON.parse(metadata)] followed by [.connectionId]. *)
Inductive ParsedMetadata : Type :=
| ParseThrows
| NoConnectionId
| HasConnectionId (id : string).

Record ClerkUser : Type := mkUser { u_id : string }.

(** Everything outside the program. *)
Record Env : Type := mkEnv {
  apiKey : string;                               (* MAIN_VITE_COMPOSIO_API_KEY *)
  isPackaged : bool;                             (* app.isPackaged *)
  getUser : option ClerkUser;                    (* clerkAuth.getUser() *)
  remote : list Request -> Request -> Response;  (* the remote API *)
  latency : list Request -> Request -> Z;        (* time an await takes *)
  shellOpens : string -> bool;                   (* openExternal resolves *)
  JSON_parse : string -> ParsedMetadata;
  JSON_stringify : option string -> string;      (* of { connectionId } *)
  timestampDefault : Z -> option Z               (* ORM default of the
                                                    created/updated columns *)
}.

(** The five private fields of [ComposioService]. *)
Record ServiceCache : Type := mkCache {
  cachedMcpServer : option McpServer;
  cachedMcpUrl : option string;
  mcpUrlExpiry : Z;
  cachedUserId : option string;
  cachedToolkits : list string
}.

Definition initialCache : ServiceCache :=
  mkCache None None 0 None [].

(** The mutable world: both tables, the id source, the service singleton,
    the requests sent so far, the clock and the URLs handed to the
    browser. *)
Record World : Type := mkWorld {
  connections : list ConnectionRecord;
  enabledToolkits : list EnabledToolkitRecord;
  nextId : nat;
  service : ServiceCache;
  trace : list Request;
  clock : Z;
  opened : list string
}.

Definition set_connections (f : list ConnectionRecord -> list ConnectionRecord)
  (w : World) : World :=
  mkWorld (f (connections w)) (enabledToolkits w) (nextId w) (service w)
          (trace w) (clock w) (opened w).

Definition set_enabledToolkits
  (f : list EnabledToolkitRecord -> list EnabledToolkitRecord)
  (w : World) : World :=
  mkWorld (connections w) (f (enabledToolkits w)) (nextId w) (service w)
          (trace w) (clock w) (opened w).

Definition set_service (f : ServiceCache -> ServiceCache) (w : World) : World :=
  mkWorld (connections w) (enabledToolkits w) (nextId w) (f (service w))
          (trace w) (clock w) (opened w).

Definition bump_nextId (w : World) : World :=
  mkWorld (connections w) (enabledToolkits w) (S (nextId w)) (service w)
          (trace w) (clock w) (opened w).

(** ** State monad over the world *)

Definition St (A : Type) : Type := World -> A * World.

Definition ret {A} (a : A) : St A := fun w => (a, w).

Definition bind {A B} (m : St A) (k : A -> St B) : St B :=
  fun w => let (a, w') := m w in k a w'.

Declare Scope st_scope.
Delimit Scope st_scope with st.
Notation "x <- m ;; k" := (bind m (fun x => k))
  (at level 100, m at next level, right associativity) : st_scope.
Notation "m ;;; k" := (bind m (fun _ => k))
  (at level 100, right associativity) : st_scope.
Local Open Scope st_scope.

Definition modify (f : World -> World) : St unit := fun w => (tt, f w).
Definition gets {A} (f : World -> A) : St A := fun w => (f w, w).

(** [Date.now()] and [new Date()]. *)
Definition now : St Z := gets clock.

(** [await fetch(...)] and the reading of its body. *)
Definition fetch (env : Env) (req : Request) : St Response :=
  fun w =>
    (remote env (trace w) req,
     mkWorld (connections w) (enabledToolkits w) (nextId w) (service w)
             (trace w ++ [req]) (clock w + latency env (trace w) req)
             (opened w)).

(** [await shell.openExternal(url)]; [false] when the promise rejects. *)
Definition openExternal (env : Env) (url : string) : St bool :=
  if shellOpens env url
  then fun w =>
    (true,
     mkWorld (connections w) (enabledToolkits w) (nextId w) (service w)
             (trace w) (clock w) (opened w ++ [url]))
  else ret false.

(** ** composio-service.ts *)

Module ComposioService.

Definition COMPOSIO_PROTOCOL (env : Env) : string :=
  if isPackaged env then "anchor" else "anchor-dev".

Definition isConfigured (env : Env) : bool :=
  negb (apiKey env =? EmptyString).

(** [user?.id || null] *)
Definition getClerkUserId (env : Env) : option string :=
  match getUser env with
  | Some u => Js.or_else (Some (u_id u)) None
  | None => None
  end.

Definition arraysEqual (a b : list string) : bool :=
  if negb (Nat.eqb (List.length a) (List.length b)) then false
  else Js.every_eq (Js.sort a) (Js.sort b).

Definition invalidateSession : St unit :=
  modify (set_service (fun _ => initialCache)).

(** [servers.find(s => s.toolkits &&
      this.arraysEqual(s.toolkits.sort(), toolkits.sort()))].
    Both [sort()] calls sort in place, so the search also returns the
    caller's array as the visited servers left it, and the server found
    carries its sorted toolkit list. *)
Fixpoint findServer (servers : list ServerJson) (toolkits : list string)
  : option ServerJson * list string :=
  match servers with
  | [] => (None, toolkits)
  | s :: rest =>
      match sj_toolkits s with
      | None => findServer rest toolkits
      | Some ts =>
          let ts' := Js.sort ts in
          let toolkits' := Js.sort toolkits in
          if arraysEqual ts' toolkits'
          then (Some (mkServerJson (sj_id s) (sj_name s) (Some ts')), toolkits')
          else findServer rest toolkits'
      end
  end.

(** [this.cachedMcpServer = srv; this.cachedToolkits = toolkits;
    return this.cachedMcpServer] *)
Definition cacheServer (srv : McpServer) (toolkits : list string)
  : St (option McpServer) :=
  modify (set_service (fun c =>
    mkCache (Some srv) (cachedMcpUrl c) (mcpUrlExpiry c) (cachedUserId c)
            toolkits)) ;;;
  ret (Some srv).

(** Lines 119-156: create a new remote server. *)
Definition createMcpServer (env : Env) (toolkits : list string)
  : St (option McpServer) :=
  t <- now ;;
  let serverName := "anchor-" ++ Js.string_of_Z t in
  createResponse <- fetch env (CreateMcpServer serverName toolkits) ;;
  match createResponse with
  | Ok createData =>
      let serverId :=
        match createData with
        | CreatedServerBody id nested => Js.or_else id nested
        | _ => None
        end in
      if Js.truthy serverId
      then cacheServer (mkMcpServer serverId (Some serverName) toolkits)
                       toolkits
      else ret None
  | _ => ret None
  end.

(** The [try] block of [getOrCreateMcpServer] (lines 90-160): look for
    a remote server with these toolkits, create one if there is none. *)
Definition findOrCreateMcpServer (env : Env) (toolkits : list string)
  : St (option McpServer) :=
  listResponse <- fetch env ListMcpServers ;;
  match listResponse with
  | Rejected => ret None
  | NotOk => createMcpServer env toolkits
  | Ok listData =>
      let servers :=
        match listData with ServersBody items => items | _ => [] end in
      let (existingServer, toolkits') := findServer servers toolkits in
      match existingServer with
      | Some s =>
          cacheServer
            (mkMcpServer (sj_id s) (sj_name s)
               (match sj_toolkits s with
                | Some ts => ts
                | None => toolkits'
                end))
            toolkits'
      | None => createMcpServer env toolkits'
      end
  end.

Definition getOrCreateMcpServer (env : Env) (toolkits : list string)
  : St (option McpServer) :=
  cache <- gets service ;;
  match cachedMcpServer cache with
  | Some srv =>
      if arraysEqual (cachedToolkits cache) toolkits
      then ret (Some srv)
      else findOrCreateMcpServer env toolkits
  | None => findOrCreateMcpServer env toolkits
  end.

Definition MCP_URL_TTL : Z := 30 * 60 * 1000.

Definition generateMcpUrl (env : Env) (serverId : option string)
  (userId : string) : St (option string) :=
  cache <- gets service ;;
  t <- now ;;
  if (Js.truthy (cachedMcpUrl cache)
      && Js.strict_eq_opt (cachedUserId cache) (Some userId)
      && Z.ltb t (mcpUrlExpiry cache))%bool
  then ret (cachedMcpUrl cache)
  else
    response <- fetch env (GenerateMcpUrl serverId userId) ;;
    match response with
    | Ok data =>
        let mcpUrl :=
          match data with
          | UrlBody user_ids_url0 url mcp_url =>
              Js.or_else (Js.or_else user_ids_url0 url) mcp_url
          | _ => None
          end in
        if Js.truthy mcpUrl
        then
          t' <- now ;;
          modify (set_service (fun c =>
            mkCache (cachedMcpServer c) mcpUrl (t' + MCP_URL_TTL)
                    (Some userId) (cachedToolkits c))) ;;;
          ret mcpUrl
        else ret None
    | _ => ret None
    end.

Record McpConfig : Type := mkMcpConfig {
  url : string;
  x_api_key : string
}.

Definition getMcpConfig (env : Env) (enabledToolkits : option (list string))
  : St (option McpConfig) :=
  if negb (isConfigured env) then ret None
  else
    match getClerkUserId env with
    | None => ret None
    | Some userId =>
        let toolkits :=
          match enabledToolkits with Some l => l | None => [] end in
        if Nat.eqb (List.length toolkits) 0 then ret None
        else
          mcpServer <- getOrCreateMcpServer env toolkits ;;
          match mcpServer with
          | None => ret None
          | Some srv =>
              mcpUrl <- generateMcpUrl env (ms_id srv) userId ;;
              match mcpUrl with
              | Some u =>
                  if Js.truthy mcpUrl
                  then ret (Some (mkMcpConfig u (apiKey env)))
                  else ret None
              | None => ret None
              end
          end
    end.

Definition getAuthConfigId (env : Env) (toolkitSlug : string)
  : St (option string) :=
  response <- fetch env (ListAuthConfigs toolkitSlug) ;;
  match response with
  | Ok data =>
      let configs :=
        match data with AuthConfigsBody items => items | _ => [] end in
      match configs with
      | [] =>
          createResponse <- fetch env (CreateAuthConfig toolkitSlug) ;;
          match createResponse with
          | Ok createData =>
              let authConfigId :=
                match createData with
                | CreatedAuthConfigBody id => id
                | _ => None
                end in
              if Js.truthy authConfigId then ret authConfigId else ret None
          | _ => ret None
          end
      | first :: _ =>
          let composioManaged := List.find ac_is_composio_managed configs in
          let enabledConfig :=
            List.find
              (fun c => (Js.strict_eq (ac_status c) "ACTIVE"
                         || negb (ac_is_disabled c))%bool)
              configs in
          let id_of (o : option AuthConfigJson) :=
            match o with Some c => ac_id c | None => None end in
          ret (Js.or_else
                 (Js.or_else
                    (Js.or_else (id_of composioManaged) (id_of enabledConfig))
                    (ac_id first))
                 None)
      end
  | _ => ret None
  end.

Record LinkResult : Type := mkLinkResult {
  redirectUrl : option string;
  connectionId : option string
}.

Definition authorizeToolkit (env : Env) (toolkitName : string)
  : St (option LinkResult) :=
  if negb (isConfigured env) then ret None
  else
    match getClerkUserId env with
    | None => ret None
    | Some userId =>
        authConfigId <- getAuthConfigId env toolkitName ;;
        match authConfigId with
        | Some cfg =>
            if Js.truthy authConfigId
            then
              response <-
                fetch env
                  (CreateLink cfg userId
                     (COMPOSIO_PROTOCOL env ++ "://composio-callback")) ;;
              match response with
              | Ok data =>
                  let result :=
                    match data with
                    | LinkBody redirect_url redirectUrl url
                               connected_account_id connectionId id =>
                        mkLinkResult
                          (Js.or_else (Js.or_else redirect_url redirectUrl) url)
                          (Js.or_else
                             (Js.or_else connected_account_id connectionId) id)
                    | _ => mkLinkResult None None
                    end in
                  match redirectUrl result with
                  | Some target =>
                      if Js.truthy (redirectUrl result)
                      then
                        shown <- openExternal env target ;;
                        if shown then ret (Some result) else ret None
                      else ret (Some result)
                  | None => ret (Some result)
                  end
              | _ => ret None
              end
            else ret None
        | None => ret None
        end
    end.

(** Lines 488-494: the remote status vocabulary mapped to the local one,
    from [connection.status?.toUpperCase()]. *)
Definition mapStatus (remoteStatus : option string) : ConnectionStatus :=
  let status := option_map Js.toUpperCase remoteStatus in
  if Js.strict_eq status "ACTIVE" then connected
  else if (Js.strict_eq status "INITIATED"
           || Js.strict_eq status "INITIALIZING")%bool then pending
  else if (Js.strict_eq status "FAILED"
           || Js.strict_eq status "EXPIRED"
           || Js.strict_eq status "INACTIVE")%bool then error
  else disconnected.

Definition toolkitSlugOf (a : AccountJson) : option string :=
  match a_toolkit a with Some t => tk_slug t | None => None end.

Definition getConnectionStatus (env : Env) (toolkitName : string)
  : St ConnectionStatus :=
  if negb (isConfigured env) then ret disconnected
  else
    match getClerkUserId env with
    | None => ret disconnected
    | Some userId =>
        response <-
          fetch env (ListConnectedAccounts userId (Some toolkitName)) ;;
        match response with
        | Ok data =>
            let conns :=
              match data with AccountsBody items => items | _ => [] end in
            match
              List.find
                (fun c => (Js.strict_eq (toolkitSlugOf c) toolkitName
                           || Js.strict_eq (a_toolkit_slug c) toolkitName
                           || Js.strict_eq (a_toolkitSlug c) toolkitName)%bool)
                conns
            with
            | None => ret disconnected
            | Some connection => ret (mapStatus (a_status connection))
            end
        | _ => ret error
        end
    end.

Definition getConnectedAccounts (env : Env) : St (list AccountJson) :=
  if negb (isConfigured env) then ret []
  else
    match getClerkUserId env with
    | None => ret []
    | Some userId =>
        response <- fetch env (ListConnectedAccounts userId None) ;;
        match response with
        | Ok data =>
            ret (match data with AccountsBody items => items | _ => [] end)
        | _ => ret []
        end
    end.

Definition disconnectToolkit (env : Env) (connectionId : string) : St bool :=
  if negb (isConfigured env) then ret false
  else
    response <- fetch env (DeleteConnectedAccount connectionId) ;;
    match response with
    | Ok _ => invalidateSession ;;; ret true
    | _ => ret false
    end.

End ComposioService.

(** ** The two tables *)

Module Db.

(** [and(eq(clerkUserId, user), eq(toolkitName, toolkit))] on
    [composio_connections]. *)
Definition connectionOf (user toolkit : string) (r : ConnectionRecord)
  : bool :=
  ((c_clerkUserId r =? user) && (c_toolkitName r =? toolkit))%bool.

(** The same condition on [composio_enabled_toolkits]. *)
Definition enabledOf (user toolkit : string) (r : EnabledToolkitRecord)
  : bool :=
  ((e_clerkUserId r =? user) && (e_toolkitName r =? toolkit))%bool.

(** [db.update(table).set(f).where(p).run()] *)
Definition updateWhere {A} (p : A -> bool) (f : A -> A) (rows : list A)
  : list A :=
  List.map (fun r => if p r then f r else r) rows.

(** [db.select().from(table).where(p).get()] *)
Definition selectGet {A} (p : A -> bool) (rows : list A) : option A :=
  List.find p rows.

(** [db.insert(composioConnections).values({...}).run()]; the columns the
    statement leaves out take their defaults. *)
Definition insertConnection (env : Env) (user toolkit displayName : string)
  (status : ConnectionStatus) (connectedAt : option Z)
  (metadata : option string) : St unit :=
  fun w =>
    (tt,
     bump_nextId
       (set_connections
          (fun rows =>
             (rows ++ [mkConnection (nextId w) user toolkit displayName
                         status connectedAt metadata
                         (timestampDefault env (clock w))
                         (timestampDefault env (clock w))])%list)
          w)).

(** [db.insert(composioEnabledToolkits).values({...}).run()] *)
Definition insertEnabled (env : Env) (user toolkit : string) (enabled : bool)
  : St unit :=
  fun w =>
    (tt,
     bump_nextId
       (set_enabledToolkits
          (fun rows =>
             (rows ++ [mkEnabled (nextId w) user toolkit enabled
                         (timestampDefault env (clock w))])%list)
          w)).

Definition setEnabled (b : bool) (r : EnabledToolkitRecord)
  : EnabledToolkitRecord :=
  mkEnabled (e_id r) (e_clerkUserId r) (e_toolkitName r) b (e_createdAt r).

End Db.

(** ** The connectors router *)

Module Router.

Inductive ErrorCode : Type :=
| UNAUTHORIZED
| INTERNAL_SERVER_ERROR.

Record TRPCError : Type := mkTRPCError {
  code : ErrorCode;
  message : string
}.

(** A procedure returns a value or throws; what it wrote before it threw
    stays written. *)
Inductive Outcome (A : Type) : Type :=
| Return (a : A)
| Throw (e : TRPCError).
Arguments Return {A} a.
Arguments Throw {A} e.

Definition requireAuth (env : Env) : Outcome string :=
  match getUser env with
  | Some user =>
      if Js.truthy (Some (u_id user)) then Return (u_id user)
      else Throw (mkTRPCError UNAUTHORIZED "Login required for Connectors")
  | None => Throw (mkTRPCError UNAUTHORIZED "Login required for Connectors")
  end.

(** The find-then-update-or-insert on [composio_enabled_toolkits] of
    [toggleToolkit] (lines 150-174) and of [pollConnectionStatus] (lines
    344-368). *)
Definition upsertEnabled (env : Env) (clerkUserId toolkitName : string)
  (enabled : bool) : St unit :=
  existing <-
    gets (fun w =>
            Db.selectGet (Db.enabledOf clerkUserId toolkitName)
                         (enabledToolkits w)) ;;
  match existing with
  | Some row =>
      modify (set_enabledToolkits
                (Db.updateWhere (fun r => Nat.eqb (e_id r) (e_id row))
                                (Db.setEnabled enabled)))
  | None => Db.insertEnabled env clerkUserId toolkitName enabled
  end.

Definition toggleToolkit (env : Env) (toolkitName : string) (enabled : bool)
  : St (Outcome bool) :=
  match requireAuth env with
  | Throw e => ret (Throw e)
  | Return clerkUserId =>
      upsertEnabled env clerkUserId toolkitName enabled ;;;
      ComposioService.invalidateSession ;;;
      ret (Return true)
  end.

Record ConnectResult : Type := mkConnectResult {
  r_connectionId : option string;
  r_redirectUrl : option string;
  r_status : ConnectionStatus
}.

Definition connectFailure (displayName : string) : TRPCError :=
  mkTRPCError INTERNAL_SERVER_ERROR
    ("Cannot connect to " ++ displayName
     ++ ". This app may not support OAuth authentication or requires manual API key setup in Composio dashboard.").

Definition connect (env : Env) (toolkitName displayName : string)
  : St (Outcome ConnectResult) :=
  match requireAuth env with
  | Throw e => ret (Throw e)
  | Return clerkUserId =>
      existing <-
        gets (fun w =>
                Db.selectGet (Db.connectionOf clerkUserId toolkitName)
                             (connections w)) ;;
      match existing with
      | Some row =>
          t <- now ;;
          modify (set_connections
                    (Db.updateWhere
                       (fun r => Nat.eqb (c_id r) (c_id row))
                       (fun r =>
                          mkConnection (c_id r) (c_clerkUserId r)
                            (c_toolkitName r) (c_displayName r) pending
                            (c_connectedAt r) (c_metadata r) (c_createdAt r)
                            (Some t))))
      | None =>
          Db.insertConnection env clerkUserId toolkitName displayName
            pending None None
      end ;;;
      result <- ComposioService.authorizeToolkit env toolkitName ;;
      match result with
      | None =>
          t <- now ;;
          modify (set_connections
                    (Db.updateWhere
                       (Db.connectionOf clerkUserId toolkitName)
                       (fun r =>
                          mkConnection (c_id r) (c_clerkUserId r)
                            (c_toolkitName r) (c_displayName r) error
                            (c_connectedAt r) (c_metadata r) (c_createdAt r)
                            (Some t)))) ;;;
          ret (Throw (connectFailure displayName))
      | Some link =>
          ret (Return
                 (mkConnectResult (ComposioService.connectionId link)
                    (ComposioService.redirectUrl link) pending))
      end
  end.

Definition disconnect (env : Env) (toolkitName : string)
  : St (Outcome bool) :=
  match requireAuth env with
  | Throw e => ret (Throw e)
  | Return clerkUserId =>
      connection <-
        gets (fun w =>
                Db.selectGet (Db.connectionOf clerkUserId toolkitName)
                             (connections w)) ;;
      match connection with
      | Some row =>
          match c_metadata row with
          | Some text =>
              if Js.truthy (c_metadata row)
              then
                match JSON_parse env text with
                | HasConnectionId id =>
                    ComposioService.disconnectToolkit env id ;;; ret tt
                | NoConnectionId => ret tt
                | ParseThrows => ret tt
                end
              else ret tt
          | None => ret tt
          end
      | None => ret tt
      end ;;;
      t <- now ;;
      modify (set_connections
                (Db.updateWhere
                   (Db.connectionOf clerkUserId toolkitName)
                   (fun r =>
                      mkConnection (c_id r) (c_clerkUserId r)
                        (c_toolkitName r) (c_displayName r) disconnected
                        None None (c_createdAt r) (Some t)))) ;;;
      modify (set_enabledToolkits
                (Db.updateWhere
                   (Db.enabledOf clerkUserId toolkitName)
                   (Db.setEnabled false))) ;;;
      ComposioService.invalidateSession ;;;
      ret (Return true)
  end.

Definition pollConnectionStatus (env : Env) (toolkitName : string)
  : St (Outcome ConnectionStatus) :=
  match requireAuth env with
  | Throw e => ret (Throw e)
  | Return clerkUserId =>
      status <- ComposioService.getConnectionStatus env toolkitName ;;
      t <- now ;;
      modify (set_connections
                (Db.updateWhere
                   (Db.connectionOf clerkUserId toolkitName)
                   (fun r =>
                      mkConnection (c_id r) (c_clerkUserId r)
                        (c_toolkitName r) (c_displayName r) status
                        (if status_eqb status connected then Some t else None)
                        (c_metadata r) (c_createdAt r) (Some t)))) ;;;
      (if status_eqb status connected
       then
         upsertEnabled env clerkUserId toolkitName true ;;;
         ComposioService.invalidateSession
       else ret tt) ;;;
      ret (Return status)
  end.

(** Lines 392-396 and 399: the toolkit name of a remote account, [None]
    when every candidate is falsy. *)
Definition accountToolkitName (account : AccountJson) : option string :=
  let candidate :=
    Js.or_else
      (Js.or_else
         (Js.or_else (ComposioService.toolkitSlugOf account)
                     (a_toolkit_slug account))
         (a_toolkit_name account))
      (a_appName account) in
  if Js.truthy candidate then candidate else None.

(** Lines 404-405. *)
Definition syncStatus (account : AccountJson) : ConnectionStatus :=
  if Js.strict_eq (option_map Js.toUpperCase (a_status account)) "ACTIVE"
  then connected
  else disconnected.

(** Line 433: [account.toolkit?.name || account.toolkit_name ||
    toolkitName]. *)
Definition accountDisplayName (account : AccountJson) (toolkitName : string)
  : string :=
  match
    Js.or_else
      (Js.or_else
         (match a_toolkit account with Some t => tk_name t | None => None end)
         (a_toolkit_name account))
      (Some toolkitName)
  with
  | Some name => name
  | None => toolkitName
  end.

(** The auto-enable of [syncConnections] (lines 442-472): an existing row
    is written only when it is not enabled yet. *)
Definition enableIfConnected (env : Env) (clerkUserId toolkitName : string)
  : St unit :=
  existingEnabled <-
    gets (fun w =>
            Db.selectGet (Db.enabledOf clerkUserId toolkitName)
                         (enabledToolkits w)) ;;
  match existingEnabled with
  | Some row =>
      if negb (e_enabled row)
      then
        modify (set_enabledToolkits
                  (Db.updateWhere (fun r => Nat.eqb (e_id r) (e_id row))
                                  (Db.setEnabled true)))
      else ret tt
  | None => Db.insertEnabled env clerkUserId toolkitName true
  end.

(** Lines 407-439: update the pair's connection row, or insert one. *)
Definition storeAccount (env : Env) (clerkUserId toolkitName : string)
  (account : AccountJson) (status : ConnectionStatus) : St unit :=
  existing <-
    gets (fun w =>
            Db.selectGet (Db.connectionOf clerkUserId toolkitName)
                         (connections w)) ;;
  t <- now ;;
  match existing with
  | Some row =>
      modify (set_connections
                (Db.updateWhere
                   (fun r => Nat.eqb (c_id r) (c_id row))
                   (fun r =>
                      mkConnection (c_id r) (c_clerkUserId r)
                        (c_toolkitName r) (c_displayName r) status
                        (if status_eqb status connected
                         then Some t else None)
                        (Some (JSON_stringify env (a_id account)))
                        (c_createdAt r) (Some t))))
  | None =>
      Db.insertConnection env clerkUserId toolkitName
        (accountDisplayName account toolkitName) status
        (if status_eqb status connected then Some t else None)
        (Some (JSON_stringify env (a_id account)))
  end.

(** One turn of the loop of [syncConnections]; [false] when the account
    is skipped. *)
Definition syncAccount (env : Env) (clerkUserId : string)
  (account : AccountJson) : St bool :=
  match accountToolkitName account with
  | None => ret false
  | Some toolkitName =>
      let status := syncStatus account in
      storeAccount env clerkUserId toolkitName account status ;;;
      (if status_eqb status connected
       then enableIfConnected env clerkUserId toolkitName
       else ret tt) ;;;
      ret true
  end.

Fixpoint syncAccounts (env : Env) (clerkUserId : string)
  (accounts : list AccountJson) (syncedCount : nat) : St nat :=
  match accounts with
  | [] => ret syncedCount
  | account :: rest =>
      synced <- syncAccount env clerkUserId account ;;
      syncAccounts env clerkUserId rest
        (if synced then S syncedCount else syncedCount)
  end.

Definition syncConnections (env : Env) : St (Outcome nat) :=
  match requireAuth env with
  | Throw e => ret (Throw e)
  | Return clerkUserId =>
      accounts <- ComposioService.getConnectedAccounts env ;;
      synced <- syncAccounts env clerkUserId accounts 0 ;;
      ret (Return synced)
  end.

Definition getMcpConfig (env : Env)
  : St (option ComposioService.McpConfig) :=
  if negb (ComposioService.isConfigured env) then ret None
  else
    match requireAuth env with
    | Throw _ => ret None
    | Return clerkUserId =>
        enabledNames <-
          gets (fun w =>
                  List.map e_toolkitName
                    (List.filter
                       (fun r => ((e_clerkUserId r =? clerkUserId)
                                  && Bool.eqb (e_enabled r) true)%bool)
                       (enabledToolkits w))) ;;
        if Nat.eqb (List.length enabledNames) 0 then ret None
        else ComposioService.getMcpConfig env (Some enabledNames)
    end.

End Router.

(** ** What the tables say about a (user, toolkit) pair *)

Definition connectionRecord (user toolkit : string) (w : World)
  : option ConnectionRecord :=
  Db.selectGet (Db.connectionOf user toolkit) (connections w).

Definition enabledRecord (user toolkit : string) (w : World)
  : option EnabledToolkitRecord :=
  Db.selectGet (Db.enabledOf user toolkit) (enabledToolkits w).

(** The status and the flag as [listToolkits] shows them (lines 90-91):
    a pair without a row is disconnected and not enabled. *)
Definition currentStatus (user toolkit : string) (w : World)
  : ConnectionStatus :=
  match connectionRecord user toolkit w with
  | Some row => c_status row
  | None => disconnected
  end.

Definition isEnabled (user toolkit : string) (w : World) : bool :=
  match enabledRecord user toolkit w with
  | Some row => e_enabled row
  | None => false
  end.

(** The invariant between the two tables: an enabled toolkit is connected. *)
Definition consistent (w : World) : Prop :=
  forall user toolkit,
    isEnabled user toolkit w = true -> currentStatus user toolkit w = connected.

(** The mutating procedures as steps on the world; each step runs in the
    environment of its time. *)
Inductive Operation : Type :=
| Connect (toolkitName displayName : string)
| Disconnect (toolkitName : string)
| ToggleToolkit (toolkitName : string) (enabled : bool)
| PollConnectionStatus (toolkitName : string)
| SyncConnections.

Definition perform (step : Env * Operation) (w : World) : World :=
  let (env, op) := step in
  match op with
  | Connect toolkitName displayName =>
      snd (Router.connect env toolkitName displayName w)
  | Disconnect toolkitName => snd (Router.disconnect env toolkitName w)
  | ToggleToolkit toolkitName enabled =>
      snd (Router.toggleToolkit env toolkitName enabled w)
  | PollConnectionStatus toolkitName =>
      snd (Router.pollConnectionStatus env toolkitName w)
  | SyncConnections => snd (Router.syncConnections env w)
  end.

Definition performAll (steps : list (Env * Operation)) (w : World) : World :=
  List.fold_left (fun w step => perform step w) steps w.

(** The steps that only ever take a toolkit out of use. *)
Definition withdraws (step : Env * Operation) : bool :=
  match snd step with
  | Disconnect _ => true
  | ToggleToolkit _ false => true
  | _ => false
  end.

(** [needle] occurs in [text]. *)
Definition mentions (text needle : string) : Prop :=
  exists before after, text = before ++ needle ++ after.

(** What [pollConnectionStatus] writes into a connection row. *)
Definition polledRow (status : ConnectionStatus) (t : Z) (r : ConnectionRecord)
  : ConnectionRecord :=
  mkConnection (c_id r) (c_clerkUserId r) (c_toolkitName r) (c_displayName r)
    status (if status_eqb status connected then Some t else None)
    (c_metadata r) (c_createdAt r) (Some t).

(** The remote answer that [getConnectionStatus] reads as a status: the
    first account of the answer that names the toolkit. *)
Definition observedAccount (env : Env) (user toolkitName : string) (w : World)
  : option AccountJson :=
  match remote env (trace w) (ListConnectedAccounts user (Some toolkitName)) with
  | Ok (AccountsBody items) =>
      List.find
        (fun c => (Js.strict_eq (ComposioService.toolkitSlugOf c) toolkitName
                   || Js.strict_eq (a_toolkit_slug c) toolkitName
                   || Js.strict_eq (a_toolkitSlug c) toolkitName)%bool)
        items
  | _ => None
  end.

(** What [disconnect] writes into a connection row. *)
Definition disconnectedRow (t : Z) (r : ConnectionRecord) : ConnectionRecord :=
  mkConnection (c_id r) (c_clerkUserId r) (c_toolkitName r) (c_displayName r)
    disconnected None None (c_createdAt r) (Some t).

(** What [connect] writes into the pair's rows when the authorization
    could not be started. *)
Definition failedRow (t : Z) (r : ConnectionRecord) : ConnectionRecord :=
  mkConnection (c_id r) (c_clerkUserId r) (c_toolkitName r) (c_displayName r)
    error (c_connectedAt r) (c_metadata r) (c_createdAt r) (Some t).

(** The URL a mint answer carries, as [generateMcpUrl] reads it (lines
    195-211): none when the request failed or no candidate is truthy. *)
Definition mintedUrl (response : Response) : option string :=
  match response with
  | Ok (UrlBody user_ids_url0 url mcp_url) =>
      let mcpUrl := Js.or_else (Js.or_else user_ids_url0 url) mcp_url in
      if Js.truthy mcpUrl then mcpUrl else None
  | _ => None
  end.

(** ** A concrete environment: user u1, toolkit github *)

Module Scenario.

Definition quote : string := String (ascii_of_nat 34) EmptyString.

(** [JSON.stringify({ connectionId })] for an id without characters to
    escape; a missing id gives the empty object. *)
Definition stringify (id : option string) : string :=
  match id with
  | Some s =>
      "{" ++ quote ++ "connectionId" ++ quote ++ ":" ++ quote ++ s ++ quote
      ++ "}"
  | None => "{}"
  end.

Definition metadataPrefix : string :=
  "{" ++ quote ++ "connectionId" ++ quote ++ ":" ++ quote.

(** [JSON.parse] on the texts of this scenario: the object written by
    [stringify], the empty object, and text that is not JSON. *)
Definition parse (text : string) : ParsedMetadata :=
  if String.prefix metadataPrefix text
  then HasConnectionId
         (String.substring (String.length metadataPrefix)
            (String.length text - String.length metadataPrefix - 2) text)
  else if text =? "{}" then NoConnectionId
  else ParseThrows.

Definition account (status : string) : AccountJson :=
  mkAccountJson (Some "ca_1")
    (Some (mkToolkitRef (Some "github") (Some "GitHub")))
    None None None None (Some status).

(** A remote that reports one github account in the given status, has no
    MCP server yet, creates one on request, mints URLs, has no auth
    config for any toolkit and cannot create one, and fails every
    delete. *)
Definition remoteWith (status : string) (history : list Request)
  (req : Request) : Response :=
  match req with
  | ListMcpServers => Ok (ServersBody [])
  | CreateMcpServer _ _ => Ok (CreatedServerBody (Some "srv_1") None)
  | GenerateMcpUrl _ user =>
      Ok (UrlBody (Some ("https://mcp.example/srv_1?user_id=" ++ user))
                  None None)
  | ListAuthConfigs _ => Ok (AuthConfigsBody [])
  | CreateAuthConfig _ => NotOk
  | CreateLink _ _ _ => NotOk
  | ListConnectedAccounts _ _ => Ok (AccountsBody [account status])
  | DeleteConnectedAccount _ => Rejected
  end.

Definition envWith (user : option ClerkUser) (status : string) : Env :=
  mkEnv "key" false user (remoteWith status) (fun _ _ => 150)
        (fun _ => true) parse stringify (fun t => Some t).

Definition u1 : option ClerkUser := Some (mkUser "u1").

Definition emptyWorld : World :=
  mkWorld [] [] 0 initialCache [] 1000 [].

(** github connected and enabled for u1, with unreadable metadata. *)
Definition connectedWorld : World :=
  mkWorld
    [mkConnection 0 "u1" "github" "GitHub" connected (Some 900)
       (Some "not json") (Some 800) (Some 900)]
    [mkEnabled 1 "u1" "github" true (Some 900)]
    2 initialCache [] 1000 [].

(** github pending for u1, nothing enabled. *)
Definition pendingWorld : World :=
  mkWorld
    [mkConnection 0 "u1" "github" "GitHub" pending None None (Some 800)
       (Some 800)]
    [] 1 initialCache [] 1000 [].

End Scenario.


(** ** Reading the session cache and the remote server list *)

(** The cache test of [getOrCreateMcpServer] (lines 83-88) fails. *)
Definition sessionCacheMisses (toolkits : list string) (w : World) : bool :=
  match cachedMcpServer (service w) with
  | Some _ =>
      negb (ComposioService.arraysEqual (cachedToolkits (service w)) toolkits)
  | None => true
  end.

(** A listed server serves exactly the requested toolkits. *)
Definition serverMatches (toolkits : list string) (s : ServerJson) : bool :=
  match sj_toolkits s with
  | Some ts => ComposioService.arraysEqual ts toolkits
  | None => false
  end.

(** The servers of a list answer ([listData.items || []]). *)
Definition listedServers (response : Response) : list ServerJson :=
  match response with
  | Ok (ServersBody items) => items
  | _ => []
  end.

(** The id a create answer carries ([createData.id ||
    createData.mcp_server?.id]), none when the request failed or the id is
    falsy. *)
Definition createdServerId (response : Response) : option string :=
  match response with
  | Ok (CreatedServerBody id nested) =>
      if Js.truthy (Js.or_else id nested) then Js.or_else id nested else None
  | _ => None
  end.

(** ** More concrete environments *)

Module Cases.

(** A server the remote already has for gmail and github. *)
Definition listedServer : ServerJson :=
  mkServerJson (Some "srv_9") (Some "anchor-77") (Some ["gmail"; "github"]).

(** The remote of [Scenario], except that it lists [listedServer] after a
    server for slack alone. *)
Definition remoteListing (history : list Request) (req : Request) : Response :=
  match req with
  | ListMcpServers =>
      Ok (ServersBody
            [mkServerJson (Some "srv_3") (Some "anchor-5") (Some ["slack"]);
             listedServer])
  | _ => Scenario.remoteWith "ACTIVE" history req
  end.

Definition envListing : Env :=
  mkEnv "key" false Scenario.u1 remoteListing (fun _ _ => 150)
        (fun _ => true) Scenario.parse Scenario.stringify (fun t => Some t).

(** The remote of [Scenario], except that it reports three accounts: one
    without any toolkit name, github ACTIVE under the nested slug, and
    slack EXPIRED under the legacy field. *)
Definition namelessAccount : AccountJson :=
  mkAccountJson (Some "ca_0") (Some (mkToolkitRef None (Some "Unnamed")))
    None None (Some EmptyString) None (Some "ACTIVE").

Definition slackAccount : AccountJson :=
  mkAccountJson (Some "ca_2") None (Some "slack") None None None
    (Some "EXPIRED").

Definition remoteMixed (history : list Request) (req : Request) : Response :=
  match req with
  | ListConnectedAccounts _ _ =>
      Ok (AccountsBody
            [namelessAccount; Scenario.account "ACTIVE"; slackAccount])
  | _ => Scenario.remoteWith "ACTIVE" history req
  end.

Definition envMixed : Env :=
  mkEnv "key" false Scenario.u1 remoteMixed (fun _ _ => 150)
        (fun _ => true) Scenario.parse Scenario.stringify (fun t => Some t).

(** A remote whose account list answers with an error status. *)
Definition remoteDown (history : list Request) (req : Request) : Response :=
  match req with
  | ListConnectedAccounts _ _ => NotOk
  | _ => Scenario.remoteWith "ACTIVE" history req
  end.

Definition envDown : Env :=
  mkEnv "key" false Scenario.u1 remoteDown (fun _ _ => 150)
        (fun _ => true) Scenario.parse Scenario.stringify (fun t => Some t).

(** github and gmail connected for u1, gmail enabled. *)
Definition twoToolkits : World :=
  mkWorld
    [mkConnection 0 "u1" "github" "GitHub" connected (Some 900)
       (Some (Scenario.stringify (Some "ca_1"))) None None;
     mkConnection 1 "u1" "gmail" "Gmail" connected (Some 950) None None None]
    [mkEnabled 2 "u1" "gmail" true None]
    3 initialCache [] 1000 [].

(** A remote with one managed auth config for every toolkit, which answers
    a link request with a redirect URL and a connection id. *)
Definition remoteLinking (history : list Request) (req : Request) : Response :=
  match req with
  | ListAuthConfigs _ =>
      Ok (AuthConfigsBody
            [mkAuthConfigJson (Some "ac_other") false (Some "ACTIVE") false;
             mkAuthConfigJson (Some "ac_managed") true None true])
  | CreateLink _ _ _ =>
      Ok (LinkBody (Some "https://auth.example/start") None None
                   (Some "ca_7") None None)
  | _ => Scenario.remoteWith "INITIATED" history req
  end.

Definition envLinking : Env :=
  mkEnv "key" false Scenario.u1 remoteLinking (fun _ _ => 150)
        (fun _ => true) Scenario.parse Scenario.stringify (fun t => Some t).

(** The environment of [Scenario] without an API key. *)
Definition envNoKey : Env :=
  mkEnv EmptyString false Scenario.u1 (Scenario.remoteWith "ACTIVE")
        (fun _ _ => 150) (fun _ => true) Scenario.parse Scenario.stringify
        (fun t => Some t).

(** [twoToolkits] after a first config was served for gmail alone. *)
Definition afterGmailConfig : World :=
  snd (ComposioService.getMcpConfig (Scenario.envWith Scenario.u1 "ACTIVE")
         (Some ["gmail"]) twoToolkits).

End Cases.

(** ** Integrity constraints of the two tables (migration 0005) *)

Definition connectionKey (r : ConnectionRecord) : string * string :=
  (c_clerkUserId r, c_toolkitName r).

Definition enabledKey (r : EnabledToolkitRecord) : string * string :=
  (e_clerkUserId r, e_toolkitName r).

(** The two unique indexes on [(clerk_user_id, toolkit_name)]. *)
Definition uniqueKeys (w : World) : Prop :=
  NoDup (List.map connectionKey (connections w))
  /\ NoDup (List.map enabledKey (enabledToolkits w)).

(** The two primary keys, with every id in use below the next one. *)
Definition freshIds (w : World) : Prop :=
  NoDup (List.map c_id (connections w))
  /\ NoDup (List.map e_id (enabledToolkits w))
  /\ List.Forall (fun r => (c_id r < nextId w)%nat) (connections w)
  /\ List.Forall (fun r => (e_id r < nextId w)%nat) (enabledToolkits w).

Definition wellFormed (w : World) : Prop := uniqueKeys w /\ freshIds w.

(** Every pair but [(user, toolkit)] has the same rows in both worlds. *)
Definition sameElsewhere (user toolkit : string) (w w' : World) : Prop :=
  forall user' toolkit',
    (user', toolkit') <> (user, toolkit) ->
    connectionRecord user' toolkit' w' = connectionRecord user' toolkit' w
    /\ enabledRecord user' toolkit' w' = enabledRecord user' toolkit' w.

(** The writes the router performs for one pair, one statement at a time:
    nothing written to the tables; an update of the pair's rows selected
    by key or by the id of the row found for the pair; an insert for a
    pair that has no row. The functions written into the rows keep the
    key and the id. *)
Inductive pairStep (user toolkit : string) : World -> World -> Prop :=
| step_no_write (w w' : World) :
    connections w' = connections w ->
    enabledToolkits w' = enabledToolkits w ->
    nextId w' = nextId w ->
    pairStep user toolkit w w'
| step_update_connections (w w' : World) (p : ConnectionRecord -> bool)
    (f : ConnectionRecord -> ConnectionRecord) :
    (forall r, connectionKey (f r) = connectionKey r /\ c_id (f r) = c_id r) ->
    (p = Db.connectionOf user toolkit
     \/ exists row,
          Db.selectGet (Db.connectionOf user toolkit) (connections w) = Some row
          /\ p = fun r => Nat.eqb (c_id r) (c_id row)) ->
    connections w' = Db.updateWhere p f (connections w) ->
    enabledToolkits w' = enabledToolkits w ->
    nextId w' = nextId w ->
    pairStep user toolkit w w'
| step_insert_connection (w w' : World) (x : ConnectionRecord) :
    Db.selectGet (Db.connectionOf user toolkit) (connections w) = None ->
    connectionKey x = (user, toolkit) ->
    c_id x = nextId w ->
    connections w' = (connections w ++ [x])%list ->
    enabledToolkits w' = enabledToolkits w ->
    nextId w' = S (nextId w) ->
    pairStep user toolkit w w'
| step_update_enabled (w w' : World) (p : EnabledToolkitRecord -> bool)
    (f : EnabledToolkitRecord -> EnabledToolkitRecord) :
    (forall r, enabledKey (f r) = enabledKey r /\ e_id (f r) = e_id r) ->
    (p = Db.enabledOf user toolkit
     \/ exists row,
          Db.selectGet (Db.enabledOf user toolkit) (enabledToolkits w) = Some row
          /\ p = fun r => Nat.eqb (e_id r) (e_id row)) ->
    enabledToolkits w' = Db.updateWhere p f (enabledToolkits w) ->
    connections w' = connections w ->
    nextId w' = nextId w ->
    pairStep user toolkit w w'
| step_insert_enabled (w w' : World) (x : EnabledToolkitRecord) :
    Db.selectGet (Db.enabledOf user toolkit) (enabledToolkits w) = None ->
    enabledKey x = (user, toolkit) ->
    e_id x = nextId w ->
    enabledToolkits w' = (enabledToolkits w ++ [x])%list ->
    connections w' = connections w ->
    nextId w' = S (nextId w) ->
    pairStep user toolkit w w'.

(** A run of such writes. *)
Inductive pairSteps (user toolkit : string) : World -> World -> Prop :=
| steps_done (w : World) : pairSteps user toolkit w w
| steps_more (w w1 w2 : World) :
    pairStep user toolkit w w1 ->
    pairSteps user toolkit w1 w2 ->
    pairSteps user toolkit w w2.

(** The toolkit a procedure is called for; the bulk sync has none. *)
Definition operationToolkit (op : Operation) : option string :=
  match op with
  | Connect toolkitName _ => Some toolkitName
  | Disconnect toolkitName => Some toolkitName
  | ToggleToolkit toolkitName _ => Some toolkitName
  | PollConnectionStatus toolkitName => Some toolkitName
  | SyncConnections => None
  end.

(** ** The read procedures of the router (lines 100-133) *)

Module Queries.

Definition getConnectedToolkits (env : Env)
  : St (Router.Outcome (list ConnectionRecord)) :=
  match Router.requireAuth env with
  | Router.Throw e => ret (Router.Throw e)
  | Router.Return clerkUserId =>
      rows <-
        gets (fun w =>
                List.filter
                  (fun r => ((c_clerkUserId r =? clerkUserId)
                             && status_eqb (c_status r) connected)%bool)
                  (connections w)) ;;
      ret (Router.Return rows)
  end.

Definition getEnabledToolkits (env : Env)
  : St (Router.Outcome (list EnabledToolkitRecord)) :=
  match Router.requireAuth env with
  | Router.Throw e => ret (Router.Throw e)
  | Router.Return clerkUserId =>
      rows <-
        gets (fun w =>
                List.filter
                  (fun r => ((e_clerkUserId r =? clerkUserId)
                             && Bool.eqb (e_enabled r) true)%bool)
                  (enabledToolkits w)) ;;
      ret (Router.Return rows)
  end.

End Queries.

(** The toolkit names [getMcpConfig] of the router hands to the service
    (lines 496-507). *)
Definition enabledNames (user : string) (w : World) : list string :=
  List.map e_toolkitName
    (List.filter
       (fun r => ((e_clerkUserId r =? user) && Bool.eqb (e_enabled r) true)%bool)
       (enabledToolkits w)).


(** An account the sync loop does not skip (line 399). *)
Definition resolvable (account : AccountJson) : bool :=
  match Router.accountToolkitName account with
  | Some _ => true
  | None => false
  end.


(** The URL [authorizeToolkit] hands to the browser for a link (lines
    432-434): the redirect URL when it is truthy. *)
Definition browserTargets (link : ComposioService.LinkResult) : list string :=
  match ComposioService.redirectUrl link with
  | Some target => if Js.truthy (Some target) then [target] else []
  | None => []
  end.

(** ** Reading the answers of the auth-config endpoints *)

(** [data.items || []] of a successful list answer. *)
Definition listedAuthConfigs (body : Body) : list AuthConfigJson :=
  match body with
  | AuthConfigsBody items => items
  | _ => []
  end.

(** The id a create answer carries ([createData.auth_config?.id]), none
    when the request failed or the id is falsy. *)
Definition createdAuthConfigId (response : Response) : option string :=
  match response with
  | Ok (CreatedAuthConfigBody id) => if Js.truthy id then id else None
  | _ => None
  end.

(** The test of line 365: active, or not flagged as disabled. *)
Definition authConfigEnabled (c : AuthConfigJson) : bool :=
  (Js.strict_eq (ac_status c) "ACTIVE" || negb (ac_is_disabled c))%bool.

(** The list answer that makes [getAuthConfigId] create a config: a
    success without any item (line 317). *)
Definition noAuthConfigListed (response : Response) : bool :=
  match response with
  | Ok body =>
      match listedAuthConfigs body with
      | [] => true
      | _ :: _ => false
      end
  | _ => false
  end.

(** ** Listing the toolkits *)

(** [new Map(entries)] followed by [.get(key)]: the value of the last
    entry with the key; a missing key (undefined) matches no entry. *)
Module JsMap.

Definition get {V} (entries : list (string * V)) (key : option string)
  : option V :=
  match key with
  | Some k =>
      List.fold_left
        (fun found entry => if fst entry =? k then Some (snd entry) else found)
        entries None
  | None => None
  end.

End JsMap.

(** The answer of [GET /toolkits]. This request is not among the requests
    of [Request]; its answer is an argument of the two functions below,
    which read the world and never write it. *)
Record ToolkitMeta : Type := mkToolkitMeta {
  m_logo : option string;
  m_description : option string
}.

Record ToolkitJson : Type := mkToolkitJson {
  ct_name : option string;
  ct_slug : option string;
  ct_displayName : option string;
  ct_description : option string;
  ct_logo : option string;
  ct_meta : option ToolkitMeta;
  ct_categories : option (list string);
  ct_authSchemes : option (list string)
}.

Inductive CatalogueData : Type :=
| CatalogueObject (items toolkits : option (list ToolkitJson))
| CatalogueArray (entries : list ToolkitJson).

Inductive CatalogueAnswer : Type :=
| CatalogueRejected
| CatalogueNotOk
| CatalogueOk (data : CatalogueData).

(** [ComposioToolkit]; [name] and [displayName] are what the [||] chains
    leave, which is nothing when every candidate is missing. *)
Record ComposioToolkit : Type := mkComposioToolkit {
  at_name : option string;
  at_displayName : option string;
  at_description : string;
  at_logo : string;
  at_categories : list string;
  at_authSchemes : list string
}.

(** An element of the [toolkits] array [listToolkits] returns; a missing
    [connectedAt] and a null one are both [None]. *)
Record ListedToolkit : Type := mkListedToolkit {
  lt_toolkit : ComposioToolkit;
  lt_status : ConnectionStatus;
  lt_enabled : bool;
  lt_connectedAt : option Z
}.

Record ToolkitList : Type := mkToolkitList {
  configured : bool;
  listed : list ListedToolkit
}.

Module Listing.

(** [data.items || data.toolkits || (Array.isArray(data) ? data : [])];
    an array is truthy also when it is empty. *)
Definition itemsOf (data : CatalogueData) : list ToolkitJson :=
  match data with
  | CatalogueObject (Some items) _ => items
  | CatalogueObject None (Some toolkits) => toolkits
  | CatalogueObject None None => []
  | CatalogueArray entries => entries
  end.

Definition or_empty (o : option string) : string :=
  match Js.or_else o (Some EmptyString) with
  | Some s => s
  | None => EmptyString
  end.

(** Lines 611-618. *)
Definition toToolkit (toolkit : ToolkitJson) : ComposioToolkit :=
  mkComposioToolkit
    (Js.or_else (ct_slug toolkit) (ct_name toolkit))
    (Js.or_else (Js.or_else (ct_name toolkit) (ct_displayName toolkit))
                (ct_slug toolkit))
    (or_empty
       (Js.or_else
          (match ct_meta toolkit with
           | Some meta => m_description meta
           | None => None
           end)
          (ct_description toolkit)))
    (or_empty
       (Js.or_else
          (match ct_meta toolkit with Some meta => m_logo meta | None => None end)
          (ct_logo toolkit)))
    (match ct_categories toolkit with Some l => l | None => [] end)
    (match ct_authSchemes toolkit with Some l => l | None => [] end).

(** [ComposioService.listAvailableToolkits] (lines 564-623). *)
Definition listAvailableToolkits (env : Env) (answer : CatalogueAnswer)
  : list ComposioToolkit :=
  if negb (ComposioService.isConfigured env) then []
  else
    match answer with
    | CatalogueOk data => List.map toToolkit (itemsOf data)
    | _ => []
    end.

(** The [listToolkits] procedure of the router (lines 41-95). *)
Definition listToolkits (env : Env) (answer : CatalogueAnswer)
  : St ToolkitList :=
  if negb (ComposioService.isConfigured env)
  then ret (mkToolkitList false [])
  else
    let toolkits := listAvailableToolkits env answer in
    match Router.requireAuth env with
    | Router.Throw _ =>
        ret (mkToolkitList true
               (List.map (fun t => mkListedToolkit t disconnected false None)
                         toolkits))
    | Router.Return clerkUserId =>
        connections <-
          gets (fun w =>
                  List.filter (fun c => c_clerkUserId c =? clerkUserId)
                              (connections w)) ;;
        enabled <-
          gets (fun w =>
                  List.filter (fun e => e_clerkUserId e =? clerkUserId)
                              (enabledToolkits w)) ;;
        let connectionMap :=
          List.map (fun c => (c_toolkitName c, c)) connections in
        let enabledMap :=
          List.map (fun e => (e_toolkitName e, e_enabled e)) enabled in
        ret (mkToolkitList true
               (List.map
                  (fun toolkit =>
                     mkListedToolkit toolkit
                       (match JsMap.get connectionMap (at_name toolkit) with
                        | Some c => c_status c
                        | None => disconnected
                        end)
                       (match JsMap.get enabledMap (at_name toolkit) with
                        | Some flag => flag
                        | None => false
                        end)
                       (match JsMap.get connectionMap (at_name toolkit) with
                        | Some c => c_connectedAt c
                        | None => None
                        end))
                  toolkits))
    end.

End Listing.

(** A catalogue of three toolkits, the last one without a usable name. *)
Definition catalogue : CatalogueAnswer :=
  CatalogueOk
    (CatalogueObject
       (Some
          [mkToolkitJson (Some "GitHub") (Some "github") None None None
             (Some (mkToolkitMeta (Some "https://logo.example/github.png")
                                  (Some "Code hosting")))
             (Some ["developer-tools"]) None;
           mkToolkitJson (Some "Gmail") (Some "gmail") None
             (Some "Mail") None None None None;
           mkToolkitJson None None (Some "Nameless") None None None None None])
       None).

(** ** When the session caches are reset *)

(** The calls after which the router calls [invalidateSession] (lines 177,
    309 and 371): every toggle, every disconnect, and a poll that found
    the toolkit connected. *)
Definition resetsSession (env : Env) (op : Operation) (w : World) : bool :=
  match op with
  | ToggleToolkit _ _ => true
  | Disconnect _ => true
  | PollConnectionStatus toolkitName =>
      status_eqb (fst (ComposioService.getConnectionStatus env toolkitName w))
                 connected
  | Connect _ _ => false
  | SyncConnections => false
  end.
(** ** Tactics *)

(** Case analysis on whatever the goal still branches on. *)
Ltac branch :=
  match goal with
  | |- context [match ?x with _ => _ end] =>
      lazymatch x with
      | context [match _ with _ => _ end] => fail
      | _ => destruct x eqn:?
      end
  end.

Ltac run := unfold bind, ret, gets, modify, now, fetch, openExternal; simpl.

(** ** Lists under [find] and [map] *)

Section ListFacts.
Context {A : Type}.

Lemma find_map_same_key (p : A -> bool) (f : A -> A) (l : list A) :
  (forall r, p (f r) = p r) ->
  List.find p (List.map f l) = option_map f (List.find p l).
Proof.
  intros Hkey. induction l as [|r l IH]; simpl; [reflexivity|].
  rewrite Hkey. destruct (p r); [reflexivity | exact IH].
Qed.

Lemma find_updateWhere (p q : A -> bool) (f : A -> A) (l : list A) :
  (forall r, p (f r) = p r) ->
  List.find p (Db.updateWhere q f l)
  = option_map (fun r => if q r then f r else r) (List.find p l).
Proof.
  intros Hkey. unfold Db.updateWhere. apply find_map_same_key.
  intros r. destruct (q r); [apply Hkey | reflexivity].
Qed.

Lemma updateWhere_no_match (p : A -> bool) (f : A -> A) (l : list A) :
  List.find p l = None -> Db.updateWhere p f l = l.
Proof.
  unfold Db.updateWhere.
  induction l as [|r l IH]; simpl; [reflexivity|].
  destruct (p r); [discriminate|]. intros H. now rewrite IH.
Qed.

Lemma updateWhere_Forall (p : A -> bool) (f : A -> A) (P : A -> Prop)
  (l : list A) :
  (forall r, p r = true -> P (f r)) ->
  (forall r, p (f r) = p r) ->
  List.Forall (fun r => p r = true -> P r) (Db.updateWhere p f l).
Proof.
  intros HP Hkey. unfold Db.updateWhere.
  induction l as [|r l IH]; simpl; constructor; auto.
  destruct (p r) eqn:E; [intros _; now apply HP | congruence].
Qed.

Lemma find_app_none (p : A -> bool) (l : list A) (x : A) :
  List.find p l = None ->
  List.find p (l ++ [x])%list = if p x then Some x else None.
Proof.
  induction l as [|r l IH]; simpl; [reflexivity|].
  destruct (p r); [discriminate | exact IH].
Qed.

Lemma find_app_some (p : A -> bool) (l : list A) (x r : A) :
  List.find p l = Some r -> List.find p (l ++ [x])%list = Some r.
Proof.
  induction l as [|r' l IH]; simpl; [discriminate|].
  destruct (p r'); [trivial | exact IH].
Qed.

End ListFacts.

(** ** Authentication *)

Lemma requireAuth_getClerkUserId (env : Env) (user : string) :
  Router.requireAuth env = Router.Return user <->
  ComposioService.getClerkUserId env = Some user.
Proof.
  unfold Router.requireAuth, ComposioService.getClerkUserId, Js.or_else.
  destruct (getUser env) as [[id]|]; simpl.
  - destruct (negb (id =? EmptyString)); split; intros H;
      inversion H; reflexivity.
  - split; discriminate.
Qed.

Lemma requireAuth_unauthenticated (env : Env) :
  ComposioService.getClerkUserId env = None ->
  Router.requireAuth env
  = Router.Throw
      (Router.mkTRPCError Router.UNAUTHORIZED "Login required for Connectors").
Proof.
  unfold Router.requireAuth, ComposioService.getClerkUserId, Js.or_else.
  destruct (getUser env) as [[id]|]; simpl; [|reflexivity].
  destruct (negb (id =? EmptyString)); [discriminate | reflexivity].
Qed.

(** ** The enabled-toolkit upsert *)

Lemma enabledOf_refl (user toolkit : string) (id : nat) (b : bool)
  (created : option Z) :
  Db.enabledOf user toolkit (mkEnabled id user toolkit b created) = true.
Proof. unfold Db.enabledOf; simpl. now rewrite !String.eqb_refl. Qed.

Lemma connectionOf_refl (user toolkit : string) (r : ConnectionRecord) :
  c_clerkUserId r = user -> c_toolkitName r = toolkit ->
  Db.connectionOf user toolkit r = true.
Proof.
  intros <- <-. unfold Db.connectionOf. now rewrite !String.eqb_refl.
Qed.

Lemma upsertEnabled_frame (env : Env) (user toolkit : string) (b : bool)
  (w : World) :
  let w' := snd (Router.upsertEnabled env user toolkit b w) in
  connections w' = connections w /\ service w' = service w
  /\ trace w' = trace w /\ clock w' = clock w /\ opened w' = opened w.
Proof.
  unfold Router.upsertEnabled, bind, gets, modify, Db.insertEnabled.
  destruct (Db.selectGet _ _); simpl; repeat split; reflexivity.
Qed.

Lemma upsertEnabled_record (env : Env) (user toolkit : string) (b : bool)
  (w : World) :
  exists row,
    enabledRecord user toolkit (snd (Router.upsertEnabled env user toolkit b w))
    = Some row
    /\ e_enabled row = b.
Proof.
  unfold Router.upsertEnabled, bind, gets, modify, Db.insertEnabled,
    enabledRecord, Db.selectGet.
  destruct (List.find _ (enabledToolkits w)) as [row|] eqn:Hfind; simpl.
  - rewrite find_updateWhere by reflexivity. rewrite Hfind; simpl.
    rewrite Nat.eqb_refl. eexists; split; reflexivity.
  - rewrite find_app_none by exact Hfind.
    rewrite enabledOf_refl. eexists; split; reflexivity.
Qed.

(** ** connect *)

(** C4. For every toolkit slug, [connect] without an authenticated user
    throws UNAUTHORIZED and leaves the world as it was: no request has been
    sent to the remote API and no row of either table has been written. *)
Theorem connect_unauthenticated (env : Env) (toolkitName displayName : string)
  (w : World) :
  ComposioService.getClerkUserId env = None ->
  exists e,
    Router.code e = Router.UNAUTHORIZED
    /\ Router.connect env toolkitName displayName w = (Router.Throw e, w)
    /\ trace (snd (Router.connect env toolkitName displayName w)) = trace w
    /\ connections (snd (Router.connect env toolkitName displayName w))
       = connections w
    /\ enabledToolkits (snd (Router.connect env toolkitName displayName w))
       = enabledToolkits w.
Proof.
  intros Hnone. unfold Router.connect.
  rewrite (requireAuth_unauthenticated env Hnone).
  eexists; repeat split; reflexivity.
Qed.

Lemma connect_unauthenticated_witness :
  let env := Scenario.envWith None "ACTIVE" in
  let out := Router.connect env "github" "GitHub" Scenario.connectedWorld in
  ComposioService.getClerkUserId env = None
  /\ exists e,
       Router.code e = Router.UNAUTHORIZED
       /\ out = (Router.Throw e, Scenario.connectedWorld)
       /\ trace (snd out) = trace Scenario.connectedWorld
       /\ connections (snd out) = connections Scenario.connectedWorld
       /\ enabledToolkits (snd out) = enabledToolkits Scenario.connectedWorld.
Proof.
  intros env out.
  assert (Hnone : ComposioService.getClerkUserId env = None) by reflexivity.
  split; [exact Hnone|].
  exact (connect_unauthenticated env "github" "GitHub" Scenario.connectedWorld
           Hnone).
Defined.

(** ** pollConnectionStatus *)

Lemma getConnectionStatus_frame (env : Env) (toolkitName : string) (w : World) :
  let w' := snd (ComposioService.getConnectionStatus env toolkitName w) in
  connections w' = connections w
  /\ enabledToolkits w' = enabledToolkits w
  /\ service w' = service w.
Proof.
  unfold ComposioService.getConnectionStatus, bind, ret, fetch.
  destruct (negb _); [simpl; auto|].
  destruct (ComposioService.getClerkUserId env); [|simpl; auto].
  destruct (remote env _ _) as [| |body]; simpl; auto.
  destruct (List.find _ _); simpl; auto.
Qed.

Lemma getConnectionStatus_observed (env : Env) (user toolkitName : string)
  (w : World) (account : AccountJson) :
  ComposioService.isConfigured env = true ->
  ComposioService.getClerkUserId env = Some user ->
  observedAccount env user toolkitName w = Some account ->
  fst (ComposioService.getConnectionStatus env toolkitName w)
  = ComposioService.mapStatus (a_status account).
Proof.
  intros Hconf Huser Hobs.
  unfold ComposioService.getConnectionStatus, observedAccount, bind, ret, fetch
    in *.
  rewrite Hconf, Huser; simpl.
  destruct (remote env _ _) as [| |[]]; try discriminate.
  simpl. rewrite Hobs. reflexivity.
Qed.

Lemma pollConnectionStatus_run (env : Env) (user toolkitName : string)
  (w : World) :
  Router.requireAuth env = Router.Return user ->
  let status := fst (ComposioService.getConnectionStatus env toolkitName w) in
  let w1 := snd (ComposioService.getConnectionStatus env toolkitName w) in
  let w2 :=
    set_connections
      (Db.updateWhere (Db.connectionOf user toolkitName)
                      (polledRow status (clock w1)))
      w1 in
  Router.pollConnectionStatus env toolkitName w
  = (Router.Return status,
     if status_eqb status connected
     then set_service (fun _ => initialCache)
            (snd (Router.upsertEnabled env user toolkitName true w2))
     else w2).
Proof.
  intros Hauth. unfold Router.pollConnectionStatus. rewrite Hauth.
  unfold bind at 1.
  destruct (ComposioService.getConnectionStatus env toolkitName w)
    as [status w1]; simpl.
  unfold now, gets, bind, modify, ret, ComposioService.invalidateSession,
    polledRow.
  destruct (status_eqb status connected); simpl; [|reflexivity].
  destruct (Router.upsertEnabled _ _ _ _ _) as [[] w3]. reflexivity.
Qed.

Lemma mapStatus_connected_iff (remoteStatus : option string) :
  ComposioService.mapStatus remoteStatus = connected <->
  option_map Js.toUpperCase remoteStatus = Some "ACTIVE".
Proof.
  unfold ComposioService.mapStatus.
  destruct remoteStatus as [s|]; simpl; [|split; discriminate].
  destruct (Js.toUpperCase s =? "ACTIVE") eqn:E.
  - apply String.eqb_eq in E. rewrite E. split; reflexivity.
  - apply String.eqb_neq in E.
    assert (Hne : Some (Js.toUpperCase s) <> Some "ACTIVE") by congruence.
    destruct ((_ =? "INITIATED") || _)%bool;
      [|destruct ((_ =? "FAILED") || _ || _)%bool];
      split; intros H; solve [discriminate | contradiction].
Qed.

Lemma status_eqb_eq (a b : ConnectionStatus) :
  status_eqb a b = true <-> a = b.
Proof. destruct a, b; simpl; split; intros H; solve [reflexivity | discriminate]. Qed.

Lemma status_eqb_neq (a b : ConnectionStatus) :
  status_eqb a b = false <-> a <> b.
Proof.
  destruct a, b; simpl; split; intros H;
    solve [reflexivity | discriminate | congruence].
Qed.

(** C3. With a connection row in place, [pollConnectionStatus] stores the
    status it obtained from the remote API in that row. When the status is
    [connected] -- which, for an account the remote reports, is exactly when
    its status upper-cases to ACTIVE -- the row gets the time of the write
    as [connectedAt], the pair's enabled row exists with [enabled = true]
    and the service caches are back to their initial values. For any other
    status the row gets [connectedAt = null], and neither the enabled table
    nor the caches are touched. *)
Theorem poll_existing_record (env : Env) (user toolkitName : string)
  (w : World) (row : ConnectionRecord) :
  Router.requireAuth env = Router.Return user ->
  connectionRecord user toolkitName w = Some row ->
  let status := fst (ComposioService.getConnectionStatus env toolkitName w) in
  let out := Router.pollConnectionStatus env toolkitName w in
  fst out = Router.Return status
  /\ (exists row',
        connectionRecord user toolkitName (snd out) = Some row'
        /\ c_status row' = status
        /\ c_connectedAt row'
           = if status_eqb status connected then Some (clock (snd out))
             else None)
  /\ (status = connected ->
        (exists en,
           enabledRecord user toolkitName (snd out) = Some en
           /\ e_enabled en = true)
        /\ service (snd out) = initialCache)
  /\ (status <> connected ->
        enabledToolkits (snd out) = enabledToolkits w
        /\ service (snd out) = service w)
  /\ (forall account,
        ComposioService.isConfigured env = true ->
        observedAccount env user toolkitName w = Some account ->
        status = ComposioService.mapStatus (a_status account)
        /\ (status = connected <->
            option_map Js.toUpperCase (a_status account) = Some "ACTIVE")).
Proof.
  intros Hauth Hrow status out. subst status out.
  rewrite (pollConnectionStatus_run env user toolkitName w Hauth).
  destruct (getConnectionStatus_frame env toolkitName w) as (Hc & He & Hs).
  set (status := fst (ComposioService.getConnectionStatus env toolkitName w)) in *.
  set (w1 := snd (ComposioService.getConnectionStatus env toolkitName w)) in *.
  set (w2 := set_connections _ w1).
  assert (Hrow2 : connectionRecord user toolkitName w2
                  = Some (polledRow status (clock w1) row)).
  { unfold connectionRecord, Db.selectGet, w2; simpl.
    rewrite find_updateWhere by reflexivity.
    rewrite Hc. unfold connectionRecord, Db.selectGet in Hrow. rewrite Hrow.
    simpl. apply List.find_some in Hrow. destruct Hrow as [_ ->]. reflexivity. }
  simpl fst. simpl snd. split; [reflexivity|].
  destruct (upsertEnabled_frame env user toolkitName true w2)
    as (Uc & Us & Ut & Uk & Uo).
  destruct (upsertEnabled_record env user toolkitName true w2) as (en & Hen & Hb).
  split; [|split; [|split]].
  - exists (polledRow status (clock w1) row).
    destruct (status_eqb status connected) eqn:E; simpl.
    + unfold connectionRecord in *; simpl. rewrite Uc. rewrite Hrow2.
      split; [reflexivity|]. split; [reflexivity|].
      unfold polledRow; simpl. rewrite E, Uk. reflexivity.
    + rewrite Hrow2. split; [reflexivity|]. split; [reflexivity|].
      unfold polledRow; simpl. now rewrite E.
  - intros Hst. apply status_eqb_eq in Hst. rewrite Hst. simpl.
    split; [|reflexivity]. exists en. split; [exact Hen | exact Hb].
  - intros Hst. apply status_eqb_neq in Hst. rewrite Hst. simpl.
    split; [exact He | exact Hs].
  - intros account Hconf Hobs.
    apply requireAuth_getClerkUserId in Hauth.
    pose proof (getConnectionStatus_observed env user toolkitName w account
                  Hconf Hauth Hobs) as Hmap.
    fold status in Hmap. split; [exact Hmap|].
    rewrite Hmap. apply mapStatus_connected_iff.
Qed.

Lemma poll_existing_record_witness :
  let env := Scenario.envWith Scenario.u1 "active" in
  let out := Router.pollConnectionStatus env "github" Scenario.pendingWorld in
  Router.requireAuth env = Router.Return "u1"
  /\ (exists row, connectionRecord "u1" "github" Scenario.pendingWorld = Some row)
  /\ fst out = Router.Return connected
  /\ (exists row',
        connectionRecord "u1" "github" (snd out) = Some row'
        /\ c_status row' = connected
        /\ c_connectedAt row' = Some 1150)
  /\ (exists en,
        enabledRecord "u1" "github" (snd out) = Some en /\ e_enabled en = true)
  /\ service (snd out) = initialCache.
Proof.
  intros env out.
  assert (Hauth : Router.requireAuth env = Router.Return "u1") by reflexivity.
  assert (Hrow : connectionRecord "u1" "github" Scenario.pendingWorld
                 = Some (mkConnection 0 "u1" "github" "GitHub" pending None
                           None (Some 800) (Some 800))) by reflexivity.
  destruct (poll_existing_record env "u1" "github" Scenario.pendingWorld _
              Hauth Hrow) as (Hres & Hstored & Hon & _ & _).
  split; [exact Hauth|]. split; [eexists; exact Hrow|].
  split; [exact Hres|]. split; [exact Hstored|].
  apply Hon. reflexivity.
Defined.

(** C10. Without a connection row for the pair, [pollConnectionStatus]
    leaves the connections table as it was (its update matches no row, so
    the status it returns is stored nowhere and no row is inserted); yet
    when that status is [connected] the pair's enabled row exists afterwards
    with [enabled = true], while the pair still has no connection row. *)
Theorem poll_without_record (env : Env) (user toolkitName : string)
  (w : World) :
  Router.requireAuth env = Router.Return user ->
  connectionRecord user toolkitName w = None ->
  let out := Router.pollConnectionStatus env toolkitName w in
  connections (snd out) = connections w
  /\ connectionRecord user toolkitName (snd out) = None
  /\ (fst out = Router.Return connected ->
        exists en,
          enabledRecord user toolkitName (snd out) = Some en
          /\ e_enabled en = true).
Proof.
  intros Hauth Hnone out. subst out.
  rewrite (pollConnectionStatus_run env user toolkitName w Hauth).
  destruct (getConnectionStatus_frame env toolkitName w) as (Hc & He & Hs).
  set (status := fst (ComposioService.getConnectionStatus env toolkitName w)) in *.
  set (w1 := snd (ComposioService.getConnectionStatus env toolkitName w)) in *.
  set (w2 := set_connections _ w1).
  assert (Hsame : connections w2 = connections w).
  { unfold w2; simpl. rewrite Hc. apply updateWhere_no_match. exact Hnone. }
  destruct (upsertEnabled_frame env user toolkitName true w2)
    as (Uc & _).
  destruct (upsertEnabled_record env user toolkitName true w2) as (en & Hen & Hb).
  assert (Hconn : connections
                    (if status_eqb status connected
                     then set_service (fun _ => initialCache)
                            (snd (Router.upsertEnabled env user toolkitName
                                    true w2))
                     else w2) = connections w).
  { destruct (status_eqb status connected); simpl;
      [rewrite Uc; exact Hsame | exact Hsame]. }
  simpl fst. simpl snd. split; [exact Hconn|]. split.
  - unfold connectionRecord in *. rewrite Hconn. exact Hnone.
  - intros Hret. inversion Hret as [Hst]. rewrite Hst. simpl.
    exists en. split; [exact Hen | exact Hb].
Qed.

Lemma poll_without_record_witness :
  let env := Scenario.envWith Scenario.u1 "ACTIVE" in
  let out := Router.pollConnectionStatus env "github" Scenario.emptyWorld in
  Router.requireAuth env = Router.Return "u1"
  /\ connectionRecord "u1" "github" Scenario.emptyWorld = None
  /\ fst out = Router.Return connected
  /\ connections (snd out) = []
  /\ connectionRecord "u1" "github" (snd out) = None
  /\ (exists en,
        enabledRecord "u1" "github" (snd out) = Some en /\ e_enabled en = true).
Proof.
  intros env out.
  assert (Hauth : Router.requireAuth env = Router.Return "u1") by reflexivity.
  assert (Hnone : connectionRecord "u1" "github" Scenario.emptyWorld = None)
    by reflexivity.
  destruct (poll_without_record env "u1" "github" Scenario.emptyWorld
              Hauth Hnone) as (Hsame & Hstill & Hen).
  split; [exact Hauth|]. split; [exact Hnone|].
  split; [reflexivity|]. split; [exact Hsame|]. split; [exact Hstill|].
  apply Hen. reflexivity.
Defined.

(** ** disconnect *)

(** Whatever the remote delete and the metadata parser do, [disconnect]
    ends with the same local writes. *)
Lemma disconnect_run (env : Env) (user toolkitName : string) (w : World) :
  Router.requireAuth env = Router.Return user ->
  let out := Router.disconnect env toolkitName w in
  fst out = Router.Return true
  /\ connections (snd out)
     = Db.updateWhere (Db.connectionOf user toolkitName)
         (disconnectedRow (clock (snd out))) (connections w)
  /\ enabledToolkits (snd out)
     = Db.updateWhere (Db.enabledOf user toolkitName) (Db.setEnabled false)
         (enabledToolkits w)
  /\ service (snd out) = initialCache.
Proof.
  intros Hauth. unfold Router.disconnect. rewrite Hauth.
  unfold bind, gets, modify, ret, now, ComposioService.invalidateSession,
    ComposioService.disconnectToolkit, fetch, bind, modify, ret,
    disconnectedRow.
  destruct (Db.selectGet _ (connections w)) as [row|]; simpl;
    [|repeat split; reflexivity].
  destruct (c_metadata row) as [text|]; simpl; [|repeat split; reflexivity].
  destruct (negb (text =? EmptyString)); simpl; [|repeat split; reflexivity].
  destruct (JSON_parse env text) as [| |id]; simpl;
    try (repeat split; reflexivity).
  destruct (negb (ComposioService.isConfigured env)); simpl;
    [repeat split; reflexivity|].
  destruct (remote env (trace w) (DeleteConnectedAccount id)); simpl;
    repeat split; reflexivity.
Qed.

(** C6. With a connection row in place and whatever its status, after
    [disconnect] the pair's row (and every row of the pair) has status
    [disconnected], no metadata and no [connectedAt]; no enabled row of the
    pair has [enabled = true]; and the service caches are back to their
    initial values. Nothing is assumed about the remote delete or about the
    metadata parser, so this holds when the delete fails and when the
    stored metadata cannot be parsed. *)
Theorem disconnect_existing_record (env : Env) (user toolkitName : string)
  (w : World) (row : ConnectionRecord) :
  Router.requireAuth env = Router.Return user ->
  connectionRecord user toolkitName w = Some row ->
  let out := Router.disconnect env toolkitName w in
  fst out = Router.Return true
  /\ (exists row',
        connectionRecord user toolkitName (snd out) = Some row'
        /\ c_status row' = disconnected
        /\ c_metadata row' = None
        /\ c_connectedAt row' = None)
  /\ List.Forall
       (fun r => Db.connectionOf user toolkitName r = true ->
                 c_status r = disconnected /\ c_metadata r = None
                 /\ c_connectedAt r = None)
       (connections (snd out))
  /\ isEnabled user toolkitName (snd out) = false
  /\ List.Forall
       (fun r => Db.enabledOf user toolkitName r = true -> e_enabled r = false)
       (enabledToolkits (snd out))
  /\ service (snd out) = initialCache.
Proof.
  intros Hauth Hrow out.
  destruct (disconnect_run env user toolkitName w Hauth)
    as (Hres & Hconn & Hen & Hsvc).
  fold out in Hres, Hconn, Hen, Hsvc.
  split; [exact Hres|]. split; [|split; [|split; [|split]]].
  - exists (disconnectedRow (clock (snd out)) row).
    unfold connectionRecord, Db.selectGet in *. rewrite Hconn.
    rewrite find_updateWhere by reflexivity. rewrite Hrow. simpl.
    apply List.find_some in Hrow. destruct Hrow as [_ ->].
    repeat split; reflexivity.
  - rewrite Hconn. apply updateWhere_Forall.
    + intros r _. repeat split; reflexivity.
    + reflexivity.
  - unfold isEnabled, enabledRecord, Db.selectGet. rewrite Hen.
    rewrite find_updateWhere by reflexivity.
    destruct (List.find _ (enabledToolkits w)) as [en|] eqn:Hfind; simpl;
      [|reflexivity].
    apply List.find_some in Hfind. destruct Hfind as [_ ->]. reflexivity.
  - rewrite Hen. apply updateWhere_Forall.
    + intros r _. reflexivity.
    + reflexivity.
  - exact Hsvc.
Qed.

Lemma disconnect_existing_record_witness :
  let env := Scenario.envWith Scenario.u1 "ACTIVE" in
  let out := Router.disconnect env "github" Scenario.connectedWorld in
  Router.requireAuth env = Router.Return "u1"
  /\ (exists row,
        connectionRecord "u1" "github" Scenario.connectedWorld = Some row
        /\ c_status row = connected
        /\ JSON_parse env (match c_metadata row with
                           | Some text => text
                           | None => EmptyString
                           end) = ParseThrows)
  /\ isEnabled "u1" "github" Scenario.connectedWorld = true
  /\ fst out = Router.Return true
  /\ (exists row',
        connectionRecord "u1" "github" (snd out) = Some row'
        /\ c_status row' = disconnected
        /\ c_metadata row' = None
        /\ c_connectedAt row' = None)
  /\ isEnabled "u1" "github" (snd out) = false
  /\ service (snd out) = initialCache.
Proof.
  intros env out.
  assert (Hauth : Router.requireAuth env = Router.Return "u1") by reflexivity.
  assert (Hrow : connectionRecord "u1" "github" Scenario.connectedWorld
                 = Some (mkConnection 0 "u1" "github" "GitHub" connected
                           (Some 900) (Some "not json") (Some 800) (Some 900)))
    by reflexivity.
  destruct (disconnect_existing_record env "u1" "github"
              Scenario.connectedWorld _ Hauth Hrow)
    as (Hres & Hstored & _ & Hoff & _ & Hsvc).
  split; [exact Hauth|].
  split; [eexists; split; [exact Hrow | split; reflexivity]|].
  split; [reflexivity|].
  split; [exact Hres|]. split; [exact Hstored|].
  split; [exact Hoff | exact Hsvc].
Defined.

(** The same with readable metadata and a remote delete that fails: the
    delete is attempted and the local rows change all the same. *)
Example disconnect_when_remote_delete_fails :
  let env := Scenario.envWith Scenario.u1 "ACTIVE" in
  let w :=
    mkWorld
      [mkConnection 0 "u1" "github" "GitHub" connected (Some 900)
         (Some (Scenario.stringify (Some "ca_1"))) (Some 800) (Some 900)]
      [mkEnabled 1 "u1" "github" true (Some 900)]
      2 initialCache [] 1000 [] in
  let out := Router.disconnect env "github" w in
  remote env [] (DeleteConnectedAccount "ca_1") = Rejected
  /\ trace (snd out) = [DeleteConnectedAccount "ca_1"]
  /\ fst out = Router.Return true
  /\ currentStatus "u1" "github" (snd out) = disconnected
  /\ isEnabled "u1" "github" (snd out) = false.
Proof. repeat split; reflexivity. Qed.

(** ** connect without a usable auth config *)

Lemma getAuthConfigId_frame (env : Env) (toolkitSlug : string) (w : World) :
  let w' := snd (ComposioService.getAuthConfigId env toolkitSlug w) in
  connections w' = connections w
  /\ enabledToolkits w' = enabledToolkits w
  /\ nextId w' = nextId w
  /\ service w' = service w.
Proof.
  unfold ComposioService.getAuthConfigId. run.
  repeat (branch; simpl); auto.
Qed.

(** The auth config found depends on the requests sent so far and on
    nothing else of the world. *)
Lemma getAuthConfigId_trace (env : Env) (toolkitSlug : string) (w1 w2 : World) :
  trace w1 = trace w2 ->
  fst (ComposioService.getAuthConfigId env toolkitSlug w1)
  = fst (ComposioService.getAuthConfigId env toolkitSlug w2).
Proof.
  intros Htrace. unfold ComposioService.getAuthConfigId. run.
  rewrite Htrace.
  repeat (branch; simpl); auto.
Qed.

Lemma authorizeToolkit_frame (env : Env) (toolkitName : string) (w : World) :
  let w' := snd (ComposioService.authorizeToolkit env toolkitName w) in
  connections w' = connections w
  /\ enabledToolkits w' = enabledToolkits w
  /\ nextId w' = nextId w
  /\ service w' = service w.
Proof.
  unfold ComposioService.authorizeToolkit. run.
  destruct (negb _); [simpl; auto|].
  destruct (ComposioService.getClerkUserId env); [|simpl; auto].
  pose proof (getAuthConfigId_frame env toolkitName w) as Hframe.
  simpl in Hframe.
  destruct (ComposioService.getAuthConfigId env toolkitName w) as [cfg w1].
  simpl in Hframe. destruct Hframe as (Hc & He & Hn & Hs).
  repeat (branch; simpl); auto.
Qed.

Lemma authorizeToolkit_no_config (env : Env) (toolkitName : string)
  (w : World) :
  fst (ComposioService.getAuthConfigId env toolkitName w) = None ->
  fst (ComposioService.authorizeToolkit env toolkitName w) = None.
Proof.
  intros Hnone. unfold ComposioService.authorizeToolkit. run.
  destruct (negb _); [reflexivity|].
  destruct (ComposioService.getClerkUserId env); [|reflexivity].
  destruct (ComposioService.getAuthConfigId env toolkitName w) as [cfg w1].
  simpl in Hnone. subst cfg. reflexivity.
Qed.

(** The first step of [connect], seen from outside: the pair has a row
    afterwards, and only the connections table and the id source moved. *)
Lemma connect_failure_run (env : Env) (user toolkitName displayName : string)
  (w : World) :
  Router.requireAuth env = Router.Return user ->
  fst (ComposioService.getAuthConfigId env toolkitName w) = None ->
  exists w',
    Router.connect env toolkitName displayName w
    = (Router.Throw (Router.connectFailure displayName), w')
    /\ enabledToolkits w' = enabledToolkits w
    /\ exists rows row,
         List.find (Db.connectionOf user toolkitName) rows = Some row
         /\ connections w'
            = Db.updateWhere (Db.connectionOf user toolkitName)
                (failedRow (clock w')) rows.
Proof.
  intros Hauth Hnone. unfold Router.connect. rewrite Hauth.
  unfold bind at 1. unfold gets at 1.
  destruct (Db.selectGet _ (connections w)) as [row|] eqn:Hex.
  - unfold bind at 1. unfold bind at 1. unfold now, gets, modify.
    set (w1 := set_connections _ w).
    assert (Htrace : trace w1 = trace w) by reflexivity.
    pose proof (authorizeToolkit_no_config env toolkitName w1) as Hno.
    rewrite (getAuthConfigId_trace env toolkitName w1 w Htrace) in Hno.
    specialize (Hno Hnone).
    destruct (authorizeToolkit_frame env toolkitName w1) as (Hc & He & _ & _).
    unfold bind at 1.
    destruct (ComposioService.authorizeToolkit env toolkitName w1)
      as [result w2]. simpl in Hno, Hc, He. subst result. run.
    eexists. split; [reflexivity|]. split; [exact He|].
    exists (connections w1).
    exists (mkConnection (c_id row) (c_clerkUserId row) (c_toolkitName row)
              (c_displayName row) pending (c_connectedAt row) (c_metadata row)
              (c_createdAt row) (Some (clock w))).
    split; [|simpl; rewrite Hc; reflexivity].
    unfold w1; simpl. rewrite find_updateWhere by reflexivity.
    unfold Db.selectGet in Hex. rewrite Hex. simpl.
    now rewrite Nat.eqb_refl.
  - unfold bind at 1. unfold Db.insertConnection at 1.
    set (w1 := bump_nextId _).
    assert (Htrace : trace w1 = trace w) by reflexivity.
    pose proof (authorizeToolkit_no_config env toolkitName w1) as Hno.
    rewrite (getAuthConfigId_trace env toolkitName w1 w Htrace) in Hno.
    specialize (Hno Hnone).
    destruct (authorizeToolkit_frame env toolkitName w1) as (Hc & He & _ & _).
    unfold bind at 1.
    destruct (ComposioService.authorizeToolkit env toolkitName w1)
      as [result w2]. simpl in Hno, Hc, He. subst result. run.
    eexists. split; [reflexivity|]. split; [exact He|].
    exists (connections w1). eexists.
    split; [|simpl; rewrite Hc; reflexivity].
    unfold w1; simpl. unfold Db.selectGet in Hex.
    rewrite find_app_none by exact Hex.
    rewrite connectionOf_refl by reflexivity. reflexivity.
Qed.

Lemma connectFailure_mentions_manual_setup (displayName : string) :
  mentions (Router.message (Router.connectFailure displayName))
           "manual API key setup".
Proof.
  exists ("Cannot connect to " ++ displayName
          ++ ". This app may not support OAuth authentication or requires ").
  exists " in Composio dashboard.".
  unfold Router.connectFailure. simpl.
  do 18 f_equal.
  induction displayName as [|c rest IH]; simpl; [reflexivity|].
  f_equal. exact IH.
Qed.

(** C5. For an authenticated user and a toolkit for which the auth-config
    resolver finds and creates nothing (what it returns depends only on the
    requests sent so far, so it is asked here in the world [connect] starts
    from), [connect] throws an error whose message mentions the manual API
    key setup; afterwards the pair's connection row (every row of the pair)
    has status [error]; and the enabled table is exactly what it was, so a
    flag that was false is still false. *)
Theorem connect_without_auth_config (env : Env)
  (user toolkitName displayName : string) (w : World) :
  Router.requireAuth env = Router.Return user ->
  fst (ComposioService.getAuthConfigId env toolkitName w) = None ->
  let out := Router.connect env toolkitName displayName w in
  (exists e,
     fst out = Router.Throw e
     /\ Router.code e = Router.INTERNAL_SERVER_ERROR
     /\ mentions (Router.message e) "manual API key setup")
  /\ (exists row,
        connectionRecord user toolkitName (snd out) = Some row
        /\ c_status row = error)
  /\ List.Forall
       (fun r => Db.connectionOf user toolkitName r = true -> c_status r = error)
       (connections (snd out))
  /\ enabledToolkits (snd out) = enabledToolkits w
  /\ (isEnabled user toolkitName w = false ->
      isEnabled user toolkitName (snd out) = false).
Proof.
  intros Hauth Hnone out.
  destruct (connect_failure_run env user toolkitName displayName w Hauth Hnone)
    as (w' & Hrun & Hen & rows & row & Hfind & Hconn).
  subst out. rewrite Hrun. simpl fst. simpl snd.
  split; [|split; [|split; [|split]]].
  - eexists. split; [reflexivity|]. split; [reflexivity|].
    apply connectFailure_mentions_manual_setup.
  - exists (failedRow (clock w') row).
    unfold connectionRecord, Db.selectGet. rewrite Hconn.
    rewrite find_updateWhere by reflexivity. rewrite Hfind. simpl.
    apply List.find_some in Hfind. destruct Hfind as [_ ->].
    split; reflexivity.
  - rewrite Hconn. apply updateWhere_Forall; [|reflexivity].
    intros r _. reflexivity.
  - exact Hen.
  - unfold isEnabled, enabledRecord. now rewrite Hen.
Qed.

Lemma connect_without_auth_config_witness :
  let env := Scenario.envWith Scenario.u1 "ACTIVE" in
  let out := Router.connect env "github" "GitHub" Scenario.emptyWorld in
  Router.requireAuth env = Router.Return "u1"
  /\ fst (ComposioService.getAuthConfigId env "github" Scenario.emptyWorld)
     = None
  /\ (exists e,
        fst out = Router.Throw e
        /\ Router.code e = Router.INTERNAL_SERVER_ERROR
        /\ mentions (Router.message e) "manual API key setup")
  /\ (exists row,
        connectionRecord "u1" "github" (snd out) = Some row
        /\ c_status row = error)
  /\ isEnabled "u1" "github" (snd out) = false.
Proof.
  intros env out.
  assert (Hauth : Router.requireAuth env = Router.Return "u1") by reflexivity.
  assert (Hnone : fst (ComposioService.getAuthConfigId env "github"
                         Scenario.emptyWorld) = None) by reflexivity.
  destruct (connect_without_auth_config env "u1" "github" "GitHub"
              Scenario.emptyWorld Hauth Hnone)
    as (Hthrow & Hstored & _ & _ & Hflag).
  split; [exact Hauth|]. split; [exact Hnone|].
  split; [exact Hthrow|]. split; [exact Hstored|].
  apply Hflag. reflexivity.
Defined.

(** ** Sorting and the order-independent comparison of toolkit lists *)

Lemma leb_true_iff (a b : string) :
  String.leb a b = true <-> a = b \/ OrderedTypeEx.String_as_OT.lt a b.
Proof.
  unfold String.leb.
  destruct (String.compare a b) eqn:Hcmp.
  - apply OrderedTypeEx.String_as_OT.cmp_eq in Hcmp. intuition.
  - apply OrderedTypeEx.String_as_OT.cmp_lt in Hcmp. intuition.
  - split; [discriminate|]. intros [Heq | Hlt].
    + apply OrderedTypeEx.String_as_OT.cmp_eq in Heq. unfold OrderedTypeEx.String_as_OT.cmp in Heq.
      congruence.
    + apply OrderedTypeEx.String_as_OT.cmp_lt in Hlt. unfold OrderedTypeEx.String_as_OT.cmp in Hlt.
      congruence.
Qed.

Lemma leb_trans (a b c : string) :
  String.leb a b = true -> String.leb b c = true -> String.leb a c = true.
Proof.
  rewrite !leb_true_iff. intros [-> | Hab] [-> | Hbc]; auto.
  right. eapply OrderedTypeEx.String_as_OT.lt_trans; eassumption.
Qed.

Lemma leb_false_flip (a b : string) :
  String.leb a b = false -> String.leb b a = true.
Proof.
  intros H. destruct (String.leb_total a b) as [Hab | Hba]; congruence.
Qed.

(** Closes a goal about sorted insertion once every comparison in it has
    been decided: contradictory comparisons are refuted by totality and
    transitivity, mutual ones identify the two strings. *)
Ltac order_facts :=
  repeat match goal with
  | H : String.leb ?a ?b = false |- _ =>
      lazymatch goal with
      | _ : String.leb b a = true |- _ => fail
      | _ => pose proof (leb_false_flip a b H)
      end
  end;
  repeat match goal with
  | H1 : String.leb ?a ?b = true, H2 : String.leb ?b ?c = true |- _ =>
      lazymatch goal with
      | _ : String.leb a c = true |- _ => fail
      | _ => pose proof (leb_trans a b c H1 H2)
      end
  end;
  try congruence;
  repeat match goal with
  | H1 : String.leb ?a ?b = true, H2 : String.leb ?b ?a = true |- _ =>
      pose proof (String.leb_antisym a b H1 H2); subst b;
      clear H1 H2
  end;
  try congruence.

Lemma insert_sorted_swap (x y : string) (l : list string) :
  Js.insert_sorted x (Js.insert_sorted y l)
  = Js.insert_sorted y (Js.insert_sorted x l).
Proof.
  induction l as [|e l IH]; simpl.
  - destruct (String.leb x y) eqn:Hxy, (String.leb y x) eqn:Hyx;
      try reflexivity; order_facts.
  - destruct (String.leb y e) eqn:Hye, (String.leb x e) eqn:Hxe; simpl;
      rewrite ?Hye, ?Hxe;
      destruct (String.leb x y) eqn:Hxy, (String.leb y x) eqn:Hyx;
      try reflexivity; try (now rewrite IH); order_facts.
Qed.

Lemma sort_Permutation (l1 l2 : list string) :
  Permutation l1 l2 -> Js.sort l1 = Js.sort l2.
Proof.
  induction 1 as [|x l l' _ IH|x y l|l l' l'' _ IH1 _ IH2]; simpl.
  - reflexivity.
  - now rewrite IH.
  - apply insert_sorted_swap.
  - congruence.
Qed.

Lemma every_eq_refl (l : list string) : Js.every_eq l l = true.
Proof.
  induction l as [|x l IH]; simpl; [reflexivity|].
  now rewrite String.eqb_refl.
Qed.

(** [arraysEqual] does not see the order of its arguments. *)
Lemma arraysEqual_Permutation (a b : list string) :
  Permutation a b -> ComposioService.arraysEqual a b = true.
Proof.
  intros Hperm. unfold ComposioService.arraysEqual.
  rewrite (Permutation_length Hperm), Nat.eqb_refl. simpl.
  rewrite (sort_Permutation a b Hperm). apply every_eq_refl.
Qed.

Lemma arraysEqual_Permutation_r (c a b : list string) :
  Permutation a b ->
  ComposioService.arraysEqual c a = ComposioService.arraysEqual c b.
Proof.
  intros Hperm. unfold ComposioService.arraysEqual.
  now rewrite (Permutation_length Hperm), (sort_Permutation a b Hperm).
Qed.

Lemma insert_sorted_Permutation (x : string) (l : list string) :
  Permutation (Js.insert_sorted x l) (x :: l).
Proof.
  induction l as [|y l IH]; simpl; [reflexivity|].
  destruct (String.leb x y); [reflexivity|].
  rewrite IH. apply perm_swap.
Qed.

Lemma sort_is_Permutation (l : list string) : Permutation (Js.sort l) l.
Proof.
  induction l as [|x l IH]; simpl; [reflexivity|].
  rewrite insert_sorted_Permutation. now rewrite IH.
Qed.

(** The search sorts the caller's array in place but never changes what
    it holds. *)
Lemma findServer_Permutation (servers : list ServerJson)
  (toolkits : list string) :
  Permutation (snd (ComposioService.findServer servers toolkits)) toolkits.
Proof.
  revert toolkits. induction servers as [|s rest IH]; intros toolkits; simpl.
  - reflexivity.
  - destruct (sj_toolkits s) as [ts|]; [|apply IH].
    destruct (ComposioService.arraysEqual _ _); simpl.
    + apply sort_is_Permutation.
    + rewrite IH. apply sort_is_Permutation.
Qed.

(** ** The session cache *)

Lemma createMcpServer_cached (env : Env) (toolkits : list string) (w w1 : World)
  (h : McpServer) :
  ComposioService.createMcpServer env toolkits w = (Some h, w1) ->
  cachedMcpServer (service w1) = Some h
  /\ cachedToolkits (service w1) = toolkits.
Proof.
  unfold ComposioService.createMcpServer, ComposioService.cacheServer. run.
  repeat (branch; simpl); intros H; inversion H; subst; simpl; auto.
Qed.

Lemma findOrCreateMcpServer_cached (env : Env) (toolkits : list string)
  (w w1 : World) (h : McpServer) :
  ComposioService.findOrCreateMcpServer env toolkits w = (Some h, w1) ->
  cachedMcpServer (service w1) = Some h
  /\ Permutation (cachedToolkits (service w1)) toolkits.
Proof.
  unfold ComposioService.findOrCreateMcpServer. run.
  destruct (remote env (trace w) ListMcpServers) as [| |listData] eqn:Hlist.
  - discriminate.
  - intros H. apply createMcpServer_cached in H. destruct H as [H1 H2].
    split; [exact H1 | now rewrite H2].
  - pose proof (findServer_Permutation
                  match listData with ServersBody items => items | _ => [] end
                  toolkits) as Hperm.
    destruct (ComposioService.findServer _ toolkits) as [[s|] toolkits'];
      simpl in Hperm.
    + unfold ComposioService.cacheServer. run.
      intros H. inversion H; subst; simpl. split; [reflexivity | exact Hperm].
    + intros H. apply createMcpServer_cached in H. destruct H as [H1 H2].
      split; [exact H1 | now rewrite H2].
Qed.

Lemma getOrCreateMcpServer_cached (env : Env) (toolkits : list string)
  (w w1 : World) (h : McpServer) :
  ComposioService.getOrCreateMcpServer env toolkits w = (Some h, w1) ->
  cachedMcpServer (service w1) = Some h
  /\ ComposioService.arraysEqual (cachedToolkits (service w1)) toolkits = true.
Proof.
  unfold ComposioService.getOrCreateMcpServer. unfold bind at 1, gets at 1.
  destruct (cachedMcpServer (service w)) as [srv|] eqn:Hsrv.
  - destruct (ComposioService.arraysEqual _ toolkits) eqn:Heq.
    + unfold ret. intros H. inversion H; subst. split; assumption.
    + intros H. apply findOrCreateMcpServer_cached in H.
      destruct H as [H1 H2]. split; [exact H1|].
      now apply arraysEqual_Permutation.
  - intros H. apply findOrCreateMcpServer_cached in H.
    destruct H as [H1 H2]. split; [exact H1|].
    now apply arraysEqual_Permutation.
Qed.

(** A request for a reordering of the cached toolkit list is served from
    the cache, and the world stays as it is. *)
Lemma getOrCreateMcpServer_hit (env : Env) (cached requested : list string)
  (w : World) (h : McpServer) :
  cachedMcpServer (service w) = Some h ->
  ComposioService.arraysEqual (cachedToolkits (service w)) cached = true ->
  Permutation cached requested ->
  ComposioService.getOrCreateMcpServer env requested w = (Some h, w).
Proof.
  intros Hsrv Heq Hperm.
  unfold ComposioService.getOrCreateMcpServer. run.
  rewrite Hsrv.
  rewrite <- (arraysEqual_Permutation_r _ cached requested Hperm), Heq.
  reflexivity.
Qed.

(** C7. When [getOrCreateMcpServer] has returned a session for the toolkits
    [a], [b], asking again for [b], [a] returns that same session and
    leaves the world untouched: the request log has not grown, so no list
    and no create request went out. The second call does not depend on the
    environment, so it does not matter what the remote would answer by
    then. *)
Theorem session_cache_ignores_order (env env' : Env) (a b : string)
  (w w1 : World) (h : McpServer) :
  ComposioService.getOrCreateMcpServer env [a; b] w = (Some h, w1) ->
  ComposioService.getOrCreateMcpServer env' [b; a] w1 = (Some h, w1)
  /\ trace (snd (ComposioService.getOrCreateMcpServer env' [b; a] w1))
     = trace w1.
Proof.
  intros Hfirst.
  destruct (getOrCreateMcpServer_cached env [a; b] w w1 h Hfirst)
    as [Hsrv Heq].
  assert (Hagain : ComposioService.getOrCreateMcpServer env' [b; a] w1
                   = (Some h, w1)).
  { apply (getOrCreateMcpServer_hit env' [a; b] [b; a] w1 h Hsrv Heq).
    apply perm_swap. }
  split; [exact Hagain | now rewrite Hagain].
Qed.

Lemma session_cache_ignores_order_witness :
  let env := Scenario.envWith Scenario.u1 "ACTIVE" in
  let first :=
    ComposioService.getOrCreateMcpServer env ["github"; "gmail"]
      Scenario.emptyWorld in
  let h := mkMcpServer (Some "srv_1") (Some "anchor-1150") ["github"; "gmail"] in
  first = (Some h, snd first)
  /\ trace (snd first) = [ListMcpServers;
                          CreateMcpServer "anchor-1150" ["github"; "gmail"]]
  /\ ComposioService.getOrCreateMcpServer env ["gmail"; "github"] (snd first)
     = (Some h, snd first)
  /\ trace (snd (ComposioService.getOrCreateMcpServer env ["gmail"; "github"]
                   (snd first)))
     = trace (snd first).
Proof.
  intros env first h.
  assert (Hfirst : ComposioService.getOrCreateMcpServer env ["github"; "gmail"]
                     Scenario.emptyWorld = (Some h, snd first))
    by reflexivity.
  split; [exact Hfirst|]. split; [reflexivity|].
  exact (session_cache_ignores_order env env "github" "gmail"
           Scenario.emptyWorld (snd first) h Hfirst).
Defined.

(** ** The access-URL cache *)

Lemma strict_eq_opt_Some (o : option string) (s : string) :
  Js.strict_eq_opt o (Some s) = true <-> o = Some s.
Proof.
  destruct o as [x|]; simpl; [|split; discriminate].
  rewrite String.eqb_eq. split; congruence.
Qed.

Lemma generateMcpUrl_hit (env : Env) (serverId : option string)
  (userId : string) (w : World) :
  Js.truthy (cachedMcpUrl (service w)) = true ->
  cachedUserId (service w) = Some userId ->
  clock w < mcpUrlExpiry (service w) ->
  ComposioService.generateMcpUrl env serverId userId w
  = (cachedMcpUrl (service w), w).
Proof.
  intros Hurl Huser Hfresh. unfold ComposioService.generateMcpUrl. run.
  rewrite Hurl, Huser. simpl. rewrite String.eqb_refl. simpl.
  apply Z.ltb_lt in Hfresh. rewrite Hfresh. reflexivity.
Qed.

Lemma generateMcpUrl_miss (env : Env) (serverId : option string)
  (userId : string) (w : World) :
  cachedUserId (service w) <> Some userId
  \/ mcpUrlExpiry (service w) <= clock w ->
  let out := ComposioService.generateMcpUrl env serverId userId w in
  trace (snd out) = (trace w ++ [GenerateMcpUrl serverId userId])%list
  /\ fst out = mintedUrl (remote env (trace w) (GenerateMcpUrl serverId userId))
  /\ forall url,
       fst out = Some url ->
       cachedMcpUrl (service (snd out)) = Some url
       /\ cachedUserId (service (snd out)) = Some userId
       /\ mcpUrlExpiry (service (snd out))
          = clock (snd out) + ComposioService.MCP_URL_TTL.
Proof.
  intros Hmiss. unfold ComposioService.generateMcpUrl, mintedUrl. run.
  assert (Hcond : (Js.truthy (cachedMcpUrl (service w))
                   && Js.strict_eq_opt (cachedUserId (service w)) (Some userId)
                   && Z.ltb (clock w) (mcpUrlExpiry (service w)))%bool = false).
  { destruct Hmiss as [Huser | Hold].
    - destruct (Js.strict_eq_opt _ _) eqn:E.
      + apply strict_eq_opt_Some in E. contradiction.
      + now rewrite Bool.andb_false_r.
    - apply Z.ltb_ge in Hold. rewrite Hold. now rewrite Bool.andb_false_r. }
  rewrite Hcond. clear Hcond Hmiss.
  destruct (remote env (trace w) (GenerateMcpUrl serverId userId))
    as [| |[]]; simpl; try (repeat split; try reflexivity; discriminate).
  branch; simpl.
  - repeat split; try reflexivity; congruence.
  - repeat split; try reflexivity; discriminate.
Qed.

Lemma generateMcpUrl_cached (env : Env) (serverId : option string)
  (userId url : string) (w w1 : World) :
  ComposioService.generateMcpUrl env serverId userId w = (Some url, w1) ->
  cachedMcpUrl (service w1) = Some url
  /\ Js.truthy (Some url) = true
  /\ cachedUserId (service w1) = Some userId.
Proof.
  unfold ComposioService.generateMcpUrl. run.
  destruct (Js.truthy (cachedMcpUrl (service w))
            && Js.strict_eq_opt (cachedUserId (service w)) (Some userId)
            && Z.ltb (clock w) (mcpUrlExpiry (service w)))%bool eqn:Hcond.
  - apply Bool.andb_true_iff in Hcond. destruct Hcond as [Hcond _].
    apply Bool.andb_true_iff in Hcond. destruct Hcond as [Hurl Huser].
    apply strict_eq_opt_Some in Huser.
    intros H. inversion H; subst. rewrite H1 in Hurl.
    split; [|split]; solve [assumption | reflexivity].
  - clear Hcond.
    destruct (remote env (trace w) (GenerateMcpUrl serverId userId))
      as [| |data]; try discriminate.
    destruct (Js.truthy _) eqn:Htruthy; [|discriminate].
    intros H. inversion H as [[Hurl Hw]]. rewrite Hurl in Htruthy.
    subst w1. simpl. split; [|split]; auto.
Qed.

(** C8. Once [generateMcpUrl] has returned a URL for a user: a call for
    that user at any time before the cached expiry returns the same URL and
    leaves the world untouched (no request is sent); a call at or after the
    expiry, or for another user, sends a mint request, returns what that
    answer carries, and when it carries a URL caches it for the asking user
    with the expiry set to the time of caching plus thirty minutes. The
    later calls may run in any environment and for any server id. *)
Theorem access_url_cache (env env' : Env) (serverId : option string)
  (userId url : string) (w w1 : World) :
  ComposioService.generateMcpUrl env serverId userId w = (Some url, w1) ->
  (forall serverId' w2,
     service w2 = service w1 ->
     clock w2 < mcpUrlExpiry (service w1) ->
     ComposioService.generateMcpUrl env' serverId' userId w2 = (Some url, w2))
  /\ (forall serverId' userId' w2,
        service w2 = service w1 ->
        mcpUrlExpiry (service w1) <= clock w2 \/ userId' <> userId ->
        let out := ComposioService.generateMcpUrl env' serverId' userId' w2 in
        trace (snd out) = (trace w2 ++ [GenerateMcpUrl serverId' userId'])%list
        /\ fst out
           = mintedUrl (remote env' (trace w2)
                               (GenerateMcpUrl serverId' userId'))
        /\ forall url',
             fst out = Some url' ->
             cachedMcpUrl (service (snd out)) = Some url'
             /\ cachedUserId (service (snd out)) = Some userId'
             /\ mcpUrlExpiry (service (snd out))
                = clock (snd out) + 30 * 60 * 1000).
Proof.
  intros Hfirst.
  destruct (generateMcpUrl_cached env serverId userId url w w1 Hfirst)
    as (Hurl & Htruthy & Huser).
  split.
  - intros serverId' w2 Hsvc Hfresh.
    rewrite <- Hurl, <- Hsvc.
    apply generateMcpUrl_hit; rewrite Hsvc; [|exact Huser | exact Hfresh].
    now rewrite Hurl.
  - intros serverId' userId' w2 Hsvc Hmiss.
    apply generateMcpUrl_miss. rewrite Hsvc.
    destruct Hmiss as [Hold | Hother]; [right; exact Hold | left].
    rewrite Huser. congruence.
Qed.

Lemma access_url_cache_witness :
  let env := Scenario.envWith Scenario.u1 "ACTIVE" in
  let first :=
    ComposioService.generateMcpUrl env (Some "srv_1") "u1" Scenario.emptyWorld in
  let other := ComposioService.generateMcpUrl env (Some "srv_1") "u2" (snd first) in
  let late_world :=
    mkWorld [] [] 0 (service (snd first)) (trace (snd first)) 1801150 [] in
  let late := ComposioService.generateMcpUrl env (Some "srv_1") "u1" late_world in
  first = (Some "https://mcp.example/srv_1?user_id=u1", snd first)
  /\ mcpUrlExpiry (service (snd first)) = 1150 + 1800000
  /\ ComposioService.generateMcpUrl env (Some "srv_1") "u1" (snd first) = first
  /\ trace (snd other)
     = (trace (snd first) ++ [GenerateMcpUrl (Some "srv_1") "u2"])%list
  /\ fst other = Some "https://mcp.example/srv_1?user_id=u2"
  /\ trace (snd late)
     = (trace late_world ++ [GenerateMcpUrl (Some "srv_1") "u1"])%list
  /\ mcpUrlExpiry (service (snd late)) = clock (snd late) + 30 * 60 * 1000.
Proof.
  intros env first other late_world late.
  assert (Hfirst : ComposioService.generateMcpUrl env (Some "srv_1") "u1"
                     Scenario.emptyWorld
                   = (Some "https://mcp.example/srv_1?user_id=u1", snd first))
    by reflexivity.
  destruct (access_url_cache env env (Some "srv_1") "u1" _ Scenario.emptyWorld
              (snd first) Hfirst) as [Hhit Hmiss].
  split; [exact Hfirst|]. split; [reflexivity|].
  split.
  - unfold first at 2. rewrite Hfirst.
    apply Hhit; [reflexivity | vm_compute; reflexivity].
  - destruct (Hmiss (Some "srv_1") "u2" (snd first) eq_refl)
      as (Htrace & Hanswer & _); [right; discriminate|].
    split; [exact Htrace|]. split; [exact Hanswer|].
    destruct (Hmiss (Some "srv_1") "u1" late_world eq_refl)
      as (Hlate & _ & Hcached); [left; vm_compute; discriminate|].
    split; [exact Hlate|].
    apply (Hcached "https://mcp.example/srv_1?user_id=u1"). reflexivity.
Defined.

(** ** Invalidation before the next tool configuration *)

Ltac trace_grows :=
  first
    [ now (exists []; rewrite List.app_nil_r)
    | now (eexists [_])
    | now (eexists [_; _]; simpl; rewrite <- List.app_assoc) ].

Lemma getOrCreateMcpServer_frame (env : Env) (toolkits : list string)
  (w : World) :
  let w' := snd (ComposioService.getOrCreateMcpServer env toolkits w) in
  cachedMcpUrl (service w') = cachedMcpUrl (service w)
  /\ cachedUserId (service w') = cachedUserId (service w)
  /\ mcpUrlExpiry (service w') = mcpUrlExpiry (service w)
  /\ connections w' = connections w
  /\ enabledToolkits w' = enabledToolkits w
  /\ exists sent, trace w' = (trace w ++ sent)%list.
Proof.
  unfold ComposioService.getOrCreateMcpServer,
    ComposioService.findOrCreateMcpServer, ComposioService.createMcpServer,
    ComposioService.cacheServer.
  run.
  repeat (branch; simpl);
    (split; [reflexivity|]); (split; [reflexivity|]); (split; [reflexivity|]);
    (split; [reflexivity|]); (split; [reflexivity|]); trace_grows.
Qed.

(** With no user in the URL cache, a tool configuration can only come out
    of a mint request sent during the call. *)
Lemma service_getMcpConfig_fresh (env : Env)
  (enabledToolkits : option (list string)) (w : World)
  (cfg : ComposioService.McpConfig) :
  cachedUserId (service w) = None ->
  fst (ComposioService.getMcpConfig env enabledToolkits w) = Some cfg ->
  exists earlier serverId userId,
    trace (snd (ComposioService.getMcpConfig env enabledToolkits w))
    = (trace w ++ earlier ++ [GenerateMcpUrl serverId userId])%list
    /\ mintedUrl (remote env (trace w ++ earlier)%list
                         (GenerateMcpUrl serverId userId))
       = Some (ComposioService.url cfg).
Proof.
  intros Hnouser. unfold ComposioService.getMcpConfig.
  destruct (negb (ComposioService.isConfigured env)); [discriminate|].
  destruct (ComposioService.getClerkUserId env) as [userId|]; [|discriminate].
  destruct (Nat.eqb _ 0); [discriminate|].
  set (toolkits := match enabledToolkits with Some l => l | None => [] end).
  unfold bind.
  destruct (getOrCreateMcpServer_frame env toolkits w)
    as (_ & Huser & _ & _ & _ & sent & Htrace).
  destruct (ComposioService.getOrCreateMcpServer env toolkits w)
    as [[srv|] w1]; [|discriminate].
  simpl in Huser, Htrace.
  assert (Hmiss : cachedUserId (service w1) <> Some userId
                  \/ mcpUrlExpiry (service w1) <= clock w1).
  { left. rewrite Huser, Hnouser. discriminate. }
  destruct (generateMcpUrl_miss env (ms_id srv) userId w1 Hmiss)
    as (Hsent & Hanswer & _).
  destruct (ComposioService.generateMcpUrl env (ms_id srv) userId w1)
    as [[u|] w2]; [|discriminate].
  simpl in Hsent, Hanswer.
  destruct (Js.truthy (Some u)); [|discriminate].
  unfold ret. simpl. intros Hcfg. inversion Hcfg; subst cfg. simpl.
  exists sent, (ms_id srv), userId. split.
  - rewrite Hsent, Htrace. now rewrite <- List.app_assoc.
  - rewrite <- Htrace. now rewrite <- Hanswer.
Qed.

Lemma toggleToolkit_run (env : Env) (user toolkitName : string) (enabled : bool)
  (w : World) :
  Router.requireAuth env = Router.Return user ->
  Router.toggleToolkit env toolkitName enabled w
  = (Router.Return true,
     set_service (fun _ => initialCache)
       (snd (Router.upsertEnabled env user toolkitName enabled w))).
Proof.
  intros Hauth. unfold Router.toggleToolkit. rewrite Hauth.
  unfold bind, ComposioService.invalidateSession, modify, ret.
  destruct (Router.upsertEnabled env user toolkitName enabled w) as [[] w1].
  reflexivity.
Qed.

Lemma router_getMcpConfig_unauthenticated (env : Env) (w : World)
  (e : Router.TRPCError) :
  Router.requireAuth env = Router.Throw e ->
  Router.getMcpConfig env w = (None, w).
Proof.
  intros Hauth. unfold Router.getMcpConfig. rewrite Hauth.
  destruct (negb _); reflexivity.
Qed.

(** C9. Take [toggleToolkit(s, true)] and then [getMcpConfig()]. The toggle
    sends no request; when it completes, the five cache fields of the
    service are back to their initial values. Whatever configuration
    [getMcpConfig] then returns carries a URL that is the answer to a mint
    request sent after the toggle, so never one that was in the cache before
    it. (Without an authenticated user the toggle throws and [getMcpConfig]
    returns nothing.) *)
Theorem toggle_then_config_is_fresh (env : Env) (toolkitName : string)
  (w : World) :
  let toggled := Router.toggleToolkit env toolkitName true w in
  let out := Router.getMcpConfig env (snd toggled) in
  trace (snd toggled) = trace w
  /\ (fst toggled = Router.Return true -> service (snd toggled) = initialCache)
  /\ (forall e, fst toggled = Router.Throw e -> fst out = None)
  /\ forall cfg,
       fst out = Some cfg ->
       fst toggled = Router.Return true
       /\ exists earlier serverId userId,
            trace (snd out)
            = (trace (snd toggled) ++ earlier
               ++ [GenerateMcpUrl serverId userId])%list
            /\ mintedUrl (remote env (trace (snd toggled) ++ earlier)%list
                                 (GenerateMcpUrl serverId userId))
               = Some (ComposioService.url cfg).
Proof.
  intros toggled out. subst out toggled.
  destruct (Router.requireAuth env) as [user|e] eqn:Hauth.
  - rewrite (toggleToolkit_run env user toolkitName true w Hauth).
    destruct (upsertEnabled_frame env user toolkitName true w)
      as (_ & _ & Htrace & _).
    simpl fst. simpl snd.
    set (w1 := set_service _ _).
    split; [exact Htrace|]. split; [reflexivity|].
    split; [discriminate|].
    intros cfg Hcfg. split; [reflexivity|].
    unfold Router.getMcpConfig in *. rewrite Hauth in *.
    destruct (negb (ComposioService.isConfigured env)); [discriminate|].
    unfold bind, gets in *.
    destruct (Nat.eqb _ 0); [discriminate|].
    apply service_getMcpConfig_fresh; [reflexivity | exact Hcfg].
  - assert (Htoggle : Router.toggleToolkit env toolkitName true w
                      = (Router.Throw e, w)).
    { unfold Router.toggleToolkit. now rewrite Hauth. }
    rewrite Htoggle. simpl fst. simpl snd.
    rewrite (router_getMcpConfig_unauthenticated env w e Hauth). simpl.
    split; [reflexivity|]. split; [discriminate|].
    split; [reflexivity | discriminate].
Qed.

Lemma toggle_then_config_is_fresh_witness :
  let env := Scenario.envWith Scenario.u1 "ACTIVE" in
  let stale :=
    mkWorld [] [] 0
      (mkCache (Some (mkMcpServer (Some "srv_0") (Some "anchor-1") ["github"]))
         (Some "https://mcp.example/stale") 5000000 (Some "u1") ["github"])
      [] 1000 [] in
  let toggled := Router.toggleToolkit env "github" true stale in
  let out := Router.getMcpConfig env (snd toggled) in
  fst (Router.getMcpConfig env
         (mkWorld [] [mkEnabled 0 "u1" "github" true None] 1 (service stale)
            [] 1000 []))
  = Some (ComposioService.mkMcpConfig "https://mcp.example/stale" "key")
  /\ fst out
     = Some (ComposioService.mkMcpConfig "https://mcp.example/srv_1?user_id=u1"
               "key")
  /\ exists earlier serverId userId,
       trace (snd out)
       = (trace (snd toggled) ++ earlier
          ++ [GenerateMcpUrl serverId userId])%list
       /\ mintedUrl (remote env (trace (snd toggled) ++ earlier)%list
                            (GenerateMcpUrl serverId userId))
          = Some "https://mcp.example/srv_1?user_id=u1".
Proof.
  intros env stale toggled out.
  assert (Hout : fst out
                 = Some (ComposioService.mkMcpConfig
                           "https://mcp.example/srv_1?user_id=u1" "key"))
    by reflexivity.
  split; [reflexivity|]. split; [exact Hout|].
  destruct (toggle_then_config_is_fresh env "github" stale)
    as (_ & _ & _ & Hfresh).
  exact (proj2 (Hfresh _ Hout)).
Defined.

(** ** The invariant between the two tables *)

Lemma enabledOf_true (user toolkit : string) (r : EnabledToolkitRecord) :
  Db.enabledOf user toolkit r = true ->
  e_clerkUserId r = user /\ e_toolkitName r = toolkit.
Proof.
  unfold Db.enabledOf. intros H. apply Bool.andb_true_iff in H.
  destruct H as [H1 H2]. now apply String.eqb_eq in H1, H2.
Qed.

Lemma connectionOf_true (user toolkit : string) (r : ConnectionRecord) :
  Db.connectionOf user toolkit r = true ->
  c_clerkUserId r = user /\ c_toolkitName r = toolkit.
Proof.
  unfold Db.connectionOf. intros H. apply Bool.andb_true_iff in H.
  destruct H as [H1 H2]. now apply String.eqb_eq in H1, H2.
Qed.

Lemma toggleToolkit_flag (env : Env) (user toolkitName : string)
  (enabled : bool) (w : World) :
  Router.requireAuth env = Router.Return user ->
  isEnabled user toolkitName (snd (Router.toggleToolkit env toolkitName enabled w))
  = enabled
  /\ connections (snd (Router.toggleToolkit env toolkitName enabled w))
     = connections w.
Proof.
  intros Hauth. rewrite (toggleToolkit_run env user toolkitName enabled w Hauth).
  destruct (upsertEnabled_record env user toolkitName enabled w)
    as (row & Hrow & Hflag).
  destruct (upsertEnabled_frame env user toolkitName enabled w) as (Hc & _).
  simpl. split; [|exact Hc].
  unfold isEnabled, enabledRecord in *. simpl. now rewrite Hrow.
Qed.

Lemma disconnect_keeps_consistent (env : Env) (toolkitName : string)
  (w : World) :
  consistent w -> consistent (snd (Router.disconnect env toolkitName w)).
Proof.
  intros Hinv.
  destruct (Router.requireAuth env) as [user|e] eqn:Hauth.
  - destruct (disconnect_run env user toolkitName w Hauth)
      as (_ & Hconn & Hen & _).
    set (w' := snd (Router.disconnect env toolkitName w)) in *.
    intros user' toolkit' Hon.
    unfold isEnabled, enabledRecord, Db.selectGet in Hon. rewrite Hen in Hon.
    rewrite find_updateWhere in Hon by reflexivity.
    destruct (List.find (Db.enabledOf user' toolkit') (enabledToolkits w))
      as [r|] eqn:Hfind; simpl in Hon; [|discriminate].
    destruct (Db.enabledOf user toolkitName r) eqn:Hsame; simpl in Hon;
      [discriminate|].
    pose proof (Hinv user' toolkit') as Hpair.
    unfold isEnabled, enabledRecord, Db.selectGet in Hpair.
    rewrite Hfind in Hpair. specialize (Hpair Hon).
    apply List.find_some in Hfind. destruct Hfind as [_ Hkey].
    apply enabledOf_true in Hkey. destruct Hkey as [Hu Ht].
    unfold currentStatus, connectionRecord, Db.selectGet in *.
    rewrite Hconn. rewrite find_updateWhere by reflexivity.
    destruct (List.find (Db.connectionOf user' toolkit') (connections w))
      as [c|] eqn:Hc; simpl; [|exact Hpair].
    apply List.find_some in Hc. destruct Hc as [_ Hckey].
    apply connectionOf_true in Hckey. destruct Hckey as [Hcu Hct].
    assert (Hother : Db.connectionOf user toolkitName c = false).
    { unfold Db.connectionOf. rewrite Hcu, Hct.
      unfold Db.enabledOf in Hsame. now rewrite Hu, Ht in Hsame. }
    rewrite Hother. exact Hpair.
  - unfold Router.disconnect. rewrite Hauth. exact Hinv.
Qed.

Lemma disable_keeps_consistent (env : Env) (toolkitName : string) (w : World) :
  consistent w ->
  consistent (snd (Router.toggleToolkit env toolkitName false w)).
Proof.
  intros Hinv.
  destruct (Router.requireAuth env) as [user|e] eqn:Hauth.
  - rewrite (toggleToolkit_run env user toolkitName false w Hauth).
    intros user' toolkit' Hon.
    assert (Hbefore : isEnabled user' toolkit' w = true).
    { revert Hon. unfold isEnabled, enabledRecord, Db.selectGet. simpl.
      unfold Router.upsertEnabled, bind, gets, modify, Db.insertEnabled.
      destruct (Db.selectGet (Db.enabledOf user toolkitName) (enabledToolkits w))
        as [row|]; simpl.
      - rewrite find_updateWhere by reflexivity.
        destruct (List.find _ (enabledToolkits w)) as [r|]; simpl;
          [|discriminate].
        destruct (Nat.eqb (e_id r) (e_id row)); simpl;
          [discriminate | trivial].
      - destruct (List.find (Db.enabledOf user' toolkit') (enabledToolkits w))
          as [r|] eqn:Hfind.
        + rewrite (find_app_some _ _ _ _ Hfind). trivial.
        + rewrite (find_app_none _ _ _ Hfind).
          destruct (Db.enabledOf user' toolkit' _); simpl; discriminate. }
    specialize (Hinv user' toolkit' Hbefore).
    destruct (upsertEnabled_frame env user toolkitName false w) as (Hc & _).
    unfold currentStatus, connectionRecord in *. simpl. now rewrite Hc.
  - unfold Router.toggleToolkit. rewrite Hauth. exact Hinv.
Qed.

(** Any run of disconnects and disables, in whatever environments, keeps
    the invariant. *)
Lemma withdrawals_keep_consistent (steps : list (Env * Operation)) (w : World) :
  List.forallb withdraws steps = true ->
  consistent w -> consistent (performAll steps w).
Proof.
  unfold performAll. revert w.
  induction steps as [|[env op] steps IH]; intros w Hall Hinv; simpl in *.
  - exact Hinv.
  - apply Bool.andb_true_iff in Hall. destruct Hall as [Hstep Hrest].
    apply IH; [exact Hrest|].
    destruct op as [| |toolkitName []| |]; try discriminate; simpl.
    + now apply disconnect_keeps_consistent.
    + now apply disable_keeps_consistent.
Qed.

(** C2, as the code has it. [disconnect] and [toggleToolkit(s, false)] keep
    the invariant "an enabled toolkit is connected" over all pairs, and
    after [disconnect(s)] the pair is disconnected and not enabled. But
    [toggleToolkit(s, enabled)] stores the flag it is given without looking
    at the connections table, which it leaves as it is: after
    [toggleToolkit(s, true)] the pair is enabled whatever its status. *)
Theorem invariant_kept_by_disconnect_and_disable (env : Env)
  (user toolkitName : string) (w : World) :
  Router.requireAuth env = Router.Return user ->
  consistent w ->
  consistent (snd (Router.disconnect env toolkitName w))
  /\ consistent (snd (Router.toggleToolkit env toolkitName false w))
  /\ isEnabled user toolkitName (snd (Router.disconnect env toolkitName w))
     = false
  /\ currentStatus user toolkitName (snd (Router.disconnect env toolkitName w))
     = disconnected
  /\ forall enabled,
       isEnabled user toolkitName
         (snd (Router.toggleToolkit env toolkitName enabled w)) = enabled
       /\ currentStatus user toolkitName
            (snd (Router.toggleToolkit env toolkitName enabled w))
          = currentStatus user toolkitName w.
Proof.
  intros Hauth Hinv.
  split; [now apply disconnect_keeps_consistent|].
  split; [now apply disable_keeps_consistent|].
  destruct (disconnect_run env user toolkitName w Hauth)
    as (_ & Hconn & Hen & _).
  split; [|split].
  - unfold isEnabled, enabledRecord, Db.selectGet. rewrite Hen.
    rewrite find_updateWhere by reflexivity.
    destruct (List.find _ (enabledToolkits w)) as [r|] eqn:Hfind; simpl;
      [|reflexivity].
    apply List.find_some in Hfind. destruct Hfind as [_ ->]. reflexivity.
  - unfold currentStatus, connectionRecord, Db.selectGet. rewrite Hconn.
    rewrite find_updateWhere by reflexivity.
    destruct (List.find _ (connections w)) as [c|] eqn:Hfind; simpl;
      [|reflexivity].
    apply List.find_some in Hfind. destruct Hfind as [_ ->]. reflexivity.
  - intros enabled.
    destruct (toggleToolkit_flag env user toolkitName enabled w Hauth)
      as [Hflag Hc].
    split; [exact Hflag|].
    unfold currentStatus, connectionRecord. now rewrite Hc.
Qed.

Lemma consistent_connectedWorld : consistent Scenario.connectedWorld.
Proof.
  intros user toolkit.
  unfold isEnabled, currentStatus, enabledRecord, connectionRecord,
    Db.selectGet, Db.enabledOf, Db.connectionOf.
  cbn -[String.eqb].
  destruct ("u1" =? user); destruct ("github" =? toolkit); simpl;
    solve [reflexivity | discriminate].
Qed.

Lemma invariant_kept_by_disconnect_and_disable_witness :
  let env := Scenario.envWith Scenario.u1 "ACTIVE" in
  let w := Scenario.connectedWorld in
  Router.requireAuth env = Router.Return "u1"
  /\ consistent w
  /\ consistent (snd (Router.disconnect env "github" w))
  /\ consistent (snd (Router.toggleToolkit env "github" false w))
  /\ isEnabled "u1" "github" (snd (Router.disconnect env "github" w)) = false
  /\ currentStatus "u1" "github" (snd (Router.disconnect env "github" w))
     = disconnected.
Proof.
  intros env w.
  assert (Hauth : Router.requireAuth env = Router.Return "u1") by reflexivity.
  destruct (invariant_kept_by_disconnect_and_disable env "u1" "github" w
              Hauth consistent_connectedWorld)
    as (Hdisc & Hoff & Hflag & Hstatus & _).
  split; [exact Hauth|]. split; [exact consistent_connectedWorld|].
  split; [exact Hdisc|]. split; [exact Hoff|].
  split; [exact Hflag | exact Hstatus].
Defined.

Lemma consistent_pendingWorld : consistent Scenario.pendingWorld.
Proof. intros user toolkit H. discriminate H. Qed.

(** C2, as stated, fails. Start from the tables where github is pending
    for u1 and nothing is enabled, which satisfy the invariant. A completed
    [toggleToolkit("github", true)] leaves the pair's enabled row with
    [enabled = true] while its connection row still has status [pending]. *)
Lemma toggle_enables_unconnected_toolkit :
  let env := Scenario.envWith Scenario.u1 "INITIATED" in
  let out := Router.toggleToolkit env "github" true Scenario.pendingWorld in
  consistent Scenario.pendingWorld
  /\ fst out = Router.Return true
  /\ enabledRecord "u1" "github" (snd out)
     = Some (mkEnabled 1 "u1" "github" true (Some 1000))
  /\ option_map c_status (connectionRecord "u1" "github" (snd out))
     = Some pending
  /\ ~ consistent (snd out).
Proof.
  intros env out.
  split; [exact consistent_pendingWorld|].
  split; [reflexivity|]. split; [reflexivity|]. split; [reflexivity|].
  intros Hinv. specialize (Hinv "u1" "github" eq_refl). discriminate Hinv.
Qed.

(** The status changes of [connect] and of a poll that finds the remote
    account expired do not touch the flag either. *)
Example connect_leaves_flag_on :
  let env := Scenario.envWith Scenario.u1 "ACTIVE" in
  let out := Router.connect env "github" "GitHub" Scenario.connectedWorld in
  currentStatus "u1" "github" (snd out) = error
  /\ isEnabled "u1" "github" (snd out) = true.
Proof. split; reflexivity. Qed.

Example poll_leaves_flag_on :
  let env := Scenario.envWith Scenario.u1 "EXPIRED" in
  let out := Router.pollConnectionStatus env "github" Scenario.connectedWorld in
  fst out = Router.Return error
  /\ currentStatus "u1" "github" (snd out) = error
  /\ isEnabled "u1" "github" (snd out) = true.
Proof. repeat split; reflexivity. Qed.

(** ** syncConnections *)

(** The status [syncConnections] stores is the polled mapping cut down to
    two values. *)
Lemma syncStatus_mapStatus (account : AccountJson) :
  Router.syncStatus account
  = if status_eqb (ComposioService.mapStatus (a_status account)) connected
    then connected
    else disconnected.
Proof.
  unfold Router.syncStatus, ComposioService.mapStatus.
  destruct (Js.strict_eq (option_map Js.toUpperCase (a_status account))
                         "ACTIVE"); [reflexivity|].
  repeat (branch; simpl); reflexivity.
Qed.

Lemma syncStatus_agrees_iff (account : AccountJson) :
  Router.syncStatus account = ComposioService.mapStatus (a_status account)
  <-> ComposioService.mapStatus (a_status account) = connected
      \/ ComposioService.mapStatus (a_status account) = disconnected.
Proof.
  rewrite syncStatus_mapStatus.
  destruct (ComposioService.mapStatus (a_status account)); simpl;
    split; intros H; try discriminate; auto;
    destruct H; discriminate.
Qed.




(** C1 on the code. The remote reports the github account of u1 as
    INITIATED and the local row is pending. [syncConnections] processes the
    account and stores [disconnected]; the mapping of [getConnectionStatus]
    gives [pending] for the same remote status, and [pollConnectionStatus]
    stores [pending] from the same world. The same happens with FAILED,
    which the poll maps to [error]. *)
Lemma sync_status_is_not_the_polled_mapping :
  let env := Scenario.envWith Scenario.u1 "INITIATED" in
  let synced := Router.syncConnections env Scenario.pendingWorld in
  let polled := Router.pollConnectionStatus env "github" Scenario.pendingWorld in
  fst synced = Router.Return 1%nat
  /\ currentStatus "u1" "github" (snd synced) = disconnected
  /\ ComposioService.mapStatus (Some "INITIATED") = pending
  /\ fst polled = Router.Return pending
  /\ currentStatus "u1" "github" (snd polled) = pending
  /\ Router.syncStatus (Scenario.account "FAILED") = disconnected
  /\ ComposioService.mapStatus (a_status (Scenario.account "FAILED")) = error.
Proof. repeat split; reflexivity. Qed.

(** ** More on the comparison of toolkit lists *)

Lemma every_eq_same_length (a b : list string) :
  List.length a = List.length b -> Js.every_eq a b = true -> a = b.
Proof.
  revert b. induction a as [|x a IH]; intros [|y b] Hlen Hall;
    simpl in *; try discriminate; [reflexivity|].
  apply Bool.andb_true_iff in Hall. destruct Hall as [Hxy Hrest].
  apply String.eqb_eq in Hxy. subst y. f_equal.
  apply IH; [now injection Hlen | exact Hrest].
Qed.

Lemma arraysEqual_true_Permutation (a b : list string) :
  ComposioService.arraysEqual a b = true -> Permutation a b.
Proof.
  unfold ComposioService.arraysEqual.
  destruct (Nat.eqb (List.length a) (List.length b)) eqn:Hlen; simpl;
    [|discriminate].
  apply Nat.eqb_eq in Hlen. intros Hall.
  assert (Hsorted : Js.sort a = Js.sort b).
  { apply every_eq_same_length; [|exact Hall].
    rewrite (Permutation_length (sort_is_Permutation a)).
    rewrite (Permutation_length (sort_is_Permutation b)). exact Hlen. }
  rewrite <- (sort_is_Permutation a), Hsorted. apply sort_is_Permutation.
Qed.

(** X1. [arraysEqual] holds exactly of the lists that are rearrangements of
    one another: same elements with the same multiplicities, in any order.
    In particular a repeated toolkit is not the same as a single one. *)
Theorem arraysEqual_iff_Permutation (a b : list string) :
  ComposioService.arraysEqual a b = true <-> Permutation a b.
Proof.
  split; [apply arraysEqual_true_Permutation | apply arraysEqual_Permutation].
Qed.

Lemma arraysEqual_Permutation_l (a b c : list string) :
  Permutation a b ->
  ComposioService.arraysEqual a c = ComposioService.arraysEqual b c.
Proof.
  intros Hperm. unfold ComposioService.arraysEqual.
  now rewrite (Permutation_length Hperm), (sort_Permutation a b Hperm).
Qed.

(** The search finds the first listed server that matches, whatever order
    the visited servers left the caller's array in. *)
Lemma findServer_find (servers : list ServerJson) (requested toolkits : list string) :
  Permutation toolkits requested ->
  fst (ComposioService.findServer servers toolkits)
  = option_map
      (fun s => mkServerJson (sj_id s) (sj_name s)
                  (option_map Js.sort (sj_toolkits s)))
      (List.find (serverMatches requested) servers).
Proof.
  revert toolkits. induction servers as [|s rest IH]; intros toolkits Hperm;
    simpl; [reflexivity|].
  unfold serverMatches at 1.
  destruct (sj_toolkits s) as [ts|] eqn:Hts; [|now apply IH].
  assert (Hsame : ComposioService.arraysEqual (Js.sort ts) (Js.sort toolkits)
                  = ComposioService.arraysEqual ts requested).
  { rewrite (arraysEqual_Permutation_l _ ts _ (sort_is_Permutation ts)).
    apply arraysEqual_Permutation_r.
    now rewrite sort_is_Permutation. }
  rewrite Hsame.
  destruct (ComposioService.arraysEqual ts requested); simpl.
  - now rewrite Hts.
  - apply IH. now rewrite sort_is_Permutation.
Qed.

Lemma getOrCreateMcpServer_miss (env : Env) (toolkits : list string)
  (w : World) :
  sessionCacheMisses toolkits w = true ->
  ComposioService.getOrCreateMcpServer env toolkits w
  = ComposioService.findOrCreateMcpServer env toolkits w.
Proof.
  unfold sessionCacheMisses, ComposioService.getOrCreateMcpServer. run.
  destruct (cachedMcpServer (service w)); [|reflexivity].
  destruct (ComposioService.arraysEqual _ _); [discriminate | reflexivity].
Qed.

(** X2. On a cache miss, when the remote list holds a server for exactly
    the requested toolkits (in any order), [getOrCreateMcpServer] returns
    the first such server under its remote id and name, caches it, and
    sends the list request only: no server is created. *)
Theorem session_reuses_listed_server (env : Env) (toolkits : list string)
  (w : World) (s : ServerJson) :
  sessionCacheMisses toolkits w = true ->
  List.find (serverMatches toolkits)
            (listedServers (remote env (trace w) ListMcpServers)) = Some s ->
  let out := ComposioService.getOrCreateMcpServer env toolkits w in
  trace (snd out) = (trace w ++ [ListMcpServers])%list
  /\ exists h,
       fst out = Some h
       /\ ms_id h = sj_id s
       /\ ms_name h = sj_name s
       /\ Permutation (ms_toolkits h) toolkits
       /\ cachedMcpServer (service (snd out)) = Some h.
Proof.
  intros Hmiss Hfind. simpl.
  rewrite (getOrCreateMcpServer_miss env toolkits w Hmiss).
  unfold ComposioService.findOrCreateMcpServer, listedServers in *. run.
  pose proof (findServer_find
                match remote env (trace w) ListMcpServers with
                | Ok (ServersBody items) => items
                | _ => []
                end toolkits toolkits (Permutation_refl _)) as Hsearch.
  rewrite Hfind in Hsearch. simpl in Hsearch.
  destruct (remote env (trace w) ListMcpServers) as [| |[]];
    try discriminate Hfind.
  destruct (ComposioService.findServer items toolkits) as [found toolkits'].
  simpl in Hsearch. subst found.
  unfold ComposioService.cacheServer. run.
  split; [reflexivity|]. eexists. split; [reflexivity|].
  split; [reflexivity|]. split; [reflexivity|]. split; [|reflexivity].
  apply List.find_some in Hfind. destruct Hfind as [_ Hmatch].
  unfold serverMatches in Hmatch.
  destruct (sj_toolkits s) as [ts|]; [|discriminate]. simpl.
  rewrite sort_is_Permutation. now apply arraysEqual_true_Permutation.
Qed.

Lemma createMcpServer_run (env : Env) (toolkits : list string) (w : World) :
  let name := "anchor-" ++ Js.string_of_Z (clock w) in
  let request := CreateMcpServer name toolkits in
  let out := ComposioService.createMcpServer env toolkits w in
  trace (snd out) = (trace w ++ [request])%list
  /\ match createdServerId (remote env (trace w) request) with
     | Some id =>
         fst out = Some (mkMcpServer (Some id) (Some name) toolkits)
         /\ cachedMcpServer (service (snd out)) = fst out
         /\ cachedToolkits (service (snd out)) = toolkits
     | None => fst out = None /\ service (snd out) = service w
     end.
Proof.
  unfold ComposioService.createMcpServer, ComposioService.cacheServer,
    createdServerId. run.
  destruct (remote env (trace w) _) as [| |[]]; simpl;
    try (split; [reflexivity|]; split; reflexivity).
  destruct (Js.truthy (Js.or_else id mcp_server_id)) eqn:Hid; simpl.
  - split; [reflexivity|].
    destruct (Js.or_else id mcp_server_id) as [sid|]; [|discriminate].
    repeat split; reflexivity.
  - split; [reflexivity|]. split; reflexivity.
Qed.

Lemma findOrCreateMcpServer_none_listed (env : Env) (toolkits : list string)
  (w : World) :
  remote env (trace w) ListMcpServers <> Rejected ->
  List.find (serverMatches toolkits)
            (listedServers (remote env (trace w) ListMcpServers)) = None ->
  exists sent,
    Permutation sent toolkits
    /\ ComposioService.findOrCreateMcpServer env toolkits w
       = ComposioService.createMcpServer env sent
           (snd (fetch env ListMcpServers w)).
Proof.
  intros Hanswered Hnone.
  unfold ComposioService.findOrCreateMcpServer, bind. unfold fetch at 1.
  pose proof (findServer_find (listedServers (remote env (trace w) ListMcpServers))
                toolkits toolkits (Permutation_refl _)) as Hsearch.
  rewrite Hnone in Hsearch. simpl in Hsearch.
  pose proof (findServer_Permutation
                (listedServers (remote env (trace w) ListMcpServers)) toolkits)
    as Hperm.
  unfold listedServers in *.
  destruct (remote env (trace w) ListMcpServers) as [| |body].
  - contradiction.
  - exists toolkits. split; reflexivity.
  - destruct body; simpl in *;
      try (exists toolkits; split; reflexivity).
    destruct (ComposioService.findServer items toolkits) as [found toolkits'].
    simpl in Hsearch, Hperm. subst found.
    exists toolkits'. split; [exact Hperm | reflexivity].
Qed.

(** X3. On a cache miss, when the list request is answered (with success
    or with an error status) and no listed server matches, exactly two
    requests go out: the list and one create, named [anchor-] followed by
    the clock at creation and carrying the requested toolkits in some
    order. The id of the create answer becomes the session's id and the
    session is cached; a create answer without an id gives no session and
    leaves the service fields as they were. *)
Theorem session_created_when_none_listed (env : Env) (toolkits : list string)
  (w : World) :
  sessionCacheMisses toolkits w = true ->
  remote env (trace w) ListMcpServers <> Rejected ->
  List.find (serverMatches toolkits)
            (listedServers (remote env (trace w) ListMcpServers)) = None ->
  let out := ComposioService.getOrCreateMcpServer env toolkits w in
  let created := clock w + latency env (trace w) ListMcpServers in
  let name := "anchor-" ++ Js.string_of_Z created in
  exists sent,
    Permutation sent toolkits
    /\ trace (snd out)
       = (trace w ++ [ListMcpServers; CreateMcpServer name sent])%list
    /\ match createdServerId
               (remote env (trace w ++ [ListMcpServers])%list
                       (CreateMcpServer name sent)) with
       | Some id =>
           fst out = Some (mkMcpServer (Some id) (Some name) sent)
           /\ cachedMcpServer (service (snd out)) = fst out
       | None => fst out = None /\ service (snd out) = service w
       end.
Proof.
  intros Hmiss Hanswered Hnone out created name. subst out created name.
  rewrite (getOrCreateMcpServer_miss env toolkits w Hmiss).
  destruct (findOrCreateMcpServer_none_listed env toolkits w Hanswered Hnone)
    as (sent & Hperm & Hrun).
  rewrite Hrun. exists sent. split; [exact Hperm|].
  destruct (createMcpServer_run env sent (snd (fetch env ListMcpServers w)))
    as [Htrace Hresult].
  unfold fetch in Htrace, Hresult. simpl in Htrace, Hresult.
  unfold fetch. simpl snd. split.
  - rewrite Htrace. now rewrite <- List.app_assoc.
  - destruct (createdServerId _); [|exact Hresult].
    destruct Hresult as (H1 & H2 & _). split; assumption.
Qed.

Lemma session_reuses_listed_server_witness :
  let out :=
    ComposioService.getOrCreateMcpServer Cases.envListing ["github"; "gmail"]
      Scenario.emptyWorld in
  sessionCacheMisses ["github"; "gmail"] Scenario.emptyWorld = true
  /\ trace (snd out) = [ListMcpServers]
  /\ exists h,
       fst out = Some h
       /\ ms_id h = Some "srv_9"
       /\ ms_name h = Some "anchor-77"
       /\ Permutation (ms_toolkits h) ["github"; "gmail"]
       /\ cachedMcpServer (service (snd out)) = Some h.
Proof.
  intros out.
  assert (Hmiss : sessionCacheMisses ["github"; "gmail"] Scenario.emptyWorld
                  = true) by reflexivity.
  split; [exact Hmiss|].
  apply (session_reuses_listed_server Cases.envListing ["github"; "gmail"]
           Scenario.emptyWorld Cases.listedServer Hmiss).
  reflexivity.
Defined.

Lemma session_created_when_none_listed_witness :
  let env := Scenario.envWith Scenario.u1 "ACTIVE" in
  let out :=
    ComposioService.getOrCreateMcpServer env ["github"] Scenario.emptyWorld in
  sessionCacheMisses ["github"] Scenario.emptyWorld = true
  /\ exists sent,
       Permutation sent ["github"]
       /\ trace (snd out)
          = [ListMcpServers; CreateMcpServer "anchor-1150" sent]
       /\ fst out = Some (mkMcpServer (Some "srv_1") (Some "anchor-1150") sent).
Proof.
  intros env out.
  assert (Hmiss : sessionCacheMisses ["github"] Scenario.emptyWorld = true)
    by reflexivity.
  split; [exact Hmiss|].
  destruct (session_created_when_none_listed env ["github"] Scenario.emptyWorld
              Hmiss) as (sent & Hperm & Htrace & Hresult);
    [discriminate | reflexivity |].
  exists sent. split; [exact Hperm|]. split; [exact Htrace|].
  apply Permutation_sym, Permutation_length_1_inv in Hperm. subst sent.
  exact (proj1 Hresult).
Defined.

Lemma findOrCreateMcpServer_trace (env : Env) (toolkits : list string)
  (w : World) :
  exists rest,
    trace (snd (ComposioService.findOrCreateMcpServer env toolkits w))
    = (trace w ++ ListMcpServers :: rest)%list.
Proof.
  unfold ComposioService.findOrCreateMcpServer,
    ComposioService.createMcpServer, ComposioService.cacheServer. run.
  repeat (branch; simpl);
    first [ now (exists [])
          | now (eexists [_]; rewrite <- List.app_assoc) ].
Qed.

(** X4. With a session in the cache, [getOrCreateMcpServer] answers
    without sending a request exactly when the requested toolkits are a
    rearrangement of the cached ones, and then it returns the cached
    session; any other request (a toolkit more, a toolkit less, another
    toolkit) starts with a list request to the remote. *)
Theorem session_cache_hit_iff (env : Env) (requested : list string) (w : World)
  (h : McpServer) :
  cachedMcpServer (service w) = Some h ->
  let out := ComposioService.getOrCreateMcpServer env requested w in
  (trace (snd out) = trace w
   <-> Permutation (cachedToolkits (service w)) requested)
  /\ (Permutation (cachedToolkits (service w)) requested ->
      out = (Some h, w))
  /\ (~ Permutation (cachedToolkits (service w)) requested ->
      exists rest, trace (snd out) = (trace w ++ ListMcpServers :: rest)%list).
Proof.
  intros Hsrv out.
  assert (Hhit : Permutation (cachedToolkits (service w)) requested ->
                 out = (Some h, w)).
  { intros Hperm. unfold out.
    apply (getOrCreateMcpServer_hit env (cachedToolkits (service w)) requested
             w h Hsrv); [|exact Hperm].
    apply arraysEqual_Permutation. reflexivity. }
  assert (Hmiss : ~ Permutation (cachedToolkits (service w)) requested ->
                  exists rest,
                    trace (snd out) = (trace w ++ ListMcpServers :: rest)%list).
  { intros Hnot. unfold out.
    rewrite getOrCreateMcpServer_miss; [apply findOrCreateMcpServer_trace|].
    unfold sessionCacheMisses. rewrite Hsrv.
    destruct (ComposioService.arraysEqual (cachedToolkits (service w)) requested)
      eqn:Heq; [|reflexivity].
    apply arraysEqual_true_Permutation in Heq. contradiction. }
  split; [|split; assumption].
  split.
  - intros Hsame.
    destruct (ComposioService.arraysEqual (cachedToolkits (service w)) requested)
      eqn:Heq; [now apply arraysEqual_true_Permutation|].
    exfalso. destruct Hmiss as (rest & Hgrow).
    + intros Hperm. apply arraysEqual_Permutation in Hperm. congruence.
    + rewrite Hsame in Hgrow.
      apply (f_equal (@List.length Request)) in Hgrow.
      rewrite List.length_app in Hgrow. simpl in Hgrow. lia.
  - intros Hperm. now rewrite (Hhit Hperm).
Qed.

Lemma session_cache_hit_iff_witness :
  let env := Scenario.envWith Scenario.u1 "ACTIVE" in
  let cached :=
    snd (ComposioService.getOrCreateMcpServer env ["github"; "gmail"]
           Scenario.emptyWorld) in
  let h := mkMcpServer (Some "srv_1") (Some "anchor-1150") ["github"; "gmail"] in
  cachedMcpServer (service cached) = Some h
  /\ ComposioService.getOrCreateMcpServer env ["gmail"; "github"] cached
     = (Some h, cached)
  /\ exists rest,
       trace (snd (ComposioService.getOrCreateMcpServer env ["github"] cached))
       = (trace cached ++ ListMcpServers :: rest)%list.
Proof.
  intros env cached h.
  assert (Hsrv : cachedMcpServer (service cached) = Some h) by reflexivity.
  destruct (session_cache_hit_iff env ["gmail"; "github"] cached h Hsrv)
    as (_ & Hhit & _).
  destruct (session_cache_hit_iff env ["github"] cached h Hsrv)
    as (_ & _ & Hmiss).
  split; [exact Hsrv|]. split.
  - apply Hhit. apply perm_swap.
  - apply Hmiss. intros Hperm.
    apply Permutation_length in Hperm. discriminate Hperm.
Defined.

(** ** Integrity of the tables *)

Section TableFacts.
Context {A : Type}.

Lemma map_updateWhere_kept {B} (g : A -> B) (p : A -> bool) (f : A -> A)
  (l : list A) :
  (forall r, g (f r) = g r) ->
  List.map g (Db.updateWhere p f l) = List.map g l.
Proof.
  intros Hkept. unfold Db.updateWhere. rewrite List.map_map.
  apply List.map_ext. intros r. destruct (p r); [apply Hkept | reflexivity].
Qed.

Lemma NoDup_map_In_inj {B} (g : A -> B) (l : list A) (a b : A) :
  NoDup (List.map g l) -> List.In a l -> List.In b l -> g a = g b -> a = b.
Proof.
  induction l as [|x l IH]; simpl; [contradiction|].
  intros Hnodup Ha Hb Hg. inversion Hnodup as [|? ? Hnotin Hrest]; subst.
  destruct Ha as [-> | Ha], Hb as [-> | Hb].
  - reflexivity.
  - exfalso. apply Hnotin. rewrite Hg. now apply List.in_map.
  - exfalso. apply Hnotin. rewrite <- Hg. now apply List.in_map.
  - now apply IH.
Qed.

Lemma NoDup_map_snoc {B} (g : A -> B) (l : list A) (x : A) :
  NoDup (List.map g l) -> ~ List.In (g x) (List.map g l) ->
  NoDup (List.map g (l ++ [x])).
Proof.
  intros Hnodup Hnotin. rewrite List.map_app. simpl.
  apply (Permutation_NoDup (Permutation_cons_append _ _)).
  now constructor.
Qed.

Lemma find_updateWhere_untouched (p q : A -> bool) (f : A -> A) (l : list A) :
  (forall r, p (f r) = p r) ->
  (forall r, List.In r l -> p r = true -> q r = false) ->
  List.find p (Db.updateWhere q f l) = List.find p l.
Proof.
  intros Hkey Hother. unfold Db.updateWhere.
  induction l as [|r l IH]; simpl; [reflexivity|].
  destruct (q r) eqn:Hq.
  - rewrite Hkey. destruct (p r) eqn:Hp.
    + rewrite (Hother r (or_introl eq_refl) Hp) in Hq. discriminate.
    + apply IH. intros r' Hin. apply Hother. now right.
  - destruct (p r); [reflexivity|].
    apply IH. intros r' Hin. apply Hother. now right.
Qed.

Lemma find_snoc_other (p : A -> bool) (l : list A) (x : A) :
  p x = false -> List.find p (l ++ [x]) = List.find p l.
Proof.
  intros Hx. induction l as [|r l IH]; simpl.
  - now rewrite Hx.
  - destruct (p r); [reflexivity | exact IH].
Qed.

End TableFacts.

Lemma connectionOf_iff (user toolkit : string) (r : ConnectionRecord) :
  Db.connectionOf user toolkit r = true <-> connectionKey r = (user, toolkit).
Proof.
  unfold connectionKey. split.
  - intros H. apply connectionOf_true in H. destruct H. congruence.
  - intros H. injection H as H1 H2. now apply connectionOf_refl.
Qed.

Lemma enabledOf_iff (user toolkit : string) (r : EnabledToolkitRecord) :
  Db.enabledOf user toolkit r = true <-> enabledKey r = (user, toolkit).
Proof.
  unfold enabledKey. split.
  - intros H. apply enabledOf_true in H. destruct H. congruence.
  - intros H. injection H as H1 H2. unfold Db.enabledOf.
    now rewrite H1, H2, !String.eqb_refl.
Qed.

Lemma no_connection_no_key (user toolkit : string)
  (rows : list ConnectionRecord) :
  List.find (Db.connectionOf user toolkit) rows = None ->
  ~ List.In (user, toolkit) (List.map connectionKey rows).
Proof.
  intros Hnone Hin. apply List.in_map_iff in Hin.
  destruct Hin as (r & Hkey & Hin).
  apply connectionOf_iff in Hkey.
  pose proof (List.find_none _ _ Hnone r Hin). congruence.
Qed.

Lemma no_enabled_no_key (user toolkit : string)
  (rows : list EnabledToolkitRecord) :
  List.find (Db.enabledOf user toolkit) rows = None ->
  ~ List.In (user, toolkit) (List.map enabledKey rows).
Proof.
  intros Hnone Hin. apply List.in_map_iff in Hin.
  destruct Hin as (r & Hkey & Hin).
  apply enabledOf_iff in Hkey.
  pose proof (List.find_none _ _ Hnone r Hin). congruence.
Qed.

Lemma fresh_id_not_used {A} (id : A -> nat) (rows : list A) (n : nat) :
  List.Forall (fun r => (id r < n)%nat) rows ->
  ~ List.In n (List.map id rows).
Proof.
  intros Hall Hin. apply List.in_map_iff in Hin.
  destruct Hin as (r & Hid & Hin).
  rewrite List.Forall_forall in Hall. specialize (Hall r Hin). lia.
Qed.

Lemma pairStep_wellFormed (user toolkit : string) (w w' : World) :
  pairStep user toolkit w w' -> wellFormed w -> wellFormed w'.
Proof.
  intros Hstep ((Hck & Hek) & (Hci & Hei & Hcn & Hen)).
  unfold wellFormed, uniqueKeys, freshIds.
  destruct Hstep as
    [w w' Hc He Hn
    |w w' p f Hkept _ Hc He Hn
    |w w' x Hnone Hkey Hid Hc He Hn
    |w w' p f Hkept _ He Hc Hn
    |w w' x Hnone Hkey Hid He Hc Hn].
  - rewrite Hc, He, Hn. auto.
  - rewrite Hc, He, Hn.
    rewrite !map_updateWhere_kept by (intros r; apply Hkept).
    repeat split; auto.
    unfold Db.updateWhere. rewrite List.Forall_map.
    eapply List.Forall_impl; [|exact Hcn].
    intros r Hr. simpl in Hr.
    destruct (p r); [now rewrite (proj2 (Hkept r)) | exact Hr].
  - rewrite Hc, He, Hn. repeat split; auto.
    + apply NoDup_map_snoc; [exact Hck|].
      rewrite Hkey. now apply no_connection_no_key.
    + apply NoDup_map_snoc; [exact Hci|].
      rewrite Hid. now apply fresh_id_not_used.
    + apply List.Forall_app. split.
      * eapply List.Forall_impl; [|exact Hcn]. intros r Hr. simpl in Hr. lia.
      * constructor; [lia | constructor].
    + eapply List.Forall_impl; [|exact Hen]. intros r Hr. simpl in Hr. lia.
  - rewrite Hc, He, Hn.
    rewrite !map_updateWhere_kept by (intros r; apply Hkept).
    repeat split; auto.
    unfold Db.updateWhere. rewrite List.Forall_map.
    eapply List.Forall_impl; [|exact Hen].
    intros r Hr. simpl in Hr.
    destruct (p r); [now rewrite (proj2 (Hkept r)) | exact Hr].
  - rewrite Hc, He, Hn. repeat split; auto.
    + apply NoDup_map_snoc; [exact Hek|].
      rewrite Hkey. now apply no_enabled_no_key.
    + apply NoDup_map_snoc; [exact Hei|].
      rewrite Hid. now apply fresh_id_not_used.
    + eapply List.Forall_impl; [|exact Hcn]. intros r Hr. simpl in Hr. lia.
    + apply List.Forall_app. split.
      * eapply List.Forall_impl; [|exact Hen]. intros r Hr. simpl in Hr. lia.
      * constructor; [lia | constructor].
Qed.

Lemma pairSteps_wellFormed (user toolkit : string) (w w' : World) :
  pairSteps user toolkit w w' -> wellFormed w -> wellFormed w'.
Proof.
  induction 1 as [|w w1 w2 Hstep _ IH]; intros Hwf; [exact Hwf|].
  apply IH. exact (pairStep_wellFormed user toolkit w w1 Hstep Hwf).
Qed.

Lemma pairStep_sameElsewhere (user toolkit : string) (w w' : World) :
  pairStep user toolkit w w' -> wellFormed w -> sameElsewhere user toolkit w w'.
Proof.
  intros Hstep ((Hck & Hek) & (Hci & Hei & Hcn & Hen)) user' toolkit' Hother.
  unfold connectionRecord, enabledRecord, Db.selectGet.
  destruct Hstep as
    [w w' Hc He Hn
    |w w' p f Hkept Hsel Hc He Hn
    |w w' x Hnone Hkey Hid Hc He Hn
    |w w' p f Hkept Hsel He Hc Hn
    |w w' x Hnone Hkey Hid He Hc Hn];
    rewrite Hc, He; split; try reflexivity.
  - apply find_updateWhere_untouched.
    + intros r. unfold Db.connectionOf.
      destruct (Hkept r) as [Hk _]. unfold connectionKey in Hk.
      injection Hk as -> ->. reflexivity.
    + intros r Hin Hmine. apply connectionOf_iff in Hmine.
      destruct Hsel as [-> | (row & Hrow & ->)].
      * destruct (Db.connectionOf user toolkit r) eqn:Hq; [|reflexivity].
        apply connectionOf_iff in Hq. congruence.
      * destruct (Nat.eqb (c_id r) (c_id row)) eqn:Hq; [|reflexivity].
        apply Nat.eqb_eq in Hq. unfold Db.selectGet in Hrow.
        apply List.find_some in Hrow. destruct Hrow as [Hrin Hrkey].
        apply connectionOf_iff in Hrkey.
        pose proof (NoDup_map_In_inj c_id _ r row Hci Hin Hrin Hq). congruence.
  - apply find_snoc_other.
    destruct (Db.connectionOf user' toolkit' x) eqn:Hq; [|reflexivity].
    apply connectionOf_iff in Hq. congruence.
  - apply find_updateWhere_untouched.
    + intros r. unfold Db.enabledOf.
      destruct (Hkept r) as [Hk _]. unfold enabledKey in Hk.
      injection Hk as -> ->. reflexivity.
    + intros r Hin Hmine. apply enabledOf_iff in Hmine.
      destruct Hsel as [-> | (row & Hrow & ->)].
      * destruct (Db.enabledOf user toolkit r) eqn:Hq; [|reflexivity].
        apply enabledOf_iff in Hq. congruence.
      * destruct (Nat.eqb (e_id r) (e_id row)) eqn:Hq; [|reflexivity].
        apply Nat.eqb_eq in Hq. unfold Db.selectGet in Hrow.
        apply List.find_some in Hrow. destruct Hrow as [Hrin Hrkey].
        apply enabledOf_iff in Hrkey.
        pose proof (NoDup_map_In_inj e_id _ r row Hei Hin Hrin Hq). congruence.
  - apply find_snoc_other.
    destruct (Db.enabledOf user' toolkit' x) eqn:Hq; [|reflexivity].
    apply enabledOf_iff in Hq. congruence.
Qed.

Lemma pairSteps_sameElsewhere (user toolkit : string) (w w' : World) :
  pairSteps user toolkit w w' -> wellFormed w -> sameElsewhere user toolkit w w'.
Proof.
  induction 1 as [w|w w1 w2 Hstep _ IH]; intros Hwf.
  - intros user' toolkit' _. split; reflexivity.
  - pose proof (pairStep_sameElsewhere user toolkit w w1 Hstep Hwf) as H1.
    pose proof (IH (pairStep_wellFormed user toolkit w w1 Hstep Hwf)) as H2.
    intros user' toolkit' Hother.
    destruct (H1 user' toolkit' Hother) as [Hc1 He1].
    destruct (H2 user' toolkit' Hother) as [Hc2 He2].
    split; congruence.
Qed.

Lemma pairSteps_trans (user toolkit : string) (w w1 w2 : World) :
  pairSteps user toolkit w w1 -> pairSteps user toolkit w1 w2 ->
  pairSteps user toolkit w w2.
Proof.
  induction 1 as [|w w' w1 Hstep _ IH]; intros Hrest; [exact Hrest|].
  econstructor; [exact Hstep | now apply IH].
Qed.

Lemma pairSteps_one (user toolkit : string) (w w' : World) :
  pairStep user toolkit w w' -> pairSteps user toolkit w w'.
Proof. intros H. econstructor; [exact H | constructor]. Qed.

(** *** The service never writes to the tables *)

Ltac no_write := apply pairSteps_one, step_no_write.

Lemma getConnectionStatus_tables (env : Env) (toolkitName : string) (w : World) :
  let w' := snd (ComposioService.getConnectionStatus env toolkitName w) in
  connections w' = connections w
  /\ enabledToolkits w' = enabledToolkits w
  /\ nextId w' = nextId w.
Proof.
  unfold ComposioService.getConnectionStatus. run.
  repeat (branch; simpl); auto.
Qed.

Lemma getConnectedAccounts_tables (env : Env) (w : World) :
  let w' := snd (ComposioService.getConnectedAccounts env w) in
  connections w' = connections w
  /\ enabledToolkits w' = enabledToolkits w
  /\ nextId w' = nextId w.
Proof.
  unfold ComposioService.getConnectedAccounts. run.
  repeat (branch; simpl); auto.
Qed.

Lemma disconnectToolkit_tables (env : Env) (connectionId : string) (w : World) :
  let w' := snd (ComposioService.disconnectToolkit env connectionId w) in
  connections w' = connections w
  /\ enabledToolkits w' = enabledToolkits w
  /\ nextId w' = nextId w.
Proof.
  unfold ComposioService.disconnectToolkit, ComposioService.invalidateSession.
  run. repeat (branch; simpl); auto.
Qed.

(** *** The router writes one statement at a time, for its own pair *)

Lemma upsertEnabled_steps (env : Env) (user toolkitName : string) (b : bool)
  (w : World) :
  pairSteps user toolkitName w
    (snd (Router.upsertEnabled env user toolkitName b w)).
Proof.
  unfold Router.upsertEnabled, Db.insertEnabled. run.
  destruct (Db.selectGet _ (enabledToolkits w)) as [row|] eqn:Hsel; simpl;
    apply pairSteps_one.
  - eapply step_update_enabled with (f := Db.setEnabled b);
      [ intros r; split; reflexivity
      | right; exists row; split; [exact Hsel | reflexivity]
      | reflexivity .. ].
  - eapply step_insert_enabled; [exact Hsel | ..];
      try reflexivity; reflexivity.
Qed.

Lemma enableIfConnected_steps (env : Env) (user toolkitName : string)
  (w : World) :
  pairSteps user toolkitName w
    (snd (Router.enableIfConnected env user toolkitName w)).
Proof.
  unfold Router.enableIfConnected, Db.insertEnabled. run.
  destruct (Db.selectGet _ (enabledToolkits w)) as [row|] eqn:Hsel; simpl.
  - destruct (e_enabled row); simpl; [constructor|].
    apply pairSteps_one.
    eapply step_update_enabled with (f := Db.setEnabled true);
      [ intros r; split; reflexivity
      | right; exists row; split; [exact Hsel | reflexivity]
      | reflexivity .. ].
  - apply pairSteps_one.
    eapply step_insert_enabled; [exact Hsel | ..];
      try reflexivity; reflexivity.
Qed.

Lemma storeAccount_steps (env : Env) (user toolkitName : string)
  (account : AccountJson) (status : ConnectionStatus) (w : World) :
  pairSteps user toolkitName w
    (snd (Router.storeAccount env user toolkitName account status w)).
Proof.
  unfold Router.storeAccount, Db.insertConnection. run.
  destruct (Db.selectGet _ (connections w)) as [row|] eqn:Hsel; simpl;
    apply pairSteps_one.
  - eapply step_update_connections;
      [ | right; exists row; split; [exact Hsel | reflexivity]
        | reflexivity .. ].
    intros r; split; reflexivity.
  - eapply step_insert_connection; [exact Hsel | ..];
      try reflexivity; reflexivity.
Qed.

Lemma toggleToolkit_steps (env : Env) (user toolkitName : string) (b : bool)
  (w : World) :
  Router.requireAuth env = Router.Return user ->
  pairSteps user toolkitName w
    (snd (Router.toggleToolkit env toolkitName b w)).
Proof.
  intros Hauth. rewrite (toggleToolkit_run env user toolkitName b w Hauth).
  simpl. eapply pairSteps_trans; [apply upsertEnabled_steps|].
  no_write; reflexivity.
Qed.

Lemma disconnect_steps (env : Env) (user toolkitName : string) (w : World) :
  Router.requireAuth env = Router.Return user ->
  pairSteps user toolkitName w (snd (Router.disconnect env toolkitName w)).
Proof.
  intros Hauth.
  destruct (disconnect_run env user toolkitName w Hauth)
    as (_ & Hconn & Hen & _).
  set (w' := snd (Router.disconnect env toolkitName w)) in *.
  assert (Hn : nextId w' = nextId w).
  { unfold w', Router.disconnect. rewrite Hauth.
    unfold ComposioService.disconnectToolkit,
      ComposioService.invalidateSession.
    run. repeat (branch; simpl); reflexivity. }
  apply steps_more
    with (w1 := mkWorld (connections w') (enabledToolkits w) (nextId w)
                  (service w) (trace w) (clock w) (opened w)).
  - eapply step_update_connections with (f := disconnectedRow (clock w'));
      [ intros r; split; reflexivity
      | left; reflexivity
      | exact Hconn
      | reflexivity .. ].
  - apply pairSteps_one.
    eapply step_update_enabled with (f := Db.setEnabled false);
      [ intros r; split; reflexivity
      | left; reflexivity
      | exact Hen
      | reflexivity
      | exact Hn ].
Qed.

Lemma pollConnectionStatus_steps (env : Env) (user toolkitName : string)
  (w : World) :
  Router.requireAuth env = Router.Return user ->
  pairSteps user toolkitName w
    (snd (Router.pollConnectionStatus env toolkitName w)).
Proof.
  intros Hauth.
  rewrite (pollConnectionStatus_run env user toolkitName w Hauth).
  destruct (getConnectionStatus_tables env toolkitName w) as (Hc & He & Hn).
  set (status := fst (ComposioService.getConnectionStatus env toolkitName w)).
  set (w1 := snd (ComposioService.getConnectionStatus env toolkitName w)) in *.
  set (w2 := set_connections _ w1). simpl snd.
  assert (Hstore : pairSteps user toolkitName w w2).
  { apply steps_more with (w1 := w1); [now apply step_no_write|].
    apply pairSteps_one.
    eapply step_update_connections with (f := polledRow status (clock w1));
      [ intros r; split; reflexivity
      | left; reflexivity
      | reflexivity .. ]. }
  destruct (status_eqb status connected); [|exact Hstore].
  eapply pairSteps_trans; [exact Hstore|].
  eapply pairSteps_trans; [apply upsertEnabled_steps|].
  no_write; reflexivity.
Qed.

Lemma syncAccount_steps (env : Env) (user toolkitName : string)
  (account : AccountJson) (w : World) :
  Router.accountToolkitName account = Some toolkitName ->
  pairSteps user toolkitName w (snd (Router.syncAccount env user account w)).
Proof.
  intros Hname. unfold Router.syncAccount. rewrite Hname. unfold bind, ret.
  pose proof (storeAccount_steps env user toolkitName account
                (Router.syncStatus account) w) as Hstore.
  destruct (Router.storeAccount env user toolkitName account
              (Router.syncStatus account) w) as [[] w1]. simpl in Hstore.
  destruct (status_eqb (Router.syncStatus account) connected).
  - pose proof (enableIfConnected_steps env user toolkitName w1) as Hon.
    destruct (Router.enableIfConnected env user toolkitName w1) as [[] w2].
    simpl in *. eapply pairSteps_trans; eassumption.
  - simpl. exact Hstore.
Qed.

Lemma connect_steps (env : Env) (user toolkitName displayName : string)
  (w : World) :
  Router.requireAuth env = Router.Return user ->
  pairSteps user toolkitName w
    (snd (Router.connect env toolkitName displayName w)).
Proof.
  intros Hauth. unfold Router.connect. rewrite Hauth.
  unfold bind at 1. unfold gets at 1.
  assert (Hrest : forall w1,
            pairSteps user toolkitName w w1 ->
            pairSteps user toolkitName w
              (snd ((result <- ComposioService.authorizeToolkit env toolkitName ;;
                     match result with
                     | None =>
                         t <- now ;;
                         modify (set_connections
                                   (Db.updateWhere
                                      (Db.connectionOf user toolkitName)
                                      (fun r =>
                                         mkConnection (c_id r) (c_clerkUserId r)
                                           (c_toolkitName r) (c_displayName r)
                                           error (c_connectedAt r)
                                           (c_metadata r) (c_createdAt r)
                                           (Some t)))) ;;;
                         ret (Router.Throw (Router.connectFailure displayName))
                     | Some link =>
                         ret (Router.Return
                                (Router.mkConnectResult
                                   (ComposioService.connectionId link)
                                   (ComposioService.redirectUrl link) pending))
                     end) w1))).
  { intros w1 Hfirst. unfold bind at 1.
    destruct (authorizeToolkit_frame env toolkitName w1) as (Hc & He & Hn & _).
    destruct (ComposioService.authorizeToolkit env toolkitName w1)
      as [result w2]. simpl in Hc, He, Hn.
    assert (Hsecond : pairSteps user toolkitName w w2).
    { eapply pairSteps_trans; [exact Hfirst|]. now no_write. }
    destruct result as [link|]; run; [exact Hsecond|].
    eapply pairSteps_trans; [exact Hsecond|]. apply pairSteps_one.
    eapply step_update_connections with (f := failedRow (clock w2));
      [ intros r; split; reflexivity
      | left; reflexivity
      | reflexivity .. ]. }
  destruct (Db.selectGet _ (connections w)) as [row|] eqn:Hsel.
  - unfold bind at 1. unfold bind at 1. unfold now, gets, modify.
    apply Hrest. apply pairSteps_one.
    eapply step_update_connections;
      [ | right; exists row; split; [exact Hsel | reflexivity]
        | reflexivity .. ].
    intros r; split; reflexivity.
  - unfold bind at 1. unfold Db.insertConnection at 1.
    apply Hrest. apply pairSteps_one.
    eapply step_insert_connection; [exact Hsel | ..];
      try reflexivity; reflexivity.
Qed.

(** X5. The unique index on (user, toolkit) and the primary key of both
    tables hold after every mutating procedure if they held before it:
    each procedure inserts a row for a pair only after its lookup found
    none, and its updates change neither key nor id. This is so in any
    environment, with or without a user, whatever the remote answers. *)
Theorem operations_keep_tables_wellFormed (env : Env) (op : Operation)
  (w : World) :
  wellFormed w -> wellFormed (perform (env, op) w).
Proof.
  intros Hwf. unfold perform.
  destruct (Router.requireAuth env) as [user|e] eqn:Hauth.
  - destruct op as [s d|s|s b|s|].
    + exact (pairSteps_wellFormed user s _ _
               (connect_steps env user s d w Hauth) Hwf).
    + exact (pairSteps_wellFormed user s _ _
               (disconnect_steps env user s w Hauth) Hwf).
    + exact (pairSteps_wellFormed user s _ _
               (toggleToolkit_steps env user s b w Hauth) Hwf).
    + exact (pairSteps_wellFormed user s _ _
               (pollConnectionStatus_steps env user s w Hauth) Hwf).
    + unfold Router.syncConnections. rewrite Hauth. unfold bind.
      destruct (getConnectedAccounts_tables env w) as (Hc & He & Hn).
      destruct (ComposioService.getConnectedAccounts env w) as [accounts w1].
      simpl in Hc, He, Hn.
      assert (Hwf1 : wellFormed w1).
      { apply (pairStep_wellFormed user EmptyString w w1); [|exact Hwf].
        now apply step_no_write. }
      clear Hc He Hn Hwf.
      assert (Hloop : forall accounts count w1,
                wellFormed w1 ->
                wellFormed (snd (Router.syncAccounts env user accounts count w1))).
      { clear. intros accounts.
        induction accounts as [|account rest IH]; intros count w1 Hwf1; simpl.
        - exact Hwf1.
        - unfold bind.
          destruct (Router.syncAccount env user account w1) as [synced w2]
            eqn:Hrun.
          apply IH.
          destruct (Router.accountToolkitName account) as [name|] eqn:Hname.
          + pose proof (syncAccount_steps env user name account w1 Hname)
              as Hsteps.
            rewrite Hrun in Hsteps.
            exact (pairSteps_wellFormed user name _ _ Hsteps Hwf1).
          + unfold Router.syncAccount in Hrun. rewrite Hname in Hrun.
            inversion Hrun; subst. exact Hwf1. }
      specialize (Hloop accounts 0%nat w1 Hwf1).
      destruct (Router.syncAccounts env user accounts 0 w1) as [n w2].
      exact Hloop.
  - destruct op as [s d|s|s b|s|]; simpl;
      [ unfold Router.connect | unfold Router.disconnect
      | unfold Router.toggleToolkit | unfold Router.pollConnectionStatus
      | unfold Router.syncConnections ];
      rewrite Hauth; exact Hwf.
Qed.

Lemma wellFormed_connectedWorld : wellFormed Scenario.connectedWorld.
Proof.
  repeat split; simpl;
    repeat (constructor; simpl; try lia; try (intros H; exact H)).
Qed.

Lemma operations_keep_tables_wellFormed_witness :
  let env := Scenario.envWith Scenario.u1 "ACTIVE" in
  wellFormed Scenario.connectedWorld
  /\ wellFormed (perform (env, Connect "gmail" "Gmail") Scenario.connectedWorld)
  /\ wellFormed (perform (env, SyncConnections) Scenario.connectedWorld).
Proof.
  intros env. split; [exact wellFormed_connectedWorld|]. split.
  - exact (operations_keep_tables_wellFormed env (Connect "gmail" "Gmail")
             Scenario.connectedWorld wellFormed_connectedWorld).
  - exact (operations_keep_tables_wellFormed env SyncConnections
             Scenario.connectedWorld wellFormed_connectedWorld).
Defined.

(** X6. On well-formed tables, a procedure called for one toolkit
    ([connect], [disconnect], [toggleToolkit], [pollConnectionStatus])
    leaves the connection row and the enabled row of every other (user,
    toolkit) pair exactly as they were. *)
Theorem operation_changes_only_its_pair (env : Env) (user toolkitName : string)
  (op : Operation) (w : World) :
  Router.requireAuth env = Router.Return user ->
  operationToolkit op = Some toolkitName ->
  wellFormed w ->
  sameElsewhere user toolkitName w (perform (env, op) w).
Proof.
  intros Hauth Hop Hwf. unfold perform.
  destruct op as [s d|s|s b|s|]; simpl in Hop; inversion Hop; subst.
  - exact (pairSteps_sameElsewhere user toolkitName _ _
             (connect_steps env user toolkitName d w Hauth) Hwf).
  - exact (pairSteps_sameElsewhere user toolkitName _ _
             (disconnect_steps env user toolkitName w Hauth) Hwf).
  - exact (pairSteps_sameElsewhere user toolkitName _ _
             (toggleToolkit_steps env user toolkitName b w Hauth) Hwf).
  - exact (pairSteps_sameElsewhere user toolkitName _ _
             (pollConnectionStatus_steps env user toolkitName w Hauth) Hwf).
Qed.

Lemma operation_changes_only_its_pair_witness :
  let env := Scenario.envWith Scenario.u1 "EXPIRED" in
  let w' := perform (env, ToggleToolkit "gmail" true) Scenario.connectedWorld in
  Router.requireAuth env = Router.Return "u1"
  /\ wellFormed Scenario.connectedWorld
  /\ isEnabled "u1" "gmail" w' = true
  /\ connectionRecord "u1" "github" w'
     = connectionRecord "u1" "github" Scenario.connectedWorld
  /\ enabledRecord "u1" "github" w'
     = enabledRecord "u1" "github" Scenario.connectedWorld.
Proof.
  intros env w'.
  assert (Hauth : Router.requireAuth env = Router.Return "u1") by reflexivity.
  split; [exact Hauth|]. split; [exact wellFormed_connectedWorld|].
  split; [reflexivity|].
  apply (operation_changes_only_its_pair env "u1" "gmail"
           (ToggleToolkit "gmail" true) Scenario.connectedWorld Hauth eq_refl
           wellFormed_connectedWorld).
  discriminate.
Defined.

(** ** Procedures without a user *)



(** ** The bulk sync *)

Lemma syncAccount_synced (env : Env) (user : string) (account : AccountJson)
  (w : World) :
  fst (Router.syncAccount env user account w) = resolvable account.
Proof.
  unfold Router.syncAccount, resolvable.
  destruct (Router.accountToolkitName account) as [name|]; [|reflexivity].
  unfold bind, ret.
  destruct (Router.storeAccount _ _ _ _ _ _) as [[] w1].
  destruct (status_eqb _ _); [|reflexivity].
  destruct (Router.enableIfConnected _ _ _ _) as [[] w2]. reflexivity.
Qed.

Lemma syncAccount_skips (env : Env) (user : string) (account : AccountJson)
  (w : World) :
  resolvable account = false ->
  Router.syncAccount env user account w = (false, w).
Proof.
  unfold Router.syncAccount, resolvable.
  destruct (Router.accountToolkitName account); [discriminate | reflexivity].
Qed.

Lemma syncAccounts_count (env : Env) (user : string)
  (accounts : list AccountJson) (count : nat) (w : World) :
  fst (Router.syncAccounts env user accounts count w)
  = (count + List.length (List.filter resolvable accounts))%nat.
Proof.
  revert count w. induction accounts as [|account rest IH]; intros count w;
    simpl; [now rewrite Nat.add_0_r|].
  unfold bind.
  pose proof (syncAccount_synced env user account w) as Hsynced.
  destruct (Router.syncAccount env user account w) as [synced w1].
  simpl in Hsynced. subst synced. rewrite IH.
  destruct (resolvable account); simpl; lia.
Qed.

Lemma getConnectedAccounts_trace (env : Env) (w : World) :
  let out := ComposioService.getConnectedAccounts env w in
  service (snd out) = service w
  /\ (trace (snd out) = trace w
      \/ exists user,
           ComposioService.getClerkUserId env = Some user
           /\ trace (snd out)
              = (trace w ++ [ListConnectedAccounts user None])%list).
Proof.
  unfold ComposioService.getConnectedAccounts. run.
  destruct (negb _); [simpl; auto|].
  destruct (ComposioService.getClerkUserId env) as [user|]; [|simpl; auto].
  split.
  - repeat (branch; simpl); reflexivity.
  - right. exists user. split; [reflexivity|].
    repeat (branch; simpl); reflexivity.
Qed.

Lemma syncAccounts_frame (env : Env) (user : string)
  (accounts : list AccountJson) (count : nat) (w : World) :
  let w' := snd (Router.syncAccounts env user accounts count w) in
  service w' = service w /\ trace w' = trace w.
Proof.
  revert count w. induction accounts as [|account rest IH]; intros count w;
    simpl; [split; reflexivity|].
  unfold bind.
  assert (Hone : service (snd (Router.syncAccount env user account w))
                 = service w
                 /\ trace (snd (Router.syncAccount env user account w))
                    = trace w).
  { unfold Router.syncAccount, Router.storeAccount, Router.enableIfConnected,
      Db.insertConnection, Db.insertEnabled. run.
    repeat (branch; simpl); split; reflexivity. }
  destruct (Router.syncAccount env user account w) as [synced w1].
  simpl in Hone. destruct Hone as [Hs Ht].
  destruct (IH (if synced then S count else count) w1) as [Hs' Ht'].
  split; congruence.
Qed.

(** X8. With a user, [syncConnections] returns the number of accounts in
    the remote answer that carry a toolkit name under one of the four field
    names it reads; accounts without one are skipped and not counted. It
    sends at most the one list request and never touches the service
    caches, even when it enables toolkits. *)
Theorem syncConnections_counts_resolvable (env : Env) (user : string)
  (w : World) :
  Router.requireAuth env = Router.Return user ->
  let accounts := fst (ComposioService.getConnectedAccounts env w) in
  let out := Router.syncConnections env w in
  fst out
  = Router.Return (List.length (List.filter resolvable accounts))
  /\ service (snd out) = service w
  /\ (trace (snd out) = trace w
      \/ trace (snd out) = (trace w ++ [ListConnectedAccounts user None])%list).
Proof.
  intros Hauth accounts out. subst accounts out.
  unfold Router.syncConnections. rewrite Hauth. unfold bind, ret.
  destruct (getConnectedAccounts_trace env w) as (Hs & Ht).
  destruct (ComposioService.getConnectedAccounts env w) as [accounts w1].
  simpl in Hs, Ht.
  pose proof (syncAccounts_count env user accounts 0 w1) as Hcount.
  destruct (syncAccounts_frame env user accounts 0 w1) as (Hs' & Ht').
  destruct (Router.syncAccounts env user accounts 0 w1) as [n w2].
  simpl in *. subst n. split; [reflexivity|]. split; [congruence|].
  destruct Ht as [Ht | (user' & Huser & Ht)]; [left; congruence|].
  right. apply requireAuth_getClerkUserId in Hauth.
  assert (user' = user) by congruence. subst user'. congruence.
Qed.

Lemma syncConnections_counts_resolvable_witness :
  let out := Router.syncConnections Cases.envMixed Scenario.pendingWorld in
  Router.requireAuth Cases.envMixed = Router.Return "u1"
  /\ List.length (fst (ComposioService.getConnectedAccounts Cases.envMixed
                         Scenario.pendingWorld)) = 3%nat
  /\ fst out = Router.Return 2%nat
  /\ service (snd out) = service Scenario.pendingWorld
  /\ currentStatus "u1" "github" (snd out) = connected
  /\ isEnabled "u1" "github" (snd out) = true
  /\ currentStatus "u1" "slack" (snd out) = disconnected.
Proof.
  intros out.
  assert (Hauth : Router.requireAuth Cases.envMixed = Router.Return "u1")
    by reflexivity.
  destruct (syncConnections_counts_resolvable Cases.envMixed "u1"
              Scenario.pendingWorld Hauth) as (Hcount & Hsvc & _).
  split; [exact Hauth|]. split; [reflexivity|].
  split; [exact Hcount|]. split; [exact Hsvc|].
  repeat split; reflexivity.
Defined.

Lemma syncAccounts_elsewhere (env : Env) (user user' toolkit' : string)
  (accounts : list AccountJson) (count : nat) (w : World) :
  wellFormed w ->
  (user' <> user
   \/ forall account,
        List.In account accounts ->
        Router.accountToolkitName account <> Some toolkit') ->
  let w' := snd (Router.syncAccounts env user accounts count w) in
  connectionRecord user' toolkit' w' = connectionRecord user' toolkit' w
  /\ enabledRecord user' toolkit' w' = enabledRecord user' toolkit' w.
Proof.
  revert count w. induction accounts as [|account rest IH];
    intros count w Hwf Hother; simpl; [split; reflexivity|].
  unfold bind.
  destruct (Router.syncAccount env user account w) as [synced w1] eqn:Hrun.
  assert (Hstep : wellFormed w1
                  /\ connectionRecord user' toolkit' w1
                     = connectionRecord user' toolkit' w
                  /\ enabledRecord user' toolkit' w1
                     = enabledRecord user' toolkit' w).
  { destruct (Router.accountToolkitName account) as [name|] eqn:Hname.
    - pose proof (syncAccount_steps env user name account w Hname) as Hsteps.
      rewrite Hrun in Hsteps. simpl in Hsteps.
      split; [exact (pairSteps_wellFormed user name _ _ Hsteps Hwf)|].
      apply (pairSteps_sameElsewhere user name _ _ Hsteps Hwf).
      intros Heq. injection Heq as Hu Ht.
      destruct Hother as [Hne | Hnames]; [contradiction|].
      apply (Hnames account (or_introl eq_refl)). congruence.
    - unfold Router.syncAccount in Hrun. rewrite Hname in Hrun.
      inversion Hrun; subst. auto. }
  destruct Hstep as (Hwf1 & Hc1 & He1).
  destruct (IH (if synced then S count else count) w1 Hwf1) as [Hc He].
  { destruct Hother as [Hne | Hnames]; [left; exact Hne | right].
    intros a Hin. apply Hnames. now right. }
  split; congruence.
Qed.

(** X9. On well-formed tables, [syncConnections] changes only the rows of
    the pairs its user has an account for in the remote answer: rows of
    other users, and rows of toolkits that no returned account names, stay
    exactly as they were. So a toolkit the remote no longer reports keeps
    its local status and flag, and an empty or failed answer changes
    nothing. *)
Theorem syncConnections_leaves_unreported (env : Env)
  (user user' toolkit' : string) (w : World) :
  Router.requireAuth env = Router.Return user ->
  wellFormed w ->
  (user' <> user
   \/ forall account,
        List.In account (fst (ComposioService.getConnectedAccounts env w)) ->
        Router.accountToolkitName account <> Some toolkit') ->
  let w' := snd (Router.syncConnections env w) in
  connectionRecord user' toolkit' w' = connectionRecord user' toolkit' w
  /\ enabledRecord user' toolkit' w' = enabledRecord user' toolkit' w.
Proof.
  intros Hauth Hwf Hother w'. subst w'.
  unfold Router.syncConnections. rewrite Hauth. unfold bind, ret.
  destruct (getConnectedAccounts_tables env w) as (Hc & He & Hn).
  destruct (ComposioService.getConnectedAccounts env w) as [accounts w1].
  simpl in Hc, He, Hn, Hother.
  assert (Hwf1 : wellFormed w1).
  { apply (pairStep_wellFormed user EmptyString w w1); [|exact Hwf].
    now apply step_no_write. }
  destruct (syncAccounts_elsewhere env user user' toolkit' accounts 0 w1
              Hwf1 Hother) as [Hc' He'].
  destruct (Router.syncAccounts env user accounts 0 w1) as [n w2].
  simpl in *. unfold connectionRecord, enabledRecord in *.
  rewrite Hc', He', Hc, He. split; reflexivity.
Qed.

Lemma syncConnections_leaves_unreported_witness :
  let env := Scenario.envWith Scenario.u1 "EXPIRED" in
  let w :=
    mkWorld
      [mkConnection 0 "u1" "github" "GitHub" connected (Some 900) None None None;
       mkConnection 1 "u1" "gmail" "Gmail" connected (Some 950) None None None]
      [mkEnabled 2 "u1" "gmail" true None]
      3 initialCache [] 1000 [] in
  let w' := snd (Router.syncConnections env w) in
  Router.requireAuth env = Router.Return "u1"
  /\ wellFormed w
  /\ currentStatus "u1" "github" w' = disconnected
  /\ connectionRecord "u1" "gmail" w' = connectionRecord "u1" "gmail" w
  /\ enabledRecord "u1" "gmail" w' = enabledRecord "u1" "gmail" w.
Proof.
  intros env w w'.
  assert (Hauth : Router.requireAuth env = Router.Return "u1") by reflexivity.
  assert (Hwf : wellFormed w).
  { repeat split; simpl;
      repeat (constructor; simpl; try lia);
      intuition discriminate. }
  split; [exact Hauth|]. split; [exact Hwf|]. split; [reflexivity|].
  apply (syncConnections_leaves_unreported env "u1" "u1" "gmail" w Hauth Hwf).
  right. intros account [<- | []]. discriminate.
Defined.

(** ** Polling when the remote has nothing good to say *)

Lemma getConnectionStatus_run (env : Env) (user toolkitName : string)
  (w : World) :
  ComposioService.isConfigured env = true ->
  ComposioService.getClerkUserId env = Some user ->
  let request := ListConnectedAccounts user (Some toolkitName) in
  let out := ComposioService.getConnectionStatus env toolkitName w in
  trace (snd out) = (trace w ++ [request])%list
  /\ clock (snd out) = clock w + latency env (trace w) request
  /\ fst out
     = match remote env (trace w) request with
       | Ok _ =>
           match observedAccount env user toolkitName w with
           | Some account => ComposioService.mapStatus (a_status account)
           | None => disconnected
           end
       | _ => error
       end.
Proof.
  intros Hconf Huser.
  unfold ComposioService.getConnectionStatus, observedAccount. run.
  rewrite Hconf, Huser. simpl.
  destruct (remote env (trace w) _) as [| |[]]; simpl;
    try (split; [reflexivity|]; split; reflexivity).
  destruct (List.find _ items); simpl;
    (split; [reflexivity|]; split; reflexivity).
Qed.

Lemma poll_not_connected_run (env : Env) (user toolkitName : string)
  (w : World) (row : ConnectionRecord) :
  Router.requireAuth env = Router.Return user ->
  connectionRecord user toolkitName w = Some row ->
  fst (ComposioService.getConnectionStatus env toolkitName w) <> connected ->
  let status := fst (ComposioService.getConnectionStatus env toolkitName w) in
  let out := Router.pollConnectionStatus env toolkitName w in
  fst out = Router.Return status
  /\ connectionRecord user toolkitName (snd out)
     = Some (mkConnection (c_id row) (c_clerkUserId row) (c_toolkitName row)
               (c_displayName row) status None (c_metadata row)
               (c_createdAt row) (Some (clock (snd out))))
  /\ enabledToolkits (snd out) = enabledToolkits w
  /\ service (snd out) = service w
  /\ trace (snd out)
     = trace (snd (ComposioService.getConnectionStatus env toolkitName w)).
Proof.
  intros Hauth Hrow Hne status out. subst status out.
  rewrite (pollConnectionStatus_run env user toolkitName w Hauth).
  destruct (getConnectionStatus_frame env toolkitName w) as (Hc & He & Hs).
  apply status_eqb_neq in Hne. rewrite Hne. simpl.
  split; [reflexivity|]. split; [|auto].
  unfold connectionRecord, Db.selectGet in *. simpl.
  rewrite find_updateWhere by reflexivity. rewrite Hc, Hrow. simpl.
  apply List.find_some in Hrow. destruct Hrow as [_ ->].
  unfold polledRow. now rewrite Hne.
Qed.

(** X10. When the status request of a poll fails (the fetch is rejected or
    the answer has an error status), [pollConnectionStatus] returns
    [error] and writes it over the pair's row whatever its status was,
    clearing [connectedAt] and keeping the metadata; the enabled rows and
    the caches are left alone, so a toolkit that was enabled stays
    enabled. *)
Theorem poll_remote_failure_marks_error (env : Env) (user toolkitName : string)
  (w : World) (row : ConnectionRecord) :
  Router.requireAuth env = Router.Return user ->
  ComposioService.isConfigured env = true ->
  connectionRecord user toolkitName w = Some row ->
  (forall body,
     remote env (trace w) (ListConnectedAccounts user (Some toolkitName))
     <> Ok body) ->
  let out := Router.pollConnectionStatus env toolkitName w in
  fst out = Router.Return error
  /\ (exists row',
        connectionRecord user toolkitName (snd out) = Some row'
        /\ c_status row' = error
        /\ c_connectedAt row' = None
        /\ c_metadata row' = c_metadata row)
  /\ enabledToolkits (snd out) = enabledToolkits w
  /\ service (snd out) = service w
  /\ trace (snd out)
     = (trace w ++ [ListConnectedAccounts user (Some toolkitName)])%list.
Proof.
  intros Hauth Hconf Hrow Hfail out.
  pose proof (proj1 (requireAuth_getClerkUserId env user) Hauth) as Huser.
  destruct (getConnectionStatus_run env user toolkitName w Hconf Huser)
    as (Htrace & _ & Hstatus).
  assert (Herror : fst (ComposioService.getConnectionStatus env toolkitName w)
                   = error).
  { rewrite Hstatus.
    destruct (remote env (trace w) _) as [| |body]; try reflexivity.
    exfalso. exact (Hfail body eq_refl). }
  destruct (poll_not_connected_run env user toolkitName w row Hauth Hrow)
    as (Hres & Hstored & Hen & Hsvc & Hsent).
  { rewrite Herror. discriminate. }
  fold out in Hres, Hstored, Hen, Hsvc, Hsent.
  rewrite Herror in Hres, Hstored.
  split; [exact Hres|]. split.
  - eexists. split; [exact Hstored|]. repeat split; reflexivity.
  - split; [exact Hen|]. split; [exact Hsvc|]. now rewrite Hsent.
Qed.

(** X11. When the status request succeeds but no account in the answer
    names the toolkit, [pollConnectionStatus] returns [disconnected] and
    writes it over the pair's row, clearing [connectedAt]; the enabled rows
    and the caches are left alone. *)
Theorem poll_without_account_marks_disconnected (env : Env)
  (user toolkitName : string) (w : World) (row : ConnectionRecord)
  (body : Body) :
  Router.requireAuth env = Router.Return user ->
  ComposioService.isConfigured env = true ->
  connectionRecord user toolkitName w = Some row ->
  remote env (trace w) (ListConnectedAccounts user (Some toolkitName))
  = Ok body ->
  observedAccount env user toolkitName w = None ->
  let out := Router.pollConnectionStatus env toolkitName w in
  fst out = Router.Return disconnected
  /\ (exists row',
        connectionRecord user toolkitName (snd out) = Some row'
        /\ c_status row' = disconnected
        /\ c_connectedAt row' = None
        /\ c_metadata row' = c_metadata row)
  /\ enabledToolkits (snd out) = enabledToolkits w
  /\ service (snd out) = service w.
Proof.
  intros Hauth Hconf Hrow Hok Hnone out.
  pose proof (proj1 (requireAuth_getClerkUserId env user) Hauth) as Huser.
  destruct (getConnectionStatus_run env user toolkitName w Hconf Huser)
    as (_ & _ & Hstatus).
  rewrite Hok, Hnone in Hstatus.
  destruct (poll_not_connected_run env user toolkitName w row Hauth Hrow)
    as (Hres & Hstored & Hen & Hsvc & _).
  { rewrite Hstatus. discriminate. }
  fold out in Hres, Hstored, Hen, Hsvc.
  rewrite Hstatus in Hres, Hstored.
  split; [exact Hres|]. split.
  - eexists. split; [exact Hstored|]. repeat split; reflexivity.
  - split; [exact Hen | exact Hsvc].
Qed.

Lemma poll_remote_failure_marks_error_witness :
  let out :=
    Router.pollConnectionStatus Cases.envDown "gmail" Cases.twoToolkits in
  Router.requireAuth Cases.envDown = Router.Return "u1"
  /\ currentStatus "u1" "gmail" Cases.twoToolkits = connected
  /\ fst out = Router.Return error
  /\ currentStatus "u1" "gmail" (snd out) = error
  /\ isEnabled "u1" "gmail" (snd out) = true.
Proof.
  intros out.
  assert (Hauth : Router.requireAuth Cases.envDown = Router.Return "u1")
    by reflexivity.
  destruct (poll_remote_failure_marks_error Cases.envDown "u1" "gmail"
              Cases.twoToolkits
              (mkConnection 1 "u1" "gmail" "Gmail" connected (Some 950) None
                 None None) Hauth eq_refl eq_refl)
    as (Hres & (row' & Hrow & Hst & _) & Hen & _).
  { intros body. discriminate. }
  split; [exact Hauth|]. split; [reflexivity|]. split; [exact Hres|].
  split.
  - unfold currentStatus. fold out in Hrow. rewrite Hrow. exact Hst.
  - unfold isEnabled, enabledRecord. fold out in Hen. rewrite Hen. reflexivity.
Defined.

Lemma poll_without_account_marks_disconnected_witness :
  let env := Scenario.envWith Scenario.u1 "ACTIVE" in
  let out := Router.pollConnectionStatus env "gmail" Cases.twoToolkits in
  Router.requireAuth env = Router.Return "u1"
  /\ observedAccount env "u1" "gmail" Cases.twoToolkits = None
  /\ fst out = Router.Return disconnected
  /\ currentStatus "u1" "gmail" (snd out) = disconnected
  /\ isEnabled "u1" "gmail" (snd out) = true.
Proof.
  intros env out.
  assert (Hauth : Router.requireAuth env = Router.Return "u1") by reflexivity.
  destruct (poll_without_account_marks_disconnected env "u1" "gmail"
              Cases.twoToolkits
              (mkConnection 1 "u1" "gmail" "Gmail" connected (Some 950) None
                 None None)
              (AccountsBody [Scenario.account "ACTIVE"])
              Hauth eq_refl eq_refl eq_refl eq_refl)
    as (Hres & (row' & Hrow & Hst & _) & Hen & _).
  split; [exact Hauth|]. split; [reflexivity|]. split; [exact Hres|].
  split.
  - unfold currentStatus. fold out in Hrow. rewrite Hrow. exact Hst.
  - unfold isEnabled, enabledRecord. fold out in Hen. rewrite Hen. reflexivity.
Defined.

(** ** The remote delete of disconnect *)






(** ** Starting an authorization *)

Lemma getAuthConfigId_opened (env : Env) (toolkitSlug : string) (w : World) :
  opened (snd (ComposioService.getAuthConfigId env toolkitSlug w)) = opened w.
Proof.
  unfold ComposioService.getAuthConfigId. run.
  repeat (branch; simpl); reflexivity.
Qed.

Lemma authorizeToolkit_opens_browser_aux (env : Env) (toolkitName : string)
  (w : World) :
  let out := ComposioService.authorizeToolkit env toolkitName w in
  match fst out with
  | None => opened (snd out) = opened w
  | Some link =>
      opened (snd out) = (opened w ++ browserTargets link)%list
      /\ exists config user,
           fst (ComposioService.getAuthConfigId env toolkitName w) = Some config
           /\ ComposioService.getClerkUserId env = Some user
           /\ trace (snd out)
              = (trace (snd (ComposioService.getAuthConfigId env toolkitName w))
                 ++ [CreateLink config user
                       (ComposioService.COMPOSIO_PROTOCOL env
                        ++ "://composio-callback")])%list
  end.
Proof.
  unfold ComposioService.authorizeToolkit, browserTargets. unfold bind, ret.
  destruct (negb (ComposioService.isConfigured env)); [reflexivity|].
  destruct (ComposioService.getClerkUserId env) as [user|]; [|reflexivity].
  pose proof (getAuthConfigId_opened env toolkitName w) as Hopened.
  destruct (ComposioService.getAuthConfigId env toolkitName w)
    as [[config|] w1]; simpl in *; [|exact Hopened].
  destruct (negb (config =? EmptyString)); simpl; [|exact Hopened].
  destruct (remote env (trace w1) _) as [| |data]; simpl;
    try exact Hopened.
  set (link := match data with
               | LinkBody _ _ _ _ _ _ => _
               | _ => _
               end).
  destruct (ComposioService.redirectUrl link) as [target|] eqn:Htarget.
  - destruct (Js.truthy (Some target)) eqn:Htruthy.
    + unfold openExternal.
      destruct (shellOpens env target); cbn [fst snd opened trace];
        [|exact Hopened].
      simpl in Htruthy. rewrite Htarget, Htruthy, Hopened.
      split; [reflexivity|].
      exists config, user. repeat split; reflexivity.
    + cbn [fst snd opened trace]. simpl in Htruthy.
      rewrite Htarget, Htruthy. rewrite List.app_nil_r. split; [exact Hopened|].
      exists config, user. repeat split; reflexivity.
  - cbn [fst snd opened trace]. rewrite Htarget, List.app_nil_r.
    split; [exact Hopened|].
    exists config, user. repeat split; reflexivity.
Qed.

(** X14. [authorizeToolkit] opens the browser only for a link it returns:
    when it returns null nothing was opened, and when it returns a link
    the browser was opened once, on the link's redirect URL, unless that
    URL is missing or empty. A returned link comes from one link request,
    sent last, for the auth config the resolver found, the signed-in user
    and the callback URL of the application's protocol. *)
Theorem authorizeToolkit_opens_returned_link (env : Env) (toolkitName : string)
  (w : World) :
  let out := ComposioService.authorizeToolkit env toolkitName w in
  match fst out with
  | None => opened (snd out) = opened w
  | Some link =>
      opened (snd out) = (opened w ++ browserTargets link)%list
      /\ exists config user,
           fst (ComposioService.getAuthConfigId env toolkitName w) = Some config
           /\ ComposioService.getClerkUserId env = Some user
           /\ trace (snd out)
              = (trace (snd (ComposioService.getAuthConfigId env toolkitName w))
                 ++ [CreateLink config user
                       (ComposioService.COMPOSIO_PROTOCOL env
                        ++ "://composio-callback")])%list
  end.
Proof. exact (authorizeToolkit_opens_browser_aux env toolkitName w). Qed.

Lemma getAuthConfigId_same_trace (env : Env) (toolkitSlug : string)
  (w1 w2 : World) :
  trace w1 = trace w2 ->
  fst (ComposioService.getAuthConfigId env toolkitSlug w1)
  = fst (ComposioService.getAuthConfigId env toolkitSlug w2)
  /\ trace (snd (ComposioService.getAuthConfigId env toolkitSlug w1))
     = trace (snd (ComposioService.getAuthConfigId env toolkitSlug w2)).
Proof.
  intros Htrace. unfold ComposioService.getAuthConfigId. run.
  rewrite Htrace.
  repeat (branch; simpl); auto.
Qed.

Lemma authorizeToolkit_trace (env : Env) (toolkitName : string) (w1 w2 : World) :
  trace w1 = trace w2 ->
  opened w1 = opened w2 ->
  fst (ComposioService.authorizeToolkit env toolkitName w1)
  = fst (ComposioService.authorizeToolkit env toolkitName w2)
  /\ opened (snd (ComposioService.authorizeToolkit env toolkitName w1))
     = opened (snd (ComposioService.authorizeToolkit env toolkitName w2)).
Proof.
  intros Htrace Hopened.
  unfold ComposioService.authorizeToolkit.
  destruct (negb (ComposioService.isConfigured env));
    [split; [reflexivity | exact Hopened]|].
  destruct (ComposioService.getClerkUserId env) as [user|];
    [|split; [reflexivity | exact Hopened]].
  unfold bind.
  destruct (getAuthConfigId_same_trace env toolkitName w1 w2 Htrace)
    as [Hcfg Hsent].
  pose proof (getAuthConfigId_opened env toolkitName w1) as Ho1.
  pose proof (getAuthConfigId_opened env toolkitName w2) as Ho2.
  destruct (ComposioService.getAuthConfigId env toolkitName w1) as [c1 v1].
  destruct (ComposioService.getAuthConfigId env toolkitName w2) as [c2 v2].
  simpl in Hcfg, Hsent, Ho1, Ho2. subst c2.
  assert (Hov : opened v1 = opened v2) by congruence.
  destruct c1 as [config|]; [|split; [reflexivity | exact Hov]].
  destruct (Js.truthy (Some config)); [|split; [reflexivity | exact Hov]].
  unfold fetch, openExternal, ret. rewrite Hsent.
  destruct (remote env (trace v2) _) as [| |data];
    try (split; [reflexivity | exact Hov]).
  repeat (branch; simpl); split; solve [reflexivity | exact Hov | congruence].
Qed.

Lemma connect_success_run (env : Env)
  (user toolkitName displayName : string) (w : World)
  (link : ComposioService.LinkResult) :
  Router.requireAuth env = Router.Return user ->
  fst (ComposioService.authorizeToolkit env toolkitName w) = Some link ->
  exists w' row',
    Router.connect env toolkitName displayName w
    = (Router.Return
         (Router.mkConnectResult (ComposioService.connectionId link)
            (ComposioService.redirectUrl link) pending), w')
    /\ connectionRecord user toolkitName w' = Some row'
    /\ c_status row' = pending
    /\ match connectionRecord user toolkitName w with
       | Some row =>
           c_displayName row' = c_displayName row
           /\ c_metadata row' = c_metadata row
           /\ c_connectedAt row' = c_connectedAt row
       | None =>
           c_displayName row' = displayName
           /\ c_metadata row' = None
           /\ c_connectedAt row' = None
       end
    /\ enabledToolkits w' = enabledToolkits w
    /\ service w' = service w
    /\ opened w' = (opened w ++ browserTargets link)%list.
Proof.
  intros Hauth Hlink.
  pose proof (authorizeToolkit_opens_browser_aux env toolkitName w) as Hopen.
  cbv zeta in Hopen. rewrite Hlink in Hopen. destruct Hopen as [Hopen _].
  unfold Router.connect. rewrite Hauth.
  unfold bind at 1. unfold gets at 1.
  assert (Hrest : forall w1,
            trace w1 = trace w -> opened w1 = opened w ->
            enabledToolkits w1 = enabledToolkits w ->
            service w1 = service w ->
            exists w',
              (result <- ComposioService.authorizeToolkit env toolkitName ;;
               match result with
               | None =>
                   t <- now ;;
                   modify (set_connections
                             (Db.updateWhere
                                (Db.connectionOf user toolkitName)
                                (fun r =>
                                   mkConnection (c_id r) (c_clerkUserId r)
                                     (c_toolkitName r) (c_displayName r)
                                     error (c_connectedAt r)
                                     (c_metadata r) (c_createdAt r)
                                     (Some t)))) ;;;
                   ret (Router.Throw (Router.connectFailure displayName))
               | Some link =>
                   ret (Router.Return
                          (Router.mkConnectResult
                             (ComposioService.connectionId link)
                             (ComposioService.redirectUrl link) pending))
               end) w1
              = (Router.Return
                   (Router.mkConnectResult (ComposioService.connectionId link)
                      (ComposioService.redirectUrl link) pending), w')
              /\ connections w' = connections w1
              /\ enabledToolkits w' = enabledToolkits w
              /\ service w' = service w
              /\ opened w' = (opened w ++ browserTargets link)%list).
  { intros w1 Htrace Hopened Hen Hsvc. unfold bind at 1.
    destruct (authorizeToolkit_trace env toolkitName w1 w Htrace Hopened)
      as [Hsame Hsameopen].
    destruct (authorizeToolkit_frame env toolkitName w1) as (Hc & He & _ & Hs).
    destruct (ComposioService.authorizeToolkit env toolkitName w1)
      as [result w2].
    simpl in Hsame, Hsameopen, Hc, He, Hs. rewrite Hlink in Hsame.
    subst result. exists w2. unfold ret.
    split; [reflexivity|]. split; [exact Hc|].
    split; [congruence|]. split; congruence. }
  unfold connectionRecord at 2.
  destruct (Db.selectGet _ (connections w)) as [row|] eqn:Hsel.
  - unfold bind at 1. unfold bind at 1. unfold now at 1, gets at 1.
    unfold modify at 1.
    set (w1 := set_connections _ w).
    destruct (Hrest w1 eq_refl eq_refl eq_refl eq_refl)
      as (w' & Hrun & Hc & He & Hs & Ho).
    exists w'. eexists. split; [exact Hrun|].
    split; [|split; [|split; [|auto]]].
    + unfold connectionRecord, Db.selectGet. rewrite Hc. unfold w1. simpl.
      rewrite find_updateWhere by reflexivity.
      unfold Db.selectGet in Hsel. rewrite Hsel. simpl.
      rewrite Nat.eqb_refl. reflexivity.
    + reflexivity.
    + repeat split; reflexivity.
  - unfold bind at 1. unfold Db.insertConnection at 1.
    set (w1 := bump_nextId _).
    destruct (Hrest w1 eq_refl eq_refl eq_refl eq_refl)
      as (w' & Hrun & Hc & He & Hs & Ho).
    exists w'. eexists. split; [exact Hrun|].
    split; [|split; [|split; [|auto]]].
    + unfold connectionRecord, Db.selectGet. rewrite Hc. unfold w1. simpl.
      unfold Db.selectGet in Hsel. rewrite (find_app_none _ _ _ Hsel).
      rewrite connectionOf_refl by reflexivity. reflexivity.
    + reflexivity.
    + repeat split; reflexivity.
Qed.

(** X15. When the authorization can be started, [connect] returns the
    connection id and the redirect URL of the link with status [pending],
    and leaves the pair with a row in status [pending]: a row that existed
    keeps its display name, metadata and [connectedAt]; a new row carries
    the display name given and neither metadata nor [connectedAt]. The
    enabled table and the caches are not touched, and the browser was
    opened on the link's redirect URL. *)
Theorem connect_returns_pending_link (env : Env)
  (user toolkitName displayName : string) (w : World)
  (link : ComposioService.LinkResult) :
  Router.requireAuth env = Router.Return user ->
  fst (ComposioService.authorizeToolkit env toolkitName w) = Some link ->
  let out := Router.connect env toolkitName displayName w in
  fst out
  = Router.Return
      (Router.mkConnectResult (ComposioService.connectionId link)
         (ComposioService.redirectUrl link) pending)
  /\ (exists row',
        connectionRecord user toolkitName (snd out) = Some row'
        /\ c_status row' = pending
        /\ match connectionRecord user toolkitName w with
           | Some row =>
               c_displayName row' = c_displayName row
               /\ c_metadata row' = c_metadata row
               /\ c_connectedAt row' = c_connectedAt row
           | None =>
               c_displayName row' = displayName
               /\ c_metadata row' = None
               /\ c_connectedAt row' = None
           end)
  /\ enabledToolkits (snd out) = enabledToolkits w
  /\ service (snd out) = service w
  /\ opened (snd out) = (opened w ++ browserTargets link)%list.
Proof.
  intros Hauth Hlink out. subst out.
  destruct (connect_success_run env user toolkitName displayName w link
              Hauth Hlink)
    as (w' & row' & Hrun & Hrow & Hst & Hkept & He & Hs & Ho).
  rewrite Hrun. simpl fst. simpl snd.
  split; [reflexivity|]. split; [|auto].
  exists row'. auto.
Qed.

Lemma connect_returns_pending_link_witness :
  let out := Router.connect Cases.envLinking "github" "GitHub" Cases.twoToolkits in
  let link :=
    ComposioService.mkLinkResult (Some "https://auth.example/start")
      (Some "ca_7") in
  Router.requireAuth Cases.envLinking = Router.Return "u1"
  /\ fst (ComposioService.authorizeToolkit Cases.envLinking "github"
            Cases.twoToolkits) = Some link
  /\ fst out
     = Router.Return
         (Router.mkConnectResult (Some "ca_7")
            (Some "https://auth.example/start") pending)
  /\ currentStatus "u1" "github" (snd out) = pending
  /\ trace (snd out)
     = [ListAuthConfigs "github";
        CreateLink "ac_managed" "u1" "anchor-dev://composio-callback"]
  /\ opened (snd out) = ["https://auth.example/start"].
Proof.
  intros out link.
  assert (Hauth : Router.requireAuth Cases.envLinking = Router.Return "u1")
    by reflexivity.
  assert (Hlink : fst (ComposioService.authorizeToolkit Cases.envLinking
                         "github" Cases.twoToolkits) = Some link)
    by reflexivity.
  destruct (connect_returns_pending_link Cases.envLinking "u1" "github"
              "GitHub" Cases.twoToolkits link Hauth Hlink)
    as (Hres & (row' & Hrow & Hst & _) & _ & _ & Hopened).
  split; [exact Hauth|]. split; [exact Hlink|]. split; [exact Hres|].
  split; [|split; [reflexivity | exact Hopened]].
  unfold currentStatus. fold out in Hrow. rewrite Hrow. exact Hst.
Defined.

(** ** Resolving the auth config *)

(** X16. When the list of auth configs for the toolkit comes back with at
    least one config, [getAuthConfigId] sends nothing else (it creates no
    config) and picks an id by priority: the first config flagged as
    managed, if its id is usable, whether or not it is disabled; otherwise
    the first config that is active or not disabled, if its id is usable;
    otherwise the first config of the list. It never returns an empty
    id. *)
Theorem getAuthConfigId_picks_by_priority (env : Env) (toolkitSlug : string)
  (w : World) (body : Body) (first : AuthConfigJson)
  (rest : list AuthConfigJson) :
  remote env (trace w) (ListAuthConfigs toolkitSlug) = Ok body ->
  listedAuthConfigs body = first :: rest ->
  let configs := first :: rest in
  let out := ComposioService.getAuthConfigId env toolkitSlug w in
  trace (snd out) = (trace w ++ [ListAuthConfigs toolkitSlug])%list
  /\ (forall c,
        List.find ac_is_composio_managed configs = Some c ->
        Js.truthy (ac_id c) = true ->
        fst out = ac_id c)
  /\ (forall c,
        (forall m,
           List.find ac_is_composio_managed configs = Some m ->
           Js.truthy (ac_id m) = false) ->
        List.find authConfigEnabled configs = Some c ->
        Js.truthy (ac_id c) = true ->
        fst out = ac_id c)
  /\ ((forall m,
         List.find ac_is_composio_managed configs = Some m ->
         Js.truthy (ac_id m) = false) ->
      (forall c,
         List.find authConfigEnabled configs = Some c ->
         Js.truthy (ac_id c) = false) ->
      fst out = if Js.truthy (ac_id first) then ac_id first else None)
  /\ fst out <> Some EmptyString.
Proof.
  intros Hlist Hitems configs out. subst configs out.
  unfold ComposioService.getAuthConfigId.
  unfold bind, ret, fetch. cbn -[List.find]. rewrite Hlist.
  unfold listedAuthConfigs in Hitems.
  destruct body; try discriminate Hitems. subst items. cbn -[List.find].
  change (fun c : AuthConfigJson =>
            (Js.strict_eq (ac_status c) "ACTIVE" || negb (ac_is_disabled c))%bool)
    with authConfigEnabled.
  set (managed := List.find ac_is_composio_managed (first :: rest)).
  set (enabled := List.find authConfigEnabled (first :: rest)).
  split; [reflexivity|].
  unfold Js.or_else.
  split; [|split; [|split]].
  - intros c Hm Hid. rewrite Hm. cbn -[List.find].
    repeat (rewrite Hid; simpl). reflexivity.
  - intros c Hnom He Hid.
    assert (Hm : Js.truthy match managed with
                           | Some c0 => ac_id c0
                           | None => None
                           end = false).
    { subst managed.
      destruct (List.find ac_is_composio_managed (first :: rest)) as [m|]
        eqn:Hfound; [now apply Hnom | reflexivity]. }
    rewrite Hm, He. cbn -[List.find]. repeat (rewrite Hid; simpl). reflexivity.
  - intros Hnom Hnoe.
    assert (Hm : Js.truthy match managed with
                           | Some c0 => ac_id c0
                           | None => None
                           end = false).
    { subst managed.
      destruct (List.find ac_is_composio_managed (first :: rest)) as [m|]
        eqn:Hfound; [now apply Hnom | reflexivity]. }
    assert (He : Js.truthy match enabled with
                           | Some c0 => ac_id c0
                           | None => None
                           end = false).
    { subst enabled.
      destruct (List.find authConfigEnabled (first :: rest)) as [c|]
        eqn:Hfound; [now apply Hnoe | reflexivity]. }
    rewrite Hm, He. cbn -[List.find].
    destruct (Js.truthy (ac_id first)) eqn:Hf; simpl;
      repeat (rewrite Hf; simpl); reflexivity.
  - repeat (branch; simpl); try discriminate;
      intros Heq;
      match goal with
      | H : Js.truthy ?x = true |- _ =>
        lazymatch type of Heq with x = _ => rewrite Heq in H; discriminate H end
      end.
Qed.

Lemma getAuthConfigId_picks_by_priority_witness :
  let managed := mkAuthConfigJson (Some "ac_managed") true None true in
  let other := mkAuthConfigJson (Some "ac_other") false (Some "ACTIVE") false in
  remote Cases.envLinking (trace Cases.twoToolkits) (ListAuthConfigs "github")
  = Ok (AuthConfigsBody [other; managed])
  /\ List.find authConfigEnabled [other; managed] = Some other
  /\ fst (ComposioService.getAuthConfigId Cases.envLinking "github"
            Cases.twoToolkits)
     = Some "ac_managed".
Proof.
  intros managed other.
  split; [reflexivity|]. split; [reflexivity|].
  destruct (getAuthConfigId_picks_by_priority Cases.envLinking "github"
              Cases.twoToolkits (AuthConfigsBody [other; managed]) other
              [managed] eq_refl eq_refl)
    as (_ & Hmanaged & _).
  apply (Hmanaged managed); reflexivity.
Defined.

(** X17. [getAuthConfigId] creates an auth config exactly when the list
    request succeeds without any item: it then sends the list request and
    the create request and returns the id of the create answer (none when
    the create fails or carries no usable id). In every other case the
    list request is the only one it sends, and when the list request does
    not succeed the result is none. *)
Theorem getAuthConfigId_creates_only_when_none_listed (env : Env)
  (toolkitSlug : string) (w : World) :
  let listAnswer := remote env (trace w) (ListAuthConfigs toolkitSlug) in
  let createAnswer :=
    remote env (trace w ++ [ListAuthConfigs toolkitSlug])%list
           (CreateAuthConfig toolkitSlug) in
  let out := ComposioService.getAuthConfigId env toolkitSlug w in
  (noAuthConfigListed listAnswer = true ->
     trace (snd out)
     = (trace w ++ [ListAuthConfigs toolkitSlug;
                    CreateAuthConfig toolkitSlug])%list
     /\ fst out = createdAuthConfigId createAnswer)
  /\ (noAuthConfigListed listAnswer = false ->
        trace (snd out) = (trace w ++ [ListAuthConfigs toolkitSlug])%list)
  /\ ((forall body, listAnswer <> Ok body) -> fst out = None).
Proof.
  intros listAnswer createAnswer out. subst out createAnswer.
  unfold ComposioService.getAuthConfigId, createdAuthConfigId.
  unfold bind, ret, fetch. cbn -[List.find].
  fold listAnswer.
  destruct listAnswer as [| |body] eqn:Hlist; cbn -[List.find];
    [repeat split; try discriminate; reflexivity ..|].
  assert (Hok : (forall body0 : Body, Ok body <> Ok body0) -> False)
    by (intros Hno; eapply Hno; reflexivity).
  destruct body; cbn -[List.find];
    try match goal with
        | |- context [match ?l with [] => _ | _ :: _ => _ end] => destruct l
        end; cbn -[List.find];
    (split;
     [first
        [discriminate
        |intros _;
         destruct (remote env (trace w ++ [ListAuthConfigs toolkitSlug])%list
                     (CreateAuthConfig toolkitSlug)) as [| |created];
         cbn; try (rewrite <- app_assoc; split; reflexivity);
         destruct created; cbn;
         try (rewrite <- app_assoc; split; reflexivity);
         match goal with
         | |- context [Js.truthy ?x] => destruct (Js.truthy x)
         end; cbn;
         rewrite <- app_assoc; split; reflexivity]
     |split;
      [first [discriminate | intros _; reflexivity]
      |intros Hno; exfalso; auto]]).
Qed.

(** ** Without an API key *)

(** X18. Without an API key nothing leaves the program: whatever procedure
    is called, and whoever is logged in, no request is sent, no browser
    window is opened and no time is spent waiting; [getMcpConfig] answers
    null and [syncConnections] changes nothing at all. *)
Theorem no_api_key_no_request (env : Env) (op : Operation) (w : World) :
  ComposioService.isConfigured env = false ->
  let w' := perform (env, op) w in
  trace w' = trace w
  /\ opened w' = opened w
  /\ clock w' = clock w
  /\ Router.getMcpConfig env w = (None, w)
  /\ snd (Router.syncConnections env w) = w.
Proof.
  intros Hkey w'. subst w'.
  assert (Hsync : snd (Router.syncConnections env w) = w).
  { unfold Router.syncConnections, ComposioService.getConnectedAccounts.
    rewrite Hkey. destruct (Router.requireAuth env); reflexivity. }
  assert (Hcfg : Router.getMcpConfig env w = (None, w)).
  { unfold Router.getMcpConfig. rewrite Hkey. reflexivity. }
  destruct op as [toolkitName displayName|toolkitName|toolkitName enabled
                 |toolkitName|]; unfold perform.
  - unfold Router.connect, ComposioService.authorizeToolkit.
    rewrite Hkey. run. repeat (branch; simpl); auto.
  - unfold Router.disconnect, ComposioService.disconnectToolkit.
    rewrite Hkey. run. repeat (branch; simpl); auto.
  - unfold Router.toggleToolkit, Router.upsertEnabled,
      ComposioService.invalidateSession.
    run. repeat (branch; simpl); auto.
  - unfold Router.pollConnectionStatus, ComposioService.getConnectionStatus,
      Router.upsertEnabled, ComposioService.invalidateSession.
    rewrite Hkey. run. repeat (branch; simpl); auto.
  - rewrite Hsync. auto.
Qed.

Lemma no_api_key_no_request_witness :
  let w' := perform (Cases.envNoKey, PollConnectionStatus "github")
                    Scenario.connectedWorld in
  ComposioService.isConfigured Cases.envNoKey = false
  /\ trace w' = []
  /\ opened w' = []
  /\ currentStatus "u1" "github" w' = disconnected.
Proof.
  intros w'.
  destruct (no_api_key_no_request Cases.envNoKey
              (PollConnectionStatus "github") Scenario.connectedWorld
              eq_refl)
    as (Htrace & Hopened & _).
  split; [reflexivity|]. split; [exact Htrace|].
  split; [exact Hopened | reflexivity].
Defined.

(** ** The access URL across sessions *)

(** X19. The cached access URL is not tied to a session: while a URL is
    cached for the user and has not expired when the session has been
    resolved, [getMcpConfig] answers with that URL and the API key for
    any non-empty list of toolkits whose session can be resolved, also
    one that differs from the list the URL was minted for, and sends
    nothing beyond what resolving the session sent. *)
Theorem cached_url_served_for_any_toolkits (env : Env) (userId : string)
  (toolkits : list string) (w w1 : World) (srv : McpServer)
  (cachedUrl : string) :
  ComposioService.isConfigured env = true ->
  ComposioService.getClerkUserId env = Some userId ->
  toolkits <> [] ->
  ComposioService.getOrCreateMcpServer env toolkits w = (Some srv, w1) ->
  cachedMcpUrl (service w) = Some cachedUrl ->
  Js.truthy (Some cachedUrl) = true ->
  cachedUserId (service w) = Some userId ->
  clock w1 < mcpUrlExpiry (service w) ->
  ComposioService.getMcpConfig env (Some toolkits) w
  = (Some (ComposioService.mkMcpConfig cachedUrl (apiKey env)), w1).
Proof.
  intros Hkey Huser Hsome Hsession Hurl Htruthy Hcached Hfresh.
  pose proof (getOrCreateMcpServer_frame env toolkits w) as Hframe.
  cbv zeta in Hframe. rewrite Hsession in Hframe. simpl snd in Hframe.
  destruct Hframe as (Hurl1 & Huser1 & Hexp1 & _).
  unfold ComposioService.getMcpConfig. rewrite Hkey, Huser.
  destruct toolkits as [|t ts]; [contradiction|].
  cbv beta iota zeta delta [negb length Nat.eqb bind].
  rewrite Hsession.
  rewrite (generateMcpUrl_hit env (ms_id srv) userId w1);
    [|rewrite Hurl1, Hurl; exact Htruthy
     |rewrite Huser1; exact Hcached
     |rewrite Hexp1; exact Hfresh].
  rewrite Hurl1, Hurl, Htruthy. reflexivity.
Qed.

Lemma cached_url_served_for_any_toolkits_witness :
  let env := Scenario.envWith Scenario.u1 "ACTIVE" in
  let w := Cases.afterGmailConfig in
  let cachedUrl := "https://mcp.example/srv_1?user_id=u1" in
  cachedToolkits (service w) = ["gmail"]
  /\ cachedMcpUrl (service w) = Some cachedUrl
  /\ fst (ComposioService.getMcpConfig env (Some ["github"; "gmail"]) w)
     = Some (ComposioService.mkMcpConfig cachedUrl "key")
  /\ List.filter
       (fun req => match req with GenerateMcpUrl _ _ => true | _ => false end)
       (trace (snd (ComposioService.getMcpConfig env
                      (Some ["github"; "gmail"]) w)))
     = [GenerateMcpUrl (Some "srv_1") "u1"].
Proof.
  intros env w cachedUrl.
  split; [reflexivity|]. split; [reflexivity|].
  rewrite (cached_url_served_for_any_toolkits env "u1" ["github"; "gmail"] w
             (snd (ComposioService.getOrCreateMcpServer env
                     ["github"; "gmail"] w))
             (mkMcpServer (Some "srv_1") (Some "anchor-1600")
                          ["github"; "gmail"])
             cachedUrl);
    try reflexivity; try discriminate.
  split; reflexivity.
Defined.

(** ** The list queries and the lookups by pair *)

Lemma find_of_unique {A B} (g : A -> B) (p : A -> bool) (l : list A) (r : A) :
  NoDup (List.map g l) -> List.In r l -> p r = true ->
  (forall x, List.In x l -> p x = true -> g x = g r) ->
  List.find p l = Some r.
Proof.
  induction l as [|x l IH]; simpl; [contradiction|].
  intros Hnodup Hin Hp Hkey.
  inversion Hnodup as [|? ? Hnotin Hrest]; subst.
  destruct Hin as [-> | Hin]; [now rewrite Hp|].
  destruct (p x) eqn:Hpx.
  - exfalso. apply Hnotin. rewrite (Hkey x (or_introl eq_refl) Hpx).
    now apply List.in_map.
  - apply IH; auto.
Qed.

Lemma enabledRecord_of_row (user toolkit : string) (w : World)
  (r : EnabledToolkitRecord) :
  NoDup (List.map enabledKey (enabledToolkits w)) ->
  List.In r (enabledToolkits w) ->
  e_clerkUserId r = user -> e_toolkitName r = toolkit ->
  enabledRecord user toolkit w = Some r.
Proof.
  intros Hnodup Hin Hu Ht. unfold enabledRecord, Db.selectGet.
  apply find_of_unique with (g := enabledKey); auto.
  - unfold Db.enabledOf. now rewrite Hu, Ht, !String.eqb_refl.
  - intros x _ Hx. apply enabledOf_iff in Hx. rewrite Hx.
    unfold enabledKey. now rewrite Hu, Ht.
Qed.

Lemma connectionRecord_of_row (user toolkit : string) (w : World)
  (r : ConnectionRecord) :
  NoDup (List.map connectionKey (connections w)) ->
  List.In r (connections w) ->
  c_clerkUserId r = user -> c_toolkitName r = toolkit ->
  connectionRecord user toolkit w = Some r.
Proof.
  intros Hnodup Hin Hu Ht. unfold connectionRecord, Db.selectGet.
  apply find_of_unique with (g := connectionKey); auto.
  - now apply connectionOf_refl.
  - intros x _ Hx. apply connectionOf_iff in Hx. rewrite Hx.
    unfold connectionKey. now rewrite Hu, Ht.
Qed.

Lemma enabledNames_In (user toolkit : string) (w : World) :
  NoDup (List.map enabledKey (enabledToolkits w)) ->
  List.In toolkit (enabledNames user w) <-> isEnabled user toolkit w = true.
Proof.
  intros Hnodup. unfold enabledNames, isEnabled. split.
  - intros Hin. apply List.in_map_iff in Hin.
    destruct Hin as (r & Hname & Hin). apply List.filter_In in Hin.
    destruct Hin as [Hin Hq]. apply Bool.andb_true_iff in Hq.
    destruct Hq as [Hu Hon]. apply String.eqb_eq in Hu.
    apply Bool.eqb_prop in Hon.
    now rewrite (enabledRecord_of_row user toolkit w r Hnodup Hin Hu Hname).
  - unfold enabledRecord, Db.selectGet.
    destruct (List.find _ (enabledToolkits w)) as [r|] eqn:Hfind;
      [|discriminate].
    intros Hon. apply List.find_some in Hfind. destruct Hfind as [Hin Hp].
    apply enabledOf_true in Hp. destruct Hp as [Hu Ht].
    apply List.in_map_iff. exists r. split; [exact Ht|].
    apply List.filter_In. split; [exact Hin|].
    rewrite Hu, Hon, String.eqb_refl. reflexivity.
Qed.

Lemma enabledNames_NoDup (user : string) (w : World) :
  NoDup (List.map enabledKey (enabledToolkits w)) ->
  NoDup (enabledNames user w).
Proof.
  unfold enabledNames. induction (enabledToolkits w) as [|x rows IH]; simpl;
    intros Hnodup; [constructor|].
  inversion Hnodup as [|? ? Hnotin Hrest]; subst.
  destruct ((e_clerkUserId x =? user) && Bool.eqb (e_enabled x) true)%bool
    eqn:Hq; [|now apply IH].
  simpl. constructor; [|now apply IH].
  intros Hin. apply Hnotin. apply List.in_map_iff in Hin.
  destruct Hin as (r & Hname & Hin). apply List.filter_In in Hin.
  destruct Hin as [Hin Hr]. apply Bool.andb_true_iff in Hq, Hr.
  destruct Hq as [Hxu _], Hr as [Hru _].
  apply String.eqb_eq in Hxu, Hru.
  apply List.in_map_iff. exists r. split; [|exact Hin].
  unfold enabledKey. congruence.
Qed.

(** X20. With the unique index on (user, toolkit) in force, the list
    queries agree with the lookups by pair: the names [getMcpConfig] hands
    to the service are, without repetition, the toolkits whose enabled
    flag is on; [getEnabledToolkits] returns a row for exactly these
    toolkits; and [getConnectedToolkits] returns a row for exactly the
    toolkits whose status is connected. *)
Theorem list_queries_agree_with_lookups (env : Env) (user : string)
  (w : World) :
  uniqueKeys w ->
  Router.requireAuth env = Router.Return user ->
  NoDup (enabledNames user w)
  /\ (forall toolkit,
        List.In toolkit (enabledNames user w)
        <-> isEnabled user toolkit w = true)
  /\ (exists rows,
        Queries.getEnabledToolkits env w = (Router.Return rows, w)
        /\ forall toolkit,
             (exists r, List.In r rows /\ e_toolkitName r = toolkit)
             <-> isEnabled user toolkit w = true)
  /\ (exists rows,
        Queries.getConnectedToolkits env w = (Router.Return rows, w)
        /\ forall toolkit,
             (exists r, List.In r rows /\ c_toolkitName r = toolkit)
             <-> currentStatus user toolkit w = connected).
Proof.
  intros [Hck Hek] Hauth.
  split; [now apply enabledNames_NoDup|].
  split; [intros toolkit; now apply enabledNames_In|].
  split.
  - unfold Queries.getEnabledToolkits. rewrite Hauth.
    eexists. split; [reflexivity|]. intros toolkit.
    rewrite <- (enabledNames_In user toolkit w Hek).
    unfold enabledNames. rewrite List.in_map_iff.
    split; intros (r & H1 & H2); exists r; auto.
  - unfold Queries.getConnectedToolkits. rewrite Hauth.
    eexists. split; [reflexivity|]. intros toolkit.
    unfold currentStatus. split.
    + intros (r & Hin & Hname). apply List.filter_In in Hin.
      destruct Hin as [Hin Hq]. apply Bool.andb_true_iff in Hq.
      destruct Hq as [Hu Hst]. apply String.eqb_eq in Hu.
      apply status_eqb_eq in Hst.
      now rewrite (connectionRecord_of_row user toolkit w r Hck Hin Hu Hname).
    + unfold connectionRecord, Db.selectGet.
      destruct (List.find _ (connections w)) as [r|] eqn:Hfind;
        [|discriminate].
      intros Hst. apply List.find_some in Hfind. destruct Hfind as [Hin Hp].
      apply connectionOf_true in Hp. destruct Hp as [Hu Ht].
      exists r. split; [|exact Ht].
      apply List.filter_In. split; [exact Hin|].
      rewrite Hu, Hst, String.eqb_refl. reflexivity.
Qed.

Lemma list_queries_agree_with_lookups_witness :
  let env := Scenario.envWith Scenario.u1 "ACTIVE" in
  uniqueKeys Cases.twoToolkits
  /\ enabledNames "u1" Cases.twoToolkits = ["gmail"]
  /\ (List.In "gmail" (enabledNames "u1" Cases.twoToolkits)
      <-> isEnabled "u1" "gmail" Cases.twoToolkits = true)
  /\ isEnabled "u1" "github" Cases.twoToolkits = false.
Proof.
  intros env.
  assert (Hkeys : uniqueKeys Cases.twoToolkits).
  { split; simpl; repeat constructor; simpl; intuition discriminate. }
  split; [exact Hkeys|]. split; [reflexivity|].
  split; [|reflexivity].
  destruct (list_queries_agree_with_lookups env "u1" Cases.twoToolkits
              Hkeys eq_refl)
    as (_ & Hnames & _).
  exact (Hnames "gmail").
Defined.

(** X21. On well-formed tables the switch decides what the next session
    is asked for: after [toggleToolkit] the toolkit is among the names
    handed to the service exactly when it was switched on, after
    [disconnect] it is not among them, and in both cases every other
    toolkit of the user is among them exactly when it was before. *)
Theorem session_toolkits_follow_switch (env : Env) (user toolkitName : string)
  (w : World) :
  wellFormed w ->
  Router.requireAuth env = Router.Return user ->
  (forall enabled,
     let w' := snd (Router.toggleToolkit env toolkitName enabled w) in
     (List.In toolkitName (enabledNames user w') <-> enabled = true)
     /\ forall other,
          other <> toolkitName ->
          (List.In other (enabledNames user w')
           <-> List.In other (enabledNames user w)))
  /\ (let w' := snd (Router.disconnect env toolkitName w) in
      ~ List.In toolkitName (enabledNames user w')
      /\ forall other,
           other <> toolkitName ->
           (List.In other (enabledNames user w')
            <-> List.In other (enabledNames user w))).
Proof.
  intros Hwf Hauth.
  assert (Helse :
            forall w', pairSteps user toolkitName w w' ->
              forall other, other <> toolkitName ->
                (List.In other (enabledNames user w')
                 <-> List.In other (enabledNames user w))).
  { intros w' Hsteps other Hother.
    pose proof (pairSteps_wellFormed _ _ _ _ Hsteps Hwf) as [[_ Hek'] _].
    pose proof Hwf as [[_ Hek] _].
    rewrite (enabledNames_In user other w' Hek').
    rewrite (enabledNames_In user other w Hek).
    destruct (pairSteps_sameElsewhere _ _ _ _ Hsteps Hwf user other)
      as [_ Hsame]; [congruence|].
    unfold isEnabled. rewrite Hsame. reflexivity. }
  split.
  - intros enabled w'. subst w'.
    pose proof (toggleToolkit_steps env user toolkitName enabled w Hauth)
      as Hsteps.
    split; [|exact (Helse _ Hsteps)].
    pose proof (pairSteps_wellFormed _ _ _ _ Hsteps Hwf) as [[_ Hek'] _].
    rewrite (enabledNames_In user toolkitName _ Hek').
    destruct (toggleToolkit_flag env user toolkitName enabled w Hauth)
      as [Hflag _].
    rewrite Hflag. reflexivity.
  - intros w'. subst w'.
    pose proof (disconnect_steps env user toolkitName w Hauth) as Hsteps.
    split; [|exact (Helse _ Hsteps)].
    pose proof (pairSteps_wellFormed _ _ _ _ Hsteps Hwf) as [[_ Hek'] _].
    rewrite (enabledNames_In user toolkitName _ Hek').
    destruct (disconnect_run env user toolkitName w Hauth)
      as (_ & _ & Hen & _).
    unfold isEnabled, enabledRecord, Db.selectGet. rewrite Hen.
    rewrite find_updateWhere by (intros r; reflexivity).
    destruct (List.find _ (enabledToolkits w)) as [r|] eqn:Hfind; simpl;
      [|discriminate].
    apply List.find_some in Hfind. destruct Hfind as [_ Hp].
    rewrite Hp. simpl. discriminate.
Qed.

Lemma session_toolkits_follow_switch_witness :
  let env := Scenario.envWith Scenario.u1 "ACTIVE" in
  let w := Scenario.connectedWorld in
  wellFormed w
  /\ enabledNames "u1" w = ["github"]
  /\ ~ List.In "github"
         (enabledNames "u1" (snd (Router.toggleToolkit env "github" false w)))
  /\ ~ List.In "github"
         (enabledNames "u1" (snd (Router.disconnect env "github" w))).
Proof.
  intros env w.
  destruct (session_toolkits_follow_switch env "u1" "github" w
              wellFormed_connectedWorld eq_refl)
    as [Htoggle [Hdisconnect _]].
  destruct (Htoggle false) as [Hoff _].
  split; [exact wellFormed_connectedWorld|]. split; [reflexivity|].
  split; [|exact Hdisconnect].
  intros Hin. apply Hoff in Hin. discriminate Hin.
Defined.

(** ** Listing the toolkits *)

Section MapFacts.
Context {A V : Type}.

Lemma fold_last_match (kf : A -> string) (vf : A -> V) (k : string)
  (l : list A) (found : option V) :
  (forall a b, List.In a l -> List.In b l -> kf a = k -> kf b = k -> a = b) ->
  List.fold_left
    (fun found entry => if fst entry =? k then Some (snd entry) else found)
    (List.map (fun r => (kf r, vf r)) l) found
  = match List.find (fun r => kf r =? k) l with
    | Some r => Some (vf r)
    | None => found
    end.
Proof.
  revert found. induction l as [|x l IH]; intros found Huniq; simpl;
    [reflexivity|].
  rewrite IH by (intros a b Ha Hb; apply Huniq; now right).
  destruct (kf x =? k) eqn:Hx; [|reflexivity].
  destruct (List.find (fun r => kf r =? k) l) as [r|] eqn:Hfind;
    [|reflexivity].
  apply List.find_some in Hfind. destruct Hfind as [Hin Hr].
  apply String.eqb_eq in Hx, Hr.
  now rewrite (Huniq x r (or_introl eq_refl) (or_intror Hin) Hx Hr).
Qed.

Lemma find_filter (p q : A -> bool) (l : list A) :
  List.find p (List.filter q l) = List.find (fun x => (q x && p x)%bool) l.
Proof.
  induction l as [|x l IH]; simpl; [reflexivity|].
  destruct (q x); simpl; [|exact IH].
  destruct (p x); [reflexivity | exact IH].
Qed.

End MapFacts.

Lemma connectionMap_get (user name : string) (w : World) :
  NoDup (List.map connectionKey (connections w)) ->
  JsMap.get
    (List.map (fun c => (c_toolkitName c, c))
       (List.filter (fun c => c_clerkUserId c =? user) (connections w)))
    (Some name)
  = connectionRecord user name w.
Proof.
  intros Hnodup. unfold JsMap.get.
  rewrite (fold_last_match c_toolkitName (fun c => c)).
  - rewrite find_filter. unfold connectionRecord, Db.selectGet.
    change (fun x : ConnectionRecord =>
              ((c_clerkUserId x =? user) && (c_toolkitName x =? name))%bool)
      with (Db.connectionOf user name).
    now destruct (List.find _ (connections w)).
  - intros a b Ha Hb Hka Hkb.
    apply List.filter_In in Ha, Hb. destruct Ha as [Ha Hua], Hb as [Hb Hub].
    apply String.eqb_eq in Hua, Hub.
    apply (NoDup_map_In_inj connectionKey (connections w) a b Hnodup Ha Hb).
    unfold connectionKey. congruence.
Qed.

Lemma enabledMap_get (user name : string) (w : World) :
  NoDup (List.map enabledKey (enabledToolkits w)) ->
  JsMap.get
    (List.map (fun e => (e_toolkitName e, e_enabled e))
       (List.filter (fun e => e_clerkUserId e =? user) (enabledToolkits w)))
    (Some name)
  = option_map e_enabled (enabledRecord user name w).
Proof.
  intros Hnodup. unfold JsMap.get.
  rewrite (fold_last_match e_toolkitName e_enabled).
  - rewrite find_filter. unfold enabledRecord, Db.selectGet.
    change (fun x : EnabledToolkitRecord =>
              ((e_clerkUserId x =? user) && (e_toolkitName x =? name))%bool)
      with (Db.enabledOf user name).
    now destruct (List.find _ (enabledToolkits w)).
  - intros a b Ha Hb Hka Hkb.
    apply List.filter_In in Ha, Hb. destruct Ha as [Ha Hua], Hb as [Hb Hub].
    apply String.eqb_eq in Hua, Hub.
    apply (NoDup_map_In_inj enabledKey (enabledToolkits w) a b Hnodup Ha Hb).
    unfold enabledKey. congruence.
Qed.

(** X22. With the unique index on (user, toolkit) in force, [listToolkits]
    shows for a logged-in user what the tables hold: it lists the toolkits
    of the catalogue in their order, each one named with the status, the
    enabled flag and the connection time of its pair (disconnected, off
    and no time for a pair without a row), each one without a name as
    disconnected and off; and it writes nothing. *)
Theorem listToolkits_shows_stored_state (env : Env) (user : string)
  (answer : CatalogueAnswer) (w : World) :
  uniqueKeys w ->
  ComposioService.isConfigured env = true ->
  Router.requireAuth env = Router.Return user ->
  let out := Listing.listToolkits env answer w in
  snd out = w
  /\ configured (fst out) = true
  /\ List.map lt_toolkit (listed (fst out))
     = Listing.listAvailableToolkits env answer
  /\ forall entry,
       List.In entry (listed (fst out)) ->
       match at_name (lt_toolkit entry) with
       | Some name =>
           lt_status entry = currentStatus user name w
           /\ lt_enabled entry = isEnabled user name w
           /\ lt_connectedAt entry
              = match connectionRecord user name w with
                | Some row => c_connectedAt row
                | None => None
                end
       | None =>
           lt_status entry = disconnected
           /\ lt_enabled entry = false
           /\ lt_connectedAt entry = None
       end.
Proof.
  intros [Hck Hek] Hkey Hauth out. subst out.
  unfold Listing.listToolkits. rewrite Hkey, Hauth.
  unfold bind, gets, ret. cbn [negb fst snd configured listed].
  split; [reflexivity|]. split; [reflexivity|].
  split.
  - rewrite List.map_map. cbn [lt_toolkit]. apply List.map_id.
  - intros entry Hin. apply List.in_map_iff in Hin.
    destruct Hin as (toolkit & <- & _). cbn [lt_toolkit lt_status lt_enabled
                                              lt_connectedAt].
    destruct (at_name toolkit) as [name|]; [|repeat split; reflexivity].
    rewrite (connectionMap_get user name w Hck).
    rewrite (enabledMap_get user name w Hek).
    unfold currentStatus, isEnabled.
    destruct (enabledRecord user name w); repeat split; reflexivity.
Qed.

Lemma listToolkits_shows_stored_state_witness :
  let env := Scenario.envWith Scenario.u1 "ACTIVE" in
  let w := Cases.twoToolkits in
  let shown := listed (fst (Listing.listToolkits env catalogue w)) in
  uniqueKeys w
  /\ List.map (fun entry => (at_name (lt_toolkit entry), lt_status entry,
                             lt_enabled entry)) shown
     = [(Some "github", connected, false);
        (Some "gmail", connected, true);
        (None, disconnected, false)]
  /\ List.map lt_toolkit shown = Listing.listAvailableToolkits env catalogue.
Proof.
  intros env w shown.
  assert (Hkeys : uniqueKeys w).
  { split; simpl; repeat constructor; simpl; intuition discriminate. }
  destruct (listToolkits_shows_stored_state env "u1" catalogue w Hkeys
              eq_refl eq_refl)
    as (_ & _ & Hsame & _).
  split; [exact Hkeys|]. split; [reflexivity | exact Hsame].
Defined.

(** ** When the session caches are reset *)

Lemma getConnectedAccounts_service (env : Env) (w : World) :
  service (snd (ComposioService.getConnectedAccounts env w)) = service w.
Proof.
  unfold ComposioService.getConnectedAccounts. run.
  repeat (branch; simpl); reflexivity.
Qed.

(** X23. For a logged-in user the five caches of the service are reset by
    every toggle, every disconnect and every poll that finds the toolkit
    connected, and by nothing else: [connect], a poll with any other
    outcome and [syncConnections] (also when it enables toolkits) leave
    the cached session, its toolkit list and the cached access URL as they
    were. *)
Theorem session_reset_exactly_by (env : Env) (user : string) (op : Operation)
  (w : World) :
  Router.requireAuth env = Router.Return user ->
  service (perform (env, op) w)
  = if resetsSession env op w then initialCache else service w.
Proof.
  intros Hauth.
  destruct op as [toolkitName displayName|toolkitName|toolkitName enabled
                 |toolkitName|]; unfold perform, resetsSession.
  - unfold Router.connect. rewrite Hauth.
    unfold bind, now, gets, modify, ret, Db.insertConnection.
    destruct (Db.selectGet _ (connections w)); cbv beta iota zeta;
      match goal with
      | |- context [ComposioService.authorizeToolkit env toolkitName ?w1] =>
        pose proof (authorizeToolkit_frame env toolkitName w1) as Hframe;
        cbv zeta in Hframe;
        destruct (ComposioService.authorizeToolkit env toolkitName w1)
          as [[link|] w2]
      end; simpl in *; destruct Hframe as (_ & _ & _ & Hs); exact Hs.
  - destruct (disconnect_run env user toolkitName w Hauth) as (_ & _ & _ & Hs).
    exact Hs.
  - rewrite (toggleToolkit_run env user toolkitName enabled w Hauth).
    reflexivity.
  - rewrite (pollConnectionStatus_run env user toolkitName w Hauth).
    cbv zeta. cbn [snd].
    destruct (getConnectionStatus_frame env toolkitName w) as (_ & _ & Hs).
    destruct (status_eqb _ connected); [reflexivity | exact Hs].
  - unfold Router.syncConnections. rewrite Hauth. unfold bind, ret.
    pose proof (getConnectedAccounts_service env w) as Hs.
    destruct (ComposioService.getConnectedAccounts env w) as [accounts w1].
    pose proof (syncAccounts_frame env user accounts 0 w1) as [Hs' _].
    destruct (Router.syncAccounts env user accounts 0 w1) as [synced w2].
    simpl in *. congruence.
Qed.

Lemma session_reset_exactly_by_witness :
  let env := Scenario.envWith Scenario.u1 "ACTIVE" in
  let w := Cases.afterGmailConfig in
  Router.requireAuth env = Router.Return "u1"
  /\ enabledNames "u1" w = ["gmail"]
  /\ enabledNames "u1" (perform (env, SyncConnections) w) = ["gmail"; "github"]
  /\ service (perform (env, SyncConnections) w) = service w
  /\ cachedToolkits (service w) = ["gmail"].
Proof.
  intros env w.
  split; [reflexivity|]. split; [reflexivity|]. split; [reflexivity|].
  split; [|reflexivity].
  exact (session_reset_exactly_by env "u1" SyncConnections w eq_refl).
Defined.
